(** * Bangladesh food-security simulation: the year-stepped scenario runner

    A shallow embedding of [run_full_simulation.py] and of the three domain
    models whose behaviour the orchestration properties depend on
    ([socioeconomic_dynamics.py], [market_dynamics.py],
    [nutritional_outcomes.py]).

    Python objects are embedded as the type [Value] below.  A Python [float]
    is an exact rational ([VNum]), so rounding is not modelled; the IEEE
    not-a-number [np.nan] is the separate constructor [VNaN]; [VInt] is a
    Python [int] where the program needs one (years, [range] bounds), and
    the result of arithmetic is always recorded as a [VNum].  Python
    exceptions are the left summand of [Exc]. *)

From Stdlib Require Import List String ZArith QArith Qminmax Lia Bool.
Import ListNotations.
Open Scope string_scope.
Set Warnings "-register-all".

(** ** Python values *)

Inductive Value : Type :=
| VNone
| VInt (z : Z)
| VNum (q : Q)
| VNaN
| VStr (s : string)
| VList (l : list Value)
| VDict (d : list (string * Value))
| VSeries (xs : list Value)
| VFrame (cols : list (string * list Value)).

Inductive Exn : Type :=
| AttributeError (what : string)
| KeyError (what : string)
| TypeError (what : string)
| NameError (what : string)
| IndexError (what : string)
| ValueError (what : string)
| OSError (what : string)
| ZeroDivisionError.

Definition Exc (A : Type) : Type := (Exn + A)%type.

Definition ret {A} (a : A) : Exc A := inr a.
Definition raise {A} (e : Exn) : Exc A := inl e.
Definition bind {A B} (m : Exc A) (k : A -> Exc B) : Exc B :=
  match m with
  | inl e => inl e
  | inr a => k a
  end.

Notation "x <- m ;; k" := (bind m (fun x => k))
  (at level 61, m at next level, right associativity).

(** [try: body except Exception: handler] *)
Definition try_except {A} (body : Exc A) (handler : Exn -> Exc A) : Exc A :=
  match body with
  | inl e => handler e
  | inr a => inr a
  end.

(** ** Dictionaries: insertion-ordered association lists with unique lookup *)

Fixpoint assoc {A} (k : string) (d : list (string * A)) : option A :=
  match d with
  | [] => None
  | (k', v) :: d' => if String.eqb k k' then Some v else assoc k d'
  end.

Fixpoint setitem {A} (k : string) (v : A) (d : list (string * A)) : list (string * A) :=
  match d with
  | [] => [(k, v)]
  | (k', v') :: d' =>
      if String.eqb k k' then (k', v) :: d' else (k', v') :: setitem k v d'
  end.

(** [obj.get(key, default)]: defined on dicts and, column-wise, on pandas
    frames; any other receiver has no attribute [get]. *)
Definition py_get (obj : Value) (k : string) (default : Value) : Exc Value :=
  match obj with
  | VDict d => ret (match assoc k d with Some v => v | None => default end)
  | VFrame cols => ret (match assoc k cols with Some xs => VSeries xs | None => default end)
  | VSeries _ => ret default
  | _ => raise (AttributeError "get")
  end.

(** [obj.get(key, <expr>)] where the default is itself a call: the attribute
    [get] is looked up on the receiver before the argument is evaluated. *)
Definition py_get_with (obj : Value) (k : string) (default : Exc Value) : Exc Value :=
  match obj with
  | VDict _ | VFrame _ | VSeries _ => d <- default ;; py_get obj k d
  | _ => raise (AttributeError "get")
  end.

(** [obj[key]] with a string key. *)
Definition py_getitem (obj : Value) (k : string) : Exc Value :=
  match obj with
  | VDict d => match assoc k d with Some v => ret v | None => raise (KeyError k) end
  | VFrame cols => match assoc k cols with Some xs => ret (VSeries xs) | None => raise (KeyError k) end
  | _ => raise (TypeError "not subscriptable")
  end.

(** [obj[-1]]: the last element of a list; on a pandas Series with the default
    integer index the subscript is a label, and no row is labelled [-1]. *)
Definition py_last (obj : Value) : Exc Value :=
  match obj with
  | VList l => match rev l with
               | x :: _ => ret x
               | [] => raise (IndexError "list index out of range")
               end
  | VSeries _ => raise (KeyError "-1")
  | VDict _ => raise (KeyError "-1")
  | VFrame _ => raise (KeyError "-1")
  | _ => raise (TypeError "not subscriptable")
  end.

Definition is_dict (v : Value) : bool :=
  match v with VDict _ => true | _ => false end.

(** [isinstance(v, (int, float))] *)
Definition is_number (v : Value) : bool :=
  match v with VInt _ | VNum _ | VNaN => true | _ => false end.

(** [key in obj] for a dict receiver. *)
Definition py_in (k : string) (obj : Value) : bool :=
  match obj with
  | VDict d => match assoc k d with Some _ => true | None => false end
  | _ => false
  end.

(** Truthiness of a value used as a condition. *)
Definition truthy (v : Value) : bool :=
  match v with
  | VNone => false
  | VInt z => negb (Z.eqb z 0)
  | VNum q => negb (Qeq_bool q 0)
  | VNaN => true
  | VStr s => negb (String.eqb s EmptyString)
  | VList l => match l with [] => false | _ => true end
  | VDict d => match d with [] => false | _ => true end
  | VSeries _ => true
  | VFrame _ => true
  end.

(** ** Arithmetic and comparison on values *)

(** The numeric reading of a value: [Some (Some q)] for an [int] or a finite
    [float], [Some None] for NaN, [None] for anything that is not a number. *)
Definition as_float (v : Value) : option (option Q) :=
  match v with
  | VInt z => Some (Some (inject_Z z))
  | VNum q => Some (Some q)
  | VNaN => Some None
  | _ => None
  end.

Definition arith (op : Q -> Q -> Q) (what : string) (a b : Value) : Exc Value :=
  match as_float a, as_float b with
  | Some (Some x), Some (Some y) => ret (VNum (op x y))
  | Some _, Some _ => ret VNaN
  | _, _ => raise (TypeError what)
  end.

Definition py_add : Value -> Value -> Exc Value := arith Qplus "+".
Definition py_sub : Value -> Value -> Exc Value := arith Qminus "-".
Definition py_mul : Value -> Value -> Exc Value := arith Qmult "*".

Definition py_div (a b : Value) : Exc Value :=
  match as_float a, as_float b with
  | Some (Some x), Some (Some y) =>
      if Qeq_bool y 0 then raise ZeroDivisionError else ret (VNum (x / y))
  | Some None, Some (Some y) =>
      if Qeq_bool y 0 then raise ZeroDivisionError else ret VNaN
  | Some _, Some None => ret VNaN
  | _, _ => raise (TypeError "/")
  end.

Definition Qlt_bool (x y : Q) : bool := negb (Qle_bool y x).

(** [a < b]; every comparison with NaN is false. *)
Definition py_lt (a b : Value) : Exc bool :=
  match as_float a, as_float b with
  | Some (Some x), Some (Some y) => ret (Qlt_bool x y)
  | Some _, Some _ => ret false
  | _, _ => raise (TypeError "<")
  end.

Definition py_gt (a b : Value) : Exc bool := py_lt b a.

(** [a != q] against a numeric literal. *)
Definition py_ne_num (a : Value) (q : Q) : bool :=
  match as_float a with
  | Some (Some x) => negb (Qeq_bool x q)
  | _ => true
  end.

(** [a == q] against a numeric literal. *)
Definition py_eq_num (a : Value) (q : Q) : bool := negb (py_ne_num a q).

(** [max(a, b)]: the builtin keeps its first argument unless the second
    compares greater. *)
Definition py_max (a b : Value) : Exc Value :=
  g <- py_gt b a ;; ret (if g then b else a).

Definition num (q : Q) : Value := VNum q.
Definition empty_dict : Value := VDict [].

Definition of_year (y : Z) : Value := VInt y.

(** [obj.items()] *)
Definition py_items (obj : Value) : Exc (list (string * Value)) :=
  match obj with
  | VDict d => ret d
  | VFrame cols => ret (map (fun '(c, xs) => (c, VSeries xs)) cols)
  | _ => raise (AttributeError "items")
  end.

(** [for k, v in items: s = body k v s], stopping at the first exception. *)
Fixpoint for_items {S} (items : list (string * Value))
         (body : string -> Value -> S -> Exc S) (s : S) : Exc S :=
  match items with
  | [] => ret s
  | (k, v) :: rest => s' <- body k v s ;; for_items rest body s'
  end.

Fixpoint for_each {X S} (xs : list X) (body : X -> S -> Exc S) (s : S) : Exc S :=
  match xs with
  | [] => ret s
  | x :: rest => s' <- body x s ;; for_each rest body s'
  end.

(** Decimal literals of the source, as exact rationals. *)
Definition dec (n : Z) (d : positive) : Value := VNum (n # d).

(** * nutritional_outcomes.py *)

Module Nutrition.

Record Model : Type := mkModel {
  dietary_params : Value;
  status_params : Value;
  micronutrient_params : Value;
  health_access_params : Value;
  historical_nutrition_data : Value;
  food_composition : Value
}.

Definition _load_food_composition_data : Value :=
  VDict [
    ("rice", VDict [("energy_kcal", num 360); ("protein_g", num 7); ("iron_mg", dec 8 10); ("zinc_mg", dec 11 10)]);
    ("wheat", VDict [("energy_kcal", num 340); ("protein_g", num 12); ("iron_mg", dec 35 10); ("zinc_mg", dec 27 10)]);
    ("pulses", VDict [("energy_kcal", num 345); ("protein_g", num 22); ("iron_mg", num 6); ("zinc_mg", num 3)]);
    ("vegetables", VDict [("energy_kcal", num 30); ("protein_g", dec 15 10); ("iron_mg", num 1); ("zinc_mg", dec 3 10); ("vitA_mcg", num 300)]);
    ("milk", VDict [("energy_kcal", num 60); ("protein_g", dec 33 10); ("calcium_mg", num 120)]);
    ("eggs", VDict [("energy_kcal", num 145); ("protein_g", dec 125 10); ("iron_mg", dec 18 10); ("vitA_mcg", num 140)]);
    ("fish", VDict [("energy_kcal", num 110); ("protein_g", num 20); ("zinc_mg", dec 6 10); ("omega3_g", num 1)]);
    ("meat", VDict [("energy_kcal", num 200); ("protein_g", num 25); ("iron_mg", dec 25 10); ("zinc_mg", num 4)])
  ].

(** [NutritionalOutcomesModel.__init__] *)
Definition init (config : Value) : Exc Model :=
  dp <- py_get config "dietary_params" empty_dict ;;
  sp <- py_get config "status_params" empty_dict ;;
  mp <- py_get config "micronutrient_params" empty_dict ;;
  hp <- py_get config "health_access_params" empty_dict ;;
  ret (mkModel dp sp mp hp empty_dict _load_food_composition_data).

Definition years_2020_2022 : list Value := [num 2020; num 2021; num 2022].

(** The placeholder frames installed by [load_historical_data]; the
    [data_handler] argument is not used. *)
Definition placeholder_history : Value :=
  VDict [
    ("stunting_prevalence",
      VFrame [("year", years_2020_2022); ("rate", [dec 31 100; dec 30 100; dec 29 100])]);
    ("wasting_prevalence",
      VFrame [("year", years_2020_2022); ("rate", [dec 8 100; dec 8 100; dec 75 1000])]);
    ("anemia_prevalence",
      VFrame [("year", years_2020_2022); ("rate", [dec 40 100; dec 39 100; dec 38 100])])
  ].

Definition load_historical_data (self : Model) (data_handler : Value) : Model :=
  mkModel (dietary_params self) (status_params self) (micronutrient_params self)
          (health_access_params self) placeholder_history (food_composition self).

Definition _estimate_food_consumption (self : Model) (year : Z)
    (food_availability market_prices income_levels : Value) : Exc Value :=
  items <- py_items food_availability ;;
  consumption <-
    for_items items (fun food_group available_qty consumption =>
      consumption_ratio <-
        py_get (dietary_params self) (food_group ++ "_consumption_ratio") (dec 9 10) ;;
      c <- py_mul available_qty consumption_ratio ;;
      ret (setitem food_group c consumption)) [] ;;
  ret (VDict consumption).

Definition initial_total_intake : list (string * Value) :=
  [("energy_kcal", num 0); ("protein_g", num 0); ("iron_mg", num 0);
   ("zinc_mg", num 0); ("vitA_mcg", num 0); ("calcium_mg", num 0)].

Definition _calculate_nutrient_intake (self : Model) (year : Z)
    (food_consumption : Value) : Exc Value :=
  let kg_per_year_to_g_per_day := VNum (1000 / 365) in
  items <- py_items food_consumption ;;
  total_intake <-
    for_items items (fun food qty_kg_per_cap_yr total_intake =>
      if py_in food (food_composition self) then
        comp <- py_getitem (food_composition self) food ;;
        qty_g_per_cap_day <- py_mul qty_kg_per_cap_yr kg_per_year_to_g_per_day ;;
        qty_per_100g <- py_div qty_g_per_cap_day (num 100) ;;
        comp_items <- py_items comp ;;
        for_items comp_items (fun nutrient value_per_100g total_intake =>
          match assoc nutrient total_intake with
          | Some cur =>
              inc <- py_mul qty_per_100g value_per_100g ;;
              new <- py_add cur inc ;;
              ret (setitem nutrient new total_intake)
          | None => ret total_intake
          end) total_intake
      else ret total_intake) initial_total_intake ;;
  ret (VDict total_intake).

Definition status_dict (stunting wasting underweight anemia : Value) : Value :=
  VDict [
    ("stunting_prevalence", stunting);
    ("wasting_prevalence", wasting);
    ("underweight_prevalence", underweight);
    ("micronutrient_deficiency",
      VDict [("ida_prevalence", anemia);
             ("vad_prevalence", dec 20 100);
             ("znd_prevalence", dec 30 100)])
  ].

(** The dictionary returned by both [except] handlers. *)
Definition default_status : Value :=
  status_dict (dec 28 100) (dec 7 100) (dec 15 100) (dec 37 100).

(** [self.historical_nutrition_data.get(key, {}).get('rate', [fallback])[-1]] *)
Definition previous_rate (self : Model) (key : string) (fallback : Value) : Exc Value :=
  h <- py_get (historical_nutrition_data self) key empty_dict ;;
  r <- py_get h "rate" (VList [fallback]) ;;
  py_last r.

(** [stunting_change * health_access_modifier], the year's increment. *)
Definition status_change (adequate : bool) (if_adequate if_not : Value) : Value :=
  if adequate then if_adequate else if_not.

Definition health_access_modifier (self : Model) : Exc Value :=
  coverage <- py_get (health_access_params self) "coverage" (dec 5 10) ;;
  c <- py_mul coverage (dec 1 10) ;;
  py_sub (num 1) c.

Definition estimate_body (self : Model) (nutrient_intake : Value) : Exc Value :=
  prev_stunting <- previous_rate self "stunting_prevalence" (dec 28 100) ;;
  prev_wasting <- previous_rate self "wasting_prevalence" (dec 7 100) ;;
  prev_anemia <- previous_rate self "anemia_prevalence" (dec 37 100) ;;
  energy <- py_get nutrient_intake "energy_kcal" (num 0) ;;
  energy_adequate <- py_gt energy (num 2100) ;;
  protein <- py_get nutrient_intake "protein_g" (num 0) ;;
  protein_adequate <- py_gt protein (num 50) ;;
  iron <- py_get nutrient_intake "iron_mg" (num 0) ;;
  iron_adequate <- py_gt iron (num 10) ;;
  let stunting_change :=
    status_change (energy_adequate && protein_adequate) (dec (-5) 1000) (dec 2 1000) in
  let wasting_change := status_change energy_adequate (dec (-3) 1000) (dec 1 1000) in
  let anemia_change := status_change iron_adequate (dec (-1) 100) (dec 5 1000) in
  hmod <- health_access_modifier self ;;
  ds <- py_mul stunting_change hmod ;;
  s <- py_add prev_stunting ds ;;
  new_stunting <- py_max (num 0) s ;;
  dw <- py_mul wasting_change hmod ;;
  w <- py_add prev_wasting dw ;;
  new_wasting <- py_max (num 0) w ;;
  da <- py_mul anemia_change hmod ;;
  a <- py_add prev_anemia da ;;
  new_anemia <- py_max (num 0) a ;;
  sw <- py_add new_stunting new_wasting ;;
  underweight <- py_div sw (num 2) ;;
  ret (status_dict new_stunting new_wasting underweight new_anemia).

Definition _estimate_nutritional_status (self : Model) (year : Z)
    (nutrient_intake health_factors socioecon_factors : Value) : Exc Value :=
  try_except (estimate_body self nutrient_intake) (fun _ => ret default_status).

Definition default_food_availability : Value :=
  VDict [("rice", num 150); ("wheat", num 20); ("pulses", num 8); ("vegetables", num 60);
         ("milk", num 30); ("eggs", num 5); ("fish", num 25); ("meat", num 10)].

Definition default_consumption : Value :=
  VDict [("rice", num 142); ("wheat", num 19); ("pulses", num 8); ("vegetables", num 57);
         ("milk", num 28); ("eggs", num 5); ("fish", num 24); ("meat", num 9)].

Definition default_nutrient_intake : Value :=
  VDict [("energy_kcal", num 2200); ("protein_g", num 55); ("iron_mg", num 12);
         ("zinc_mg", num 8); ("vitA_mcg", num 600); ("calcium_mg", num 700)].

Definition outcomes_dict (year : Z) (consumption intake status : Value) : Value :=
  VDict [
    ("year", of_year year);
    ("estimated_per_capita_consumption_kg", consumption);
    ("average_nutrient_intake_per_capita_day", intake);
    ("nutritional_status_indicators", status)
  ].

Definition simulate_nutritional_outcomes (self : Model) (year : Z)
    (food_availability market_prices socioeconomic_state health_state : Value) : Exc Value :=
  let food_availability :=
    match food_availability with VNone => empty_dict | v => v end in
  let market_prices :=
    match market_prices with VNone => empty_dict | v => v end in
  let food_availability :=
    if truthy food_availability then food_availability else default_food_availability in
  try_except
    (income_levels <- py_get socioeconomic_state "income_distribution" empty_dict ;;
     estimated_consumption <-
       _estimate_food_consumption self year food_availability market_prices income_levels ;;
     let consumption_per_capita := estimated_consumption in
     nutrient_intake <- _calculate_nutrient_intake self year consumption_per_capita ;;
     let health_factors := health_state in
     nutritional_status <-
       _estimate_nutritional_status self year nutrient_intake health_factors socioeconomic_state ;;
     ret (outcomes_dict year consumption_per_capita nutrient_intake nutritional_status))
    (fun _ => ret (outcomes_dict year default_consumption default_nutrient_intake default_status)).

End Nutrition.

(** * socioeconomic_dynamics.py *)

Module Socio.

Record Model : Type := mkModel {
  population_params : Value;
  economic_params : Value;
  income_params : Value;
  safety_net_params : Value;
  livelihood_params : Value;
  historical_socioeconomic_data : Value
}.

(** [SocioeconomicDynamicsModel.__init__] *)
Definition init (config : Value) : Exc Model :=
  pp <- py_get config "population_params" empty_dict ;;
  ep <- py_get config "economic_params" empty_dict ;;
  ip <- py_get config "income_params" empty_dict ;;
  sp <- py_get config "safety_net_params" empty_dict ;;
  lp <- py_get config "livelihood_params" empty_dict ;;
  ret (mkModel pp ep ip sp lp empty_dict).

(** The guarded read shared by the population and GDP steps:
    [if isinstance(data, dict): if key in data: v = data.get(key);
     if isinstance(v, (int, float)): last = v]. *)
Definition guarded_number (data : Value) (key : string) (default : Value) : Value :=
  match data with
  | VDict d =>
      match assoc key d with
      | Some v => if is_number v then v else default
      | None => default
      end
  | _ => default
  end.

Definition growth_rate (self : Model) : Exc Value :=
  py_get (population_params self) "annual_growth_rate" (dec 1 100).

Definition _simulate_population_dynamics (self : Model) (year : Z)
    (current_population_data : Value) : Exc Value :=
  growth_rate <- growth_rate self ;;
  let last_pop := guarded_number current_population_data "total_population" (num 170000000) in
  g <- py_add (num 1) growth_rate ;;
  new_pop <- py_mul last_pop g ;;
  urban <- py_mul new_pop (dec 4 10) ;;
  rural <- py_mul new_pop (dec 6 10) ;;
  ret (VDict [
    ("total_population", new_pop);
    ("urban_population", urban);
    ("rural_population", rural);
    ("age_distribution",
      VDict [("0-14", dec 28 100); ("15-64", dec 67 100); ("65+", dec 5 100)])
  ]).

Definition _simulate_economic_growth (self : Model) (year : Z)
    (current_economic_data : Value) : Exc Value :=
  gdp_growth_rate <- py_get (economic_params self) "gdp_growth_rate" (dec 6 100) ;;
  let last_gdp_pc := guarded_number current_economic_data "gdp_per_capita" (num 2200) in
  g <- py_add (num 1) gdp_growth_rate ;;
  new_gdp_pc <- py_mul last_gdp_pc g ;;
  inflation <- py_get (economic_params self) "inflation_rate" (dec 55 1000) ;;
  ret (VDict [
    ("gdp_per_capita", new_gdp_pc);
    ("sectoral_contribution",
      VDict [("agriculture", dec 12 100); ("industry", dec 35 100); ("services", dec 53 100)]);
    ("inflation_rate", inflation)
  ]).

Definition _simulate_income_distribution (self : Model) (year : Z)
    (population_data economic_data : Value) : Exc Value :=
  gini_coefficient <- py_get (income_params self) "gini_coefficient" (dec 33 100) ;;
  let gdp_per_capita :=
    match economic_data with
    | VDict d =>
        let gdp_value := match assoc "gdp_per_capita" d with Some v => v | None => num 2200 end in
        if is_number gdp_value then gdp_value else num 2200
    | _ => num 2200
    end in
  a <- py_sub gdp_per_capita (num 2200) ;;
  b <- py_div a (num 5000) ;;
  c <- py_sub (dec 25 100) b ;;
  poverty_headcount <- py_max (dec 1 10) c ;;
  ret (VDict [
    ("gini_coefficient", gini_coefficient);
    ("poverty_headcount_ratio", poverty_headcount);
    ("income_quintiles", VList [dec 8 100; dec 12 100; dec 16 100; dec 22 100; dec 42 100])
  ]).

Definition _simulate_social_safety_nets (self : Model) (year : Z)
    (economic_data governance_factors : Value) : Exc Value :=
  base_coverage <- py_get (safety_net_params self) "base_coverage" (dec 25 100) ;;
  effectiveness <- py_get (safety_net_params self) "effectiveness" (dec 7 10) ;;
  let policy_scaling :=
    match governance_factors with
    | VDict d =>
        let scaling_value :=
          match assoc "safety_net_investment_scale" d with Some v => v | None => num 1 end in
        if is_number scaling_value then scaling_value else num 1
    | _ => num 1
    end in
  coverage_rate <- py_mul base_coverage policy_scaling ;;
  ret (VDict [
    ("coverage_rate", coverage_rate);
    ("transfer_effectiveness", effectiveness);
    ("program_types", VList [VStr "cash_transfer"; VStr "food_assistance"; VStr "public_works"])
  ]).

(** The first matching location of the labour shift in the climate output. *)
Definition find_agri_labor_shift (climate_impacts : Value) : Value :=
  match climate_impacts with
  | VDict d =>
      match assoc "agri_labor_shift" d with
      | Some v => v
      | None =>
          match assoc "labor_impacts" d with
          | Some (VDict li) =>
              match assoc "agri_labor_shift" li with Some v => v | None => num 0 end
          | _ =>
              match assoc "agricultural_impacts" d with
              | Some (VDict ai) =>
                  match assoc "labor_shift" ai with Some v => v | None => num 0 end
              | _ => num 0
              end
          end
      end
  | _ => num 0
  end.

Definition _simulate_livelihoods (self : Model) (year : Z)
    (population_data economic_data climate_impacts : Value) : Exc Value :=
  let agri_labor_shift := find_agri_labor_shift climate_impacts in
  let agri_labor_shift := if is_number agri_labor_shift then agri_labor_shift else num 0 in
  agri_share <- py_sub (dec 40 100) agri_labor_shift ;;
  let industry_share := dec 25 100 in
  services_share <- py_add (dec 35 100) agri_labor_shift ;;
  t <- py_add agri_share industry_share ;;
  total_share <- py_add t services_share ;;
  shares <-
    (if py_eq_num total_share 0 then
       ret (VNum (1 / 3), VNum (1 / 3), VNum (1 / 3))
     else
       a <- py_div agri_share total_share ;;
       i <- py_div industry_share total_share ;;
       s <- py_div services_share total_share ;;
       ret (a, i, s)) ;;
  let '(agri_share, industry_share, services_share) := shares in
  remit <- py_get (livelihood_params self) "remittance_dependency" (dec 1 10) ;;
  ret (VDict [
    ("livelihood_distribution",
      VDict [("agriculture", agri_share); ("industry", industry_share);
             ("services", services_share); ("remittances_dependency", remit)]);
    ("migration_patterns",
      VDict [("rural_urban_rate", dec 15 1000); ("international_rate", dec 2 1000)])
  ]).

Definition as_dict (v : Value) : Value := if is_dict v then v else empty_dict.

Definition simulate_socioeconomic_factors (self : Model) (year : Z)
    (current_state governance_factors climate_impacts : Value) : Exc Value :=
  let current_state := as_dict current_state in
  let governance_factors := as_dict governance_factors in
  let climate_impacts := as_dict climate_impacts in
  pop_data <-
    py_get_with current_state "population"
      (py_get (historical_socioeconomic_data self) "population" empty_dict) ;;
  econ_data <-
    py_get_with current_state "economy"
      (py_get (historical_socioeconomic_data self) "gdp_per_capita" empty_dict) ;;
  population_results <- _simulate_population_dynamics self year pop_data ;;
  economic_results <- _simulate_economic_growth self year econ_data ;;
  income_results <- _simulate_income_distribution self year population_results economic_results ;;
  safety_net_results <- _simulate_social_safety_nets self year economic_results governance_factors ;;
  livelihood_results <-
    _simulate_livelihoods self year population_results economic_results climate_impacts ;;
  ret (VDict [
    ("year", of_year year);
    ("population", population_results);
    ("economy", economic_results);
    ("income_distribution", income_results);
    ("social_safety_nets", safety_net_results);
    ("livelihoods", livelihood_results)
  ]).

End Socio.

(** * market_dynamics.py *)

Module Market.

Record Model : Type := mkModel {
  supply_params : Value;
  demand_params : Value;
  price_params : Value;
  trade_params : Value;
  historical_market_data : Value;
  commodities : list string
}.

Definition commodity_list : list string :=
  ["rice"; "wheat"; "pulses"; "vegetables"; "fish"; "meat"; "milk"; "eggs"].

(** [MarketDynamicsModel.__init__] *)
Definition init (config : Value) : Exc Model :=
  sp <- py_get config "supply_params" empty_dict ;;
  dp <- py_get config "demand_params" empty_dict ;;
  pp <- py_get config "price_params" empty_dict ;;
  tp <- py_get config "trade_params" empty_dict ;;
  ret (mkModel sp dp pp tp empty_dict commodity_list).

Definition placeholder_history : Value :=
  VDict [
    ("prices", VFrame [("year", [num 2020; num 2021; num 2022]);
                       ("rice_retail", [num 45; num 48; num 50]);
                       ("wheat_retail", [num 35; num 38; num 40])]);
    ("trade", VFrame [("year", [num 2020; num 2021; num 2022]);
                      ("rice_imports", [num 500000; num 800000; num 600000])])
  ].

Definition load_historical_data (self : Model) (data_handler : Value) : Model :=
  mkModel (supply_params self) (demand_params self) (price_params self)
          (trade_params self) placeholder_history (commodities self).

(** Names bound at module level of [market_dynamics.py]. *)
Definition module_names : list string := ["np"; "pd"; "MarketDynamicsModel"].

(** Reading a variable inside a method: the local scope first (the
    parameters and the variables assigned so far; the receiver [self] is
    bound there as well), then the module's globals; a name bound in neither
    is a [NameError]. *)
Definition load_name (locals : list (string * Value)) (x : string) : Exc Value :=
  match assoc x locals with
  | Some v => ret v
  | None =>
      if existsb (String.eqb x) module_names then ret (VStr x)
      else raise (NameError x)
  end.

(** [production_data.get('total_food', {}).get(group, {}).get(item, 0)] *)
Definition food_item (production_data : Value) (group item : string) : Exc Value :=
  tf <- py_get production_data "total_food" empty_dict ;;
  g <- py_get tf group empty_dict ;;
  py_get g item (num 0).

Definition _simulate_supply (self : Model) (year : Z)
    (production_data policy_effects : Value) : Exc Value :=
  total_rice <- food_item production_data "cereals" "rice" ;;
  tpe <- py_get policy_effects "trade_policy_effects" empty_dict ;;
  export_mod <- py_get tpe "export_volume_modifier" (num 1) ;;
  rice <- py_mul total_rice export_mod ;;
  w <- food_item production_data "cereals" "wheat" ;;
  wheat <- py_mul w export_mod ;;
  tf <- py_get production_data "total_food" empty_dict ;;
  p <- py_get tf "pulses" (num 0) ;;
  pulses <- py_mul p export_mod ;;
  f <- food_item production_data "fish" "total" ;;
  fish <- py_mul f export_mod ;;
  beef <- food_item production_data "meat" "beef_mutton" ;;
  poultry <- food_item production_data "meat" "poultry" ;;
  pm <- py_mul poultry export_mod ;;
  meat <- py_add beef pm ;;
  m <- food_item production_data "other_livestock" "milk" ;;
  milk <- py_mul m export_mod ;;
  e <- food_item production_data "other_livestock" "eggs" ;;
  eggs <- py_mul e export_mod ;;
  ret (VDict [("rice", rice); ("wheat", wheat); ("pulses", pulses); ("fish", fish);
              ("meat", meat); ("milk", milk); ("eggs", eggs)]).

Definition base_demand_per_cap : list (string * Value) :=
  [("rice", num 150); ("wheat", num 25); ("pulses", num 8); ("vegetables", num 65);
   ("fish", num 25); ("meat", num 12); ("milk", num 35); ("eggs", num 6)].

Definition _simulate_demand (self : Model) (year : Z)
    (socioeconomic_state policy_effects : Value) : Exc Value :=
  pop <- py_get socioeconomic_state "population" empty_dict ;;
  population <- py_get pop "total_population" (num 170000000) ;;
  eco <- py_get socioeconomic_state "economy" empty_dict ;;
  gdp_pc <- py_get eco "gdp_per_capita" (num 2200) ;;
  market_demand <-
    for_items base_demand_per_cap (fun commodity base_pc_demand market_demand =>
      income_elasticity <-
        py_get (demand_params self) (commodity ++ "_income_elasticity") (dec 5 10) ;;
      let gdp_baseline := num 2000 in
      d <- py_sub gdp_pc gdp_baseline ;;
      r <- py_div d gdp_baseline ;;
      ie <- py_mul income_elasticity r ;;
      income_effect <- py_add (num 1) ie ;;
      spe <- py_get policy_effects "social_protection_effects" empty_dict ;;
      tvm <- py_get spe "transfer_value_modifier" (num 1) ;;
      t <- py_mul tvm (dec 1 10) ;;
      demand_mod <- py_add t (dec 9 10) ;;
      a <- py_mul base_pc_demand income_effect ;;
      b <- py_mul a population ;;
      c <- py_mul b demand_mod ;;
      ret (setitem commodity c market_demand)) [] ;;
  ret (VDict market_demand).

Definition base_prices : Value :=
  VDict [("rice", num 50); ("wheat", num 40); ("pulses", num 100); ("vegetables", num 40);
         ("fish", num 250); ("meat", num 600); ("milk", num 80); ("eggs", num 120)].

Definition tiny : Value := VNum (1 # 1000000).

(** [{c: p * margin for c, p in prices.items()}]; the margin is read from
    [price_params] once per item. *)
Definition scale_prices (self : Model) (prices : list (string * Value))
    (key : string) (default : Value) : Exc (list (string * Value)) :=
  for_items prices (fun c p acc =>
    margin <- py_get (price_params self) key default ;;
    v <- py_mul p margin ;;
    ret (setitem c v acc)) [].

Definition _simulate_price_formation (self : Model) (year : Z)
    (market_supply market_demand policy_effects trade_params : Value) : Exc Value :=
  prices <-
    for_each (commodities self) (fun commodity prices =>
      supply <- py_get market_supply commodity tiny ;;
      demand <- py_get market_demand commodity tiny ;;
      base_price <- py_get base_prices commodity (num 50) ;;
      sd <- py_add supply demand ;;
      positive <- py_gt sd (num 0) ;;
      gap_ratio <-
        (if positive : bool then
           n <- py_sub demand supply ;;
           sd' <- py_add supply demand ;;
           half <- py_div sd' (num 2) ;;
           py_div n half
         else ret (num 0)) ;;
      price_elasticity_factor <-
        py_get (price_params self) (commodity ++ "_elasticity_factor") (dec (-5) 10) ;;
      price_change_factor <-
        (if py_ne_num price_elasticity_factor 0 then
           g <- py_div gap_ratio price_elasticity_factor ;;
           py_add (num 1) g
         else ret (num 1)) ;;
      tpe <- py_get policy_effects "trade_policy_effects" empty_dict ;;
      trade_price_mod <- py_get tpe "import_price_modifier" (num 1) ;;
      a <- py_mul base_price price_change_factor ;;
      price <- py_mul a trade_price_mod ;;
      price <- py_max price (num 1) ;;
      ret (setitem commodity price prices)) [] ;;
  wholesale <- scale_prices self prices "wholesale_retail_margin" (dec 85 100) ;;
  producer <- scale_prices self wholesale "producer_wholesale_margin" (dec 7 10) ;;
  ret (VDict [("retail", VDict prices); ("wholesale", VDict wholesale);
              ("producer", VDict producer)]).

(** The two flow tables, [trade_flows['imports']] and [trade_flows['exports']]. *)
Definition flows_dict (imports exports : list (string * Value)) : Value :=
  VDict [("imports", VDict imports); ("exports", VDict exports)].

Definition _simulate_trade_flows (self : Model) (year : Z)
    (domestic_prices world_prices trade_policies : Value) : Exc Value :=
  let params :=
    [("year", of_year year); ("domestic_prices", domestic_prices);
     ("world_prices", world_prices); ("trade_policies", trade_policies)] in
  flows <-
    for_each (commodities self) (fun commodity flows =>
      let '(imports, exports) := flows in
      pp <- py_get domestic_prices "producer" empty_dict ;;
      domestic_price <- py_get pp commodity (num 0) ;;
      world_price <-
        py_get_with world_prices commodity (py_mul domestic_price (dec 12 10)) ;;
      tariff <- py_get trade_policies "import_tariff_rate" (num 0) ;;
      tw <- py_mul tariff world_price ;;
      itc <- py_get trade_policies "import_transport_cost" (num 5) ;;
      import_cost <- py_add tw itc ;;
      subsidy <- py_get trade_policies "export_subsidy_rate" (num 0) ;;
      sd <- py_mul subsidy domestic_price ;;
      etc <- py_get trade_policies "export_transport_cost" (num 6) ;;
      export_cost <- py_add sd etc ;;
      let locals :=
        (params ++ [("commodity", VStr commodity); ("domestic_price", domestic_price);
                    ("world_price", world_price); ("import_cost", import_cost);
                    ("export_cost", export_cost)])%list in
      landed <- py_add world_price import_cost ;;
      importing <- py_lt landed domestic_price ;;
      if importing : bool then
        landed' <- py_add world_price import_cost ;;
        gap <- py_sub domestic_price landed' ;;
        import_propensity <- py_div gap domestic_price ;;
        market_demand <- load_name locals "market_demand" ;;
        md <- py_get market_demand commodity (num 0) ;;
        a <- py_mul import_propensity md ;;
        q <- py_mul a (dec 1 10) ;;
        ret (setitem commodity q imports, exports)
      else
        net <- py_sub world_price export_cost ;;
        exporting <- py_lt domestic_price net ;;
        if exporting : bool then
          net' <- py_sub world_price export_cost ;;
          gap <- py_sub net' domestic_price ;;
          export_propensity <- py_div gap domestic_price ;;
          export_restriction <- py_get trade_policies "export_restriction_level" (num 0) ;;
          market_supply <- load_name locals "market_supply" ;;
          ms <- py_get market_supply commodity (num 0) ;;
          a <- py_mul export_propensity ms ;;
          b <- py_mul a (dec 1 10) ;;
          open <- py_sub (num 1) export_restriction ;;
          q <- py_mul b open ;;
          ret (imports, setitem commodity q exports)
        else ret (imports, exports)) ([], []) ;;
  ret (flows_dict (fst flows) (snd flows)).

Definition simulate_market_dynamics (self : Model) (year : Z)
    (production_data socioeconomic_state policy_effects : Value) : Exc Value :=
  market_supply <- _simulate_supply self year production_data policy_effects ;;
  market_demand <- _simulate_demand self year socioeconomic_state policy_effects ;;
  market_prices <-
    _simulate_price_formation self year market_supply market_demand policy_effects
                              (trade_params self) ;;
  world_prices <- py_get (trade_params self) "world_prices" empty_dict ;;
  trade_policies <- py_get policy_effects "trade_policy_effects" empty_dict ;;
  trade_flows <- _simulate_trade_flows self year market_prices world_prices trade_policies ;;
  ret (VDict [
    ("year", of_year year);
    ("market_supply", market_supply);
    ("market_demand", market_demand);
    ("prices", market_prices);
    ("trade_flows", trade_flows)
  ]).

End Market.

(** * run_full_simulation.py *)

(** The four models whose formulas the runner only passes through
    (agricultural production, climate resilience, food supply chain, policy
    interventions) and the file-system and rendering collaborators are taken
    as parameters: a constructor and a stepping function per model, each of
    which may raise, and one success flag per output operation.  None of the
    stepping functions assigns to its receiver, so a model is a value. *)
Record Collaborators : Type := mkCollaborators {
  AgriModel : Type;
  ClimateModel : Type;
  FscModel : Type;
  PolicyModel : Type;
  agri_init : Value -> Exc AgriModel;
  climate_init : Value -> Exc ClimateModel;
  fsc_init : Value -> Exc FscModel;
  policy_init : Value -> Exc PolicyModel;
  simulate_policy_impacts : PolicyModel -> Z -> string -> Value -> Exc Value;
  simulate_climate_resilience : ClimateModel -> Z -> Value -> Value -> Value -> Exc Value;
  simulate_production : AgriModel -> Z -> Value -> Value -> Value -> Value -> Exc Value;
  simulate_supply_chains : FscModel -> Z -> Value -> Exc Value;
  makedirs_ok : string -> bool;
  to_csv_ok : string -> bool;
  plot_ok : string -> string -> bool;
  report_ok : string -> bool
}.

(** A pandas frame as the runner builds it: named columns of equal length. *)
Definition Table : Type := list (string * list Value).

Definition nrows (t : Table) : nat :=
  match t with
  | [] => 0
  | (_, xs) :: _ => List.length xs
  end.

Definition column (c : string) (t : Table) : list Value :=
  match assoc c t with Some xs => xs | None => [] end.

(** A formatted number of the key-metrics summary, or the marker ["N/A"]. *)
Inductive Metric : Type :=
| Rendered (format : string) (x : Value)
| Message (text : string)
| NA.

Record ScenarioResult : Type := mkScenarioResult {
  scenario_name : string;
  simulation_period : Z * Z;
  config_summary : Value;
  dataframes : option Table;
  key_metrics : option (list (string * Metric));
  plot_filenames : option (list string)
}.

(** What [run_simulation_scenario] hands back: [None], the empty dict, or the
    aggregated results. *)
Inductive RunResult : Type :=
| ReturnedNone
| ReturnedEmpty
| Returned (r : ScenarioResult).

(** Console diagnostics and file-system writes, in program order. *)
Inductive Event : Type :=
| EInitError (scenario : string) (e : Exn)
| EMakedirsError (scenario : string)
| EYearStart (scenario : string) (year : Z)
| EYearError (scenario : string) (year : Z) (e : Exn)
| EAbort (scenario : string)
| ESavedCsv (scenario : string) (t : Table)
| EPlotSaved (scenario file : string)
| EPlotError (scenario file : string)
| EReportWritten (scenario : string)
| EPostProcessingError (scenario : string)
| ENoYearlyOutputs (scenario : string)
| ERunning (scenario : string)
| ECompleted (scenario : string)
| EFailed (scenario : string)
| EErrorRunning (scenario : string) (e : Exn)
| EIncomplete (scenario : string)
| ESavedComparison (t : Table)
| ENoValidResults.

Section Runner.

Variable W : Collaborators.

Record Models : Type := mkModels {
  agri_model : AgriModel W;
  climate_model : ClimateModel W;
  fsc_model : FscModel W;
  socio_model : Socio.Model;
  policy_model : PolicyModel W;
  nutrition_model : Nutrition.Model;
  market_model : Market.Model
}.

Definition init_models (parameters : Value) : Exc Models :=
  c1 <- py_get parameters "agricultural_production" empty_dict ;;
  agri <- agri_init W c1 ;;
  c2 <- py_get parameters "climate_resilience" empty_dict ;;
  climate <- climate_init W c2 ;;
  c3 <- py_get parameters "food_supply_chain" empty_dict ;;
  fsc <- fsc_init W c3 ;;
  c4 <- py_get parameters "socioeconomic_dynamics" empty_dict ;;
  socio <- Socio.init c4 ;;
  c5 <- py_get parameters "policy_interventions" empty_dict ;;
  policy <- policy_init W c5 ;;
  c6 <- py_get parameters "nutritional_outcomes" empty_dict ;;
  nutrition <- Nutrition.init c6 ;;
  c7 <- py_get parameters "market_dynamics" empty_dict ;;
  market <- Market.init c7 ;;
  ret (mkModels agri climate fsc socio policy nutrition market).

(** [nutrition_model.load_historical_data(None)] and
    [market_model.load_historical_data(None)]; neither placeholder raises. *)
Definition load_history (m : Models) : Models :=
  mkModels (agri_model m) (climate_model m) (fsc_model m) (socio_model m) (policy_model m)
           (Nutrition.load_historical_data (nutrition_model m) VNone)
           (Market.load_historical_data (market_model m) VNone).

(** [results['yearly_outputs'][-1][key] if results['yearly_outputs'] else {}] *)
Definition previous_output (yearly_outputs : list Value) (key : string) : Exc Value :=
  match rev yearly_outputs with
  | [] => ret empty_dict
  | last :: _ => py_getitem last key
  end.

Definition previous_producer_prices (yearly_outputs : list Value) : Exc Value :=
  match rev yearly_outputs with
  | [] => ret empty_dict
  | last :: _ =>
      ms <- py_getitem last "market_state" ;;
      prices <- py_getitem ms "prices" ;;
      py_getitem prices "producer"
  end.

Definition input_availability : Value :=
  VDict [("fertilizer_access", dec 9 10); ("irrigation_coverage", dec 6 10)].

Definition technology_adoption : Value :=
  VDict [("improved_seeds_rate", dec 7 10)].

(** One pass of the loop body, from [yearly_data = {'year': year}] to the
    record that is appended; the second component is the socioeconomic state
    carried into the next year. *)
Definition simulate_year (m : Models) (scenario : string) (year : Z)
    (current_socioeconomic_state current_health_state : Value)
    (yearly_outputs : list Value) : Exc (Value * Value) :=
  let yearly_data := [("year", of_year year)] in
  (* 1. Policy Interventions *)
  prev_production <- previous_output yearly_outputs "production_output" ;;
  prev_market <- previous_output yearly_outputs "market_state" ;;
  prev_supply_chain <- previous_output yearly_outputs "supply_chain_output" ;;
  let system_state_for_policy :=
    VDict [("socioeconomic", current_socioeconomic_state);
           ("agricultural_production", prev_production);
           ("market_dynamics", prev_market);
           ("food_supply_chain", prev_supply_chain)] in
  policy_impacts_for_year <-
    simulate_policy_impacts W (policy_model m) year scenario system_state_for_policy ;;
  let yearly_data := setitem "policy_impacts" policy_impacts_for_year yearly_data in
  (* 2. Climate Simulation *)
  prev_agri_state <- previous_output yearly_outputs "production_output" ;;
  climate_resilience_output <-
    simulate_climate_resilience W (climate_model m) year prev_agri_state
      current_socioeconomic_state policy_impacts_for_year ;;
  let yearly_data := setitem "climate_resilience_output" climate_resilience_output yearly_data in
  (* 3. Socioeconomic Dynamics *)
  current_socioeconomic_state <-
    Socio.simulate_socioeconomic_factors (socio_model m) year current_socioeconomic_state
      policy_impacts_for_year climate_resilience_output ;;
  let yearly_data := setitem "socioeconomic_state" current_socioeconomic_state yearly_data in
  (* 4. Agricultural Production *)
  prev_market_prices <- previous_producer_prices yearly_outputs ;;
  production_output <-
    simulate_production W (agri_model m) year climate_resilience_output
      input_availability technology_adoption prev_market_prices ;;
  let yearly_data := setitem "production_output" production_output yearly_data in
  (* 5. Food Supply Chain *)
  supply_chain_output <- simulate_supply_chains W (fsc_model m) year production_output ;;
  let yearly_data := setitem "supply_chain_output" supply_chain_output yearly_data in
  food_availability_market <-
    py_get_with supply_chain_output "available_supply"
      (py_get production_output "total_food" empty_dict) ;;
  (* 6. Market Dynamics *)
  tpe <- py_get policy_impacts_for_year "trade_policy_effects" empty_dict ;;
  spe <- py_get policy_impacts_for_year "social_protection_effects" empty_dict ;;
  let policy_effects_for_market :=
    VDict [("trade_policy_effects", tpe); ("social_protection_effects", spe)] in
  market_state <-
    Market.simulate_market_dynamics (market_model m) year supply_chain_output
      current_socioeconomic_state policy_effects_for_market ;;
  let yearly_data := setitem "market_state" market_state yearly_data in
  (* 7. Nutritional Outcomes *)
  food_availability_nutrition <- py_get market_state "market_supply" empty_dict ;;
  pop <- py_getitem current_socioeconomic_state "population" ;;
  population <- py_getitem pop "total_population" ;;
  items <- py_items food_availability_nutrition ;;
  food_availability_nutrition_pc <-
    for_items items (fun k v acc =>
      positive <- py_gt population (VInt 0) ;;
      x <- (if positive : bool then
              r <- py_div v population ;; py_mul r (VInt 1000)
            else ret (VInt 0)) ;;
      ret (setitem k x acc)) [] ;;
  prices <- py_get market_state "prices" empty_dict ;;
  retail <- py_get prices "retail" empty_dict ;;
  nutritional_outcomes <-
    Nutrition.simulate_nutritional_outcomes (nutrition_model m) year
      (VDict food_availability_nutrition_pc) retail
      current_socioeconomic_state current_health_state ;;
  let yearly_data := setitem "nutritional_outcomes" nutritional_outcomes yearly_data in
  ret (VDict yearly_data, current_socioeconomic_state).

(** [range(start, stop)] *)
Definition py_range (start stop : Z) : list Z :=
  map (fun i => (start + Z.of_nat i)%Z) (seq 0 (Z.to_nat (stop - start))).

(** The [for year in ...] loop.  The result is the log and, unless a year
    failed, the completed [yearly_outputs]. *)
Fixpoint year_loop (m : Models) (scenario : string) (years : list Z)
    (current_socioeconomic_state current_health_state : Value)
    (yearly_outputs : list Value) : list Event * option (list Value) :=
  match years with
  | [] => ([], Some yearly_outputs)
  | year :: rest =>
      match simulate_year m scenario year current_socioeconomic_state
                          current_health_state yearly_outputs with
      | inl e => ([EYearStart scenario year; EYearError scenario year e; EAbort scenario], None)
      | inr (yearly_data, state') =>
          let '(log, r) :=
            year_loop m scenario rest state' current_health_state
                      (yearly_outputs ++ [yearly_data])%list in
          (EYearStart scenario year :: log, r)
      end
  end.

(** ** Aggregation *)

(** [[f(res) for res in yearly_outputs]] *)
Fixpoint comprehension (f : Value -> Exc Value) (l : list Value) : Exc (list Value) :=
  match l with
  | [] => ret []
  | res :: rest => x <- f res ;; xs <- comprehension f rest ;; ret (x :: xs)
  end.

(** [res.get(a, {}).get(b, {}).get(c, np.nan)] *)
Definition path3 (a b c : string) (res : Value) : Exc Value :=
  x <- py_get res a empty_dict ;;
  y <- py_get x b empty_dict ;;
  py_get y c VNaN.

(** [res.get(a, {}).get(b, {}).get(c, {}).get(d, np.nan)] *)
Definition path4 (a b c d : string) (res : Value) : Exc Value :=
  x <- py_get res a empty_dict ;;
  y <- py_get x b empty_dict ;;
  z <- py_get y c empty_dict ;;
  py_get z d VNaN.

(** The named indicator columns of [agg_data_dict], after the [year] column. *)
Definition indicators : list (string * (Value -> Exc Value)) :=
  [("total_population", path3 "socioeconomic_state" "population" "total_population");
   ("gdp_per_capita", path3 "socioeconomic_state" "economy" "gdp_per_capita");
   ("rice_production_total", path4 "production_output" "total_food" "cereals" "rice");
   ("wheat_production_total", path4 "production_output" "total_food" "cereals" "wheat");
   ("rice_price_retail", path4 "market_state" "prices" "retail" "rice");
   ("stunting_prevalence",
      path3 "nutritional_outcomes" "nutritional_status_indicators" "stunting_prevalence");
   ("wasting_prevalence",
      path3 "nutritional_outcomes" "nutritional_status_indicators" "wasting_prevalence");
   ("avg_energy_intake",
      path3 "nutritional_outcomes" "average_nutrient_intake_per_capita_day" "energy_kcal")].

Fixpoint indicator_columns (cols : list (string * (Value -> Exc Value)))
    (yearly_outputs : list Value) : Exc Table :=
  match cols with
  | [] => ret []
  | (name, f) :: rest =>
      xs <- comprehension f yearly_outputs ;;
      t <- indicator_columns rest yearly_outputs ;;
      ret ((name, xs) :: t)
  end.

(** [agg_data_dict], and the frame [pd.DataFrame(agg_data_dict)] made of it. *)
Definition aggregate (yearly_outputs : list Value) : Exc Table :=
  years_list <- comprehension (fun res => py_get res "year" VNaN) yearly_outputs ;;
  t <- indicator_columns indicators yearly_outputs ;;
  ret (("year", years_list) :: t).

(** ** Key metrics *)

(** [pd.isnull] / [pd.notna] on a scalar entry. *)
Definition is_missing (v : Value) : bool :=
  match v with VNaN | VNone => true | _ => false end.

Definition notna (v : Value) : bool := negb (is_missing v).

(** [final_row.get(col, default)] with [final_row = agg_df.iloc[-1]]. *)
Definition final_value (t : Table) (col : string) (default : Value) : Value :=
  match assoc col t with
  | Some xs => List.last xs default
  | None => default
  end.

(** An f-string field with a float presentation type. *)
Definition render (format : string) (x : Value) : Exc Metric :=
  match x with
  | VInt _ | VNum _ | VNaN => ret (Rendered format x)
  | VStr _ => raise (ValueError "Unknown format code 'f'")
  | _ => raise (TypeError "unsupported format string")
  end.

Fixpoint sum_count (xs : list Value) (acc : Q * nat) : Exc (Q * nat) :=
  match xs with
  | [] => ret acc
  | x :: rest =>
      if is_missing x then sum_count rest acc
      else match as_float x with
           | Some (Some q) => sum_count rest (fst acc + q, S (snd acc))
           | _ => raise (TypeError "mean")
           end
  end.

(** [agg_df[col].mean()]: missing entries are skipped. *)
Definition column_mean (t : Table) (col : string) : Exc Value :=
  match assoc col t with
  | None => raise (KeyError col)
  | Some xs =>
      sc <- sum_count xs (0, O) ;;
      match snd sc with
      | O => ret VNaN
      | S _ => ret (VNum (fst sc / inject_Z (Z.of_nat (snd sc))))
      end
  end.

(** [f"{final_row.get(col, np.nan):fmt}" if pd.notna(final_row.get(col)) else "N/A"] *)
Definition guarded_final (t : Table) (col format : string) : Exc Metric :=
  if notna (final_value t col VNone) then render format (final_value t col VNaN)
  else ret NA.

Definition key_metrics_of (agg_df : Table) : Exc (list (string * Metric)) :=
  m1 <- render ",.0f" (final_value agg_df "total_population" (VInt 0)) ;;
  m2 <- render "$,.2f" (final_value agg_df "gdp_per_capita" (VInt 0)) ;;
  m3 <- guarded_final agg_df "stunting_prevalence" ".3f" ;;
  m4 <- guarded_final agg_df "wasting_prevalence" ".3f" ;;
  m5 <- guarded_final agg_df "avg_energy_intake" ".0f kcal" ;;
  mean <- column_mean agg_df "rice_production_total" ;;
  m6 <- (if notna mean then
           mean' <- column_mean agg_df "rice_production_total" ;;
           scaled <- py_div mean' (num 1000000) ;;
           render ".2f M Tonnes" scaled
         else ret NA) ;;
  ret [("Final Population", m1); ("Final GDP per Capita", m2);
       ("Final Stunting Rate", m3); ("Final Wasting Rate", m4);
       ("Avg Energy Intake (Final Year)", m5); ("Avg Rice Production", m6)].

(** ** Plots and report *)

(** [col in agg_df.columns and not agg_df[col].isnull().all()] *)
Definition has_data (t : Table) (col : string) : bool :=
  match assoc col t with
  | Some xs => negb (forallb is_missing xs)
  | None => false
  end.

Definition plots_to_make (agg_df : Table) : list string :=
  ((if has_data agg_df "rice_production_total" then ["cereal_production_ts"] else []) ++
   (if has_data agg_df "stunting_prevalence" then ["stunting_rate_ts"] else []) ++
   (if has_data agg_df "wasting_prevalence" then ["wasting_rate_ts"] else []) ++
   (if has_data agg_df "avg_energy_intake" then ["energy_intake_ts"] else []) ++
   (if has_data agg_df "rice_price_retail" then ["rice_price_ts"] else []) ++
   (let corr_cols :=
      ["rice_production_total"; "stunting_prevalence"; "rice_price_retail"; "gdp_per_capita"] in
    let valid_corr_cols := filter (has_data agg_df) corr_cols in
    if (2 <=? List.length valid_corr_cols)%nat then ["indicator_correlation"] else []))%list.

Fixpoint make_plots (scenario : string) (plots : list string)
    : list Event * list string :=
  match plots with
  | [] => ([], [])
  | filename :: rest =>
      let '(log, files) := make_plots scenario rest in
      let file := scenario ++ "_" ++ filename ++ ".png" in
      if plot_ok W scenario filename
      then (EPlotSaved scenario file :: log, file :: files)
      else (EPlotError scenario filename :: log, files)
  end.

(** The body of the [try] after aggregation; every failure inside it is
    reported and leaves what was stored in [aggregated_results] so far. *)
Definition post_process (scenario : string) (agg_df : Table) (r : ScenarioResult)
    : list Event * ScenarioResult :=
  if negb (to_csv_ok W scenario) then ([EPostProcessingError scenario], r)
  else
    let r := mkScenarioResult (scenario_name r) (simulation_period r) (config_summary r)
                              (Some agg_df) None None in
    let km :=
      match nrows agg_df with
      | O => ret [("Error", Message "No data to calculate final metrics")]
      | S _ => key_metrics_of agg_df
      end in
    match km with
    | inl _ => ([ESavedCsv scenario agg_df; EPostProcessingError scenario], r)
    | inr km =>
        let r := mkScenarioResult (scenario_name r) (simulation_period r) (config_summary r)
                                  (dataframes r) (Some km) None in
        let '(plot_log, files) := make_plots scenario (plots_to_make agg_df) in
        let r := mkScenarioResult (scenario_name r) (simulation_period r) (config_summary r)
                                  (dataframes r) (key_metrics r) (Some files) in
        ((ESavedCsv scenario agg_df :: plot_log ++
          [if report_ok W scenario then EReportWritten scenario
           else EPostProcessingError scenario])%list, r)
    end.

Definition as_int (v : Value) : Exc Z :=
  match v with
  | VInt z => ret z
  | _ => raise (TypeError "object cannot be interpreted as an integer")
  end.

(** ** The scenario runner *)

(** Everything [run_simulation_scenario] does before its year loop: reading
    the configuration, building the models, creating the result directories
    and initialising the carried state.  It either ends the call (with an
    exception or with [None]) or leaves the loop ready to start. *)
Inductive Setup : Type :=
| Ended (log : list Event) (outcome : Exc RunResult)
| Ready (m : Models) (start_year end_year : Z) (parameters : Value)
        (current_socioeconomic_state current_health_state : Value).

Definition prepare (scenario : string) (config : Value) : Setup :=
  match
    (start_year <- py_getitem config "start_year" ;;
     end_year <- py_getitem config "end_year" ;;
     parameters <- py_getitem config "parameters" ;;
     initial_state <- py_getitem config "initial_state" ;;
     ret (start_year, end_year, parameters, initial_state))
  with
  | inl e => Ended [] (inl e)
  | inr (start_year, end_year, parameters, initial_state) =>
    match init_models parameters with
    | inl e => Ended [EInitError scenario e] (ret ReturnedNone)
    | inr m =>
      let m := load_history m in
      if negb (makedirs_ok W scenario) then Ended [EMakedirsError scenario] (ret ReturnedNone)
      else
        match
          (population <- py_get initial_state "population" (num 170000000) ;;
           gdp <- py_get initial_state "gdp_per_capita" (VInt 2600) ;;
           stop <- py_add end_year (VInt 1) ;;
           first <- as_int start_year ;;
           last <- as_int end_year ;;
           ret (population, gdp, first, last))
        with
        | inl e => Ended [] (inl e)
        | inr (population, gdp, first, last) =>
          Ready m first last parameters
            (VDict [("population", VDict [("total_population", population)]);
                    ("economy", VDict [("gdp_per_capita", gdp)]);
                    ("income_distribution", VDict [("gini_coefficient", dec 32 100)])])
            (VDict [("sanitation_coverage", dec 8 10); ("disease_burden_index", num 1)])
        end
    end
  end.

(** Everything after the year loop. *)
Definition finish (scenario : string) (start_year end_year : Z) (parameters : Value)
    (loop : list Event * option (list Value)) : list Event * Exc RunResult :=
  match loop with
  | (log, None) => (log, ret ReturnedNone)
  | (log, Some yearly_outputs) =>
      match yearly_outputs with
      | [] => ((log ++ [ENoYearlyOutputs scenario])%list, ret ReturnedEmpty)
      | _ :: _ =>
          match aggregate yearly_outputs with
          | inl e => (log, inl e)
          | inr agg_df =>
              let '(post_log, r) :=
                post_process scenario agg_df
                  (mkScenarioResult scenario (start_year, end_year) parameters
                                    None None None) in
              ((log ++ post_log)%list, ret (Returned r))
          end
      end
  end.

(** The [yearly_outputs] list at the end of the year loop ([None] when a year
    failed), with the loop's log. *)
Definition run_years (m : Models) (scenario : string) (start_year end_year : Z)
    (state health : Value) : list Event * option (list Value) :=
  year_loop m scenario (py_range start_year (end_year + 1)) state health [].

(** The outcome is the log together with either the exception that left the
    function or the value it returned. *)
Definition run_simulation_scenario (scenario : string) (config : Value)
    : list Event * Exc RunResult :=
  match prepare scenario config with
  | Ended log outcome => (log, outcome)
  | Ready m start_year end_year parameters state health =>
      finish scenario start_year end_year parameters
             (run_years m scenario start_year end_year state health)
  end.

(** ** The batch: [if __name__ == "__main__"] *)

(** The scenario loop: each configuration is run inside its own [try]. *)
Fixpoint run_scenarios (scenarios : list (string * Value))
    (all_scenario_results : list (string * ScenarioResult))
    : list Event * list (string * ScenarioResult) :=
  match scenarios with
  | [] => ([], all_scenario_results)
  | (name, scenario_config) :: rest =>
      let '(run_log, outcome) := run_simulation_scenario name scenario_config in
      let '(verdict, all') :=
        match outcome with
        | inr (Returned r) => (ECompleted name, setitem name r all_scenario_results)
        | inr ReturnedNone | inr ReturnedEmpty => (EFailed name, all_scenario_results)
        | inl e => (EErrorRunning name e, all_scenario_results)
        end in
      let '(log, final) := run_scenarios rest all' in
      ((ERunning name :: run_log ++ verdict :: log)%list, final)
  end.

(** [df = annual_summary.copy(); df['scenario'] = name] *)
Definition labelled (name : string) (df : Table) : Table :=
  setitem "scenario" (repeat (VStr name) (nrows df)) df.

(** The loop that collects [comparison_data]. *)
Fixpoint collect_comparison (all_scenario_results : list (string * ScenarioResult))
    : list Event * list Table :=
  match all_scenario_results with
  | [] => ([], [])
  | (name, results) :: rest =>
      let '(log, data) := collect_comparison rest in
      match dataframes results with
      | Some df =>
          if (0 <? nrows df)%nat then (log, labelled name df :: data)
          else (EIncomplete name :: log, data)
      | None => (EIncomplete name :: log, data)
      end
  end.

Fixpoint dedup (l : list string) : list string :=
  match l with
  | [] => []
  | x :: rest => x :: filter (fun y => negb (String.eqb x y)) (dedup rest)
  end.

(** [pd.concat(frames, ignore_index=True)]: the columns of all frames, each
    frame's rows in turn, NaN where a frame lacks a column. *)
Definition concat (frames : list Table) : Table :=
  map (fun c =>
         (c, flat_map (fun df => match assoc c df with
                                 | Some xs => xs
                                 | None => repeat VNaN (nrows df)
                                 end) frames))
      (dedup (flat_map (map fst) frames)).

(** [full_comparison_df], when there is one. *)
Definition comparison_table (all_scenario_results : list (string * ScenarioResult))
    : option Table :=
  match snd (collect_comparison all_scenario_results) with
  | [] => None
  | frames => Some (concat frames)
  end.

Record BatchResult : Type := mkBatchResult {
  batch_log : list Event;
  batch_results : list (string * ScenarioResult);
  batch_comparison : option Table
}.

Definition main (scenarios : list (string * Value)) : Exc BatchResult :=
  let '(log, all_scenario_results) := run_scenarios scenarios [] in
  let report_log :=
    match all_scenario_results with
    | [] => []
    | _ :: _ =>
        [if report_ok W "bangladesh_food_security_report"
         then EReportWritten "bangladesh_food_security_report"
         else EPostProcessingError "bangladesh_food_security_report"]
    end in
  let '(warn_log, frames) := collect_comparison all_scenario_results in
  match frames with
  | [] =>
      ret (mkBatchResult (log ++ report_log ++ warn_log ++ [ENoValidResults])%list
                         all_scenario_results None)
  | _ :: _ =>
      let full_comparison_df := concat frames in
      if negb (makedirs_ok W "_comparison") then raise (OSError "_comparison")
      else
        ret (mkBatchResult
               (log ++ report_log ++ warn_log ++
                [if to_csv_ok W "_comparison" then ESavedComparison full_comparison_df
                 else EPostProcessingError "_comparison"])%list
               all_scenario_results (Some full_comparison_df))
  end.

End Runner.

(** ** The scenario definitions *)

Definition START_YEAR : Z := 2025.
Definition END_YEAR : Z := 2035.

Definition BASE_CONFIG : Value :=
  VDict [
    ("simulation_name", VStr "BD_FoodSecurity_Scenario_Baseline");
    ("start_year", VInt START_YEAR);
    ("end_year", VInt END_YEAR);
    ("initial_state",
      VDict [("population", num 170000000);
             ("gdp_per_capita", VInt 2600);
             ("stunting_rate", dec 28 100);
             ("wasting_rate", dec 8 100);
             ("rice_production", num 38000000)]);
    ("parameters",
      VDict [
        ("agricultural_production",
          VDict [("yield_trends",
                   VDict [("rice", dec 1 100); ("wheat", dec 15 1000); ("maize", dec 2 100)]);
                 ("climate_yield_sensitivity",
                   VDict [("rice", dec (-5) 100); ("wheat", dec (-7) 100)])]);
        ("climate_resilience",
          VDict [("temp_anomaly_trend", dec 3 100);
                 ("precip_change_trend", dec (-5) 1000);
                 ("adaptation_effectiveness", dec 3 10)]);
        ("food_supply_chain",
          VDict [("storage_loss_rate",
                   VDict [("cereals", dec 6 100); ("perishables", dec 15 100)]);
                 ("transport_efficiency", dec 95 100)]);
        ("socioeconomic_dynamics",
          VDict [("population_growth_rate", dec 1 100);
                 ("gdp_growth_rate", dec 65 1000);
                 ("income_elasticity_diet", dec 4 10)]);
        ("policy_interventions",
          VDict [("policy_scenario_active", VStr "baseline");
                 ("fertilizer_subsidy_level", dec 1 10);
                 ("safety_net_coverage", dec 2 10)]);
        ("nutritional_outcomes",
          VDict [("health_access_improvement_rate", dec 1 100);
                 ("base_nutrient_req",
                   VDict [("energy_kcal", VInt 2100); ("protein_g", VInt 50)])]);
        ("market_dynamics",
          VDict [("demand_elasticity", VDict [("price", dec (-3) 10); ("income", dec 4 10)]);
                 ("price_transmission", VDict [("producer_retail", dec 6 10)]);
                 ("world_prices", VDict [("rice", VInt 450); ("wheat", VInt 350)])])
      ])
  ].

(** [d[k] = v] on a dict value; any other receiver is left alone here, the
    scenario definitions only assign into dicts. *)
Definition assign (k : string) (v : Value) (d : Value) : Value :=
  match d with
  | VDict l => VDict (setitem k v l)
  | other => other
  end.

(** [d[k1][k2]...[kn] = v] *)
Fixpoint assign_path (path : list string) (v : Value) (d : Value) : Value :=
  match path with
  | [] => d
  | [k] => assign k v d
  | k :: rest =>
      match d with
      | VDict l =>
          match assoc k l with
          | Some sub => VDict (setitem k (assign_path rest v sub) l)
          | None => d
          end
      | other => other
      end
  end.

(** * policy_interventions.py *)

Module Policy.

Record Model : Type := mkModel {
  agri_policy_params : Value;
  social_policy_params : Value;
  trade_policy_params : Value;
  infra_policy_params : Value;
  policy_scenarios : Value
}.

Definition init (config : Value) : Exc Model :=
  a <- py_get config "agri_policy_params" empty_dict ;;
  s <- py_get config "social_policy_params" empty_dict ;;
  t <- py_get config "trade_policy_params" empty_dict ;;
  i <- py_get config "infra_policy_params" empty_dict ;;
  ret (mkModel a s t i empty_dict).

(** [lever = current_policies.get(key, 0) * factor] *)
Definition lever (current_policies : Value) (key : string) (factor : Value) : Exc Value :=
  x <- py_get current_policies key (VInt 0) ;; py_mul x factor.

Definition _simulate_agricultural_policy_impact (current_policies : Value) : Exc Value :=
  subsidy_effect <- lever current_policies "input_subsidy_level" (dec 5 100) ;;
  price_support_effect <- lever current_policies "price_support_level" (dec 2 100) ;;
  a <- py_sub (num 1) subsidy_effect ;;
  b <- py_add (num 1) price_support_effect ;;
  ret (VDict [("input_cost_modifier", a); ("production_incentive_modifier", b)]).

Definition _simulate_social_protection_impact (current_policies : Value) : Exc Value :=
  coverage_boost <- lever current_policies "safety_net_expansion" (dec 1 10) ;;
  transfer_increase <- py_get current_policies "transfer_value_increase" (VInt 0) ;;
  a <- py_add (num 1) coverage_boost ;;
  b <- py_add (num 1) transfer_increase ;;
  ret (VDict [("safety_net_coverage_modifier", a); ("transfer_value_modifier", b)]).

Definition _simulate_trade_policy_impact (current_policies : Value) : Exc Value :=
  import_tariff_effect <- lever current_policies "import_tariff_rate" (dec 1 10) ;;
  export_restriction_effect <- py_get current_policies "export_restriction_level" (VInt 0) ;;
  a <- py_add (num 1) import_tariff_effect ;;
  b <- py_sub (num 1) export_restriction_effect ;;
  ret (VDict [("import_price_modifier", a); ("export_volume_modifier", b)]).

Definition _simulate_infrastructure_policy_impact (current_policies : Value) : Exc Value :=
  storage_investment <- py_get current_policies "storage_investment_level" (VInt 0) ;;
  transport_investment <- py_get current_policies "transport_investment_level" (VInt 0) ;;
  storage_loss_reduction <- py_mul storage_investment (dec (-5) 100) ;;
  transport_cost_reduction <- py_mul transport_investment (dec (-8) 100) ;;
  a <- py_add (num 1) storage_loss_reduction ;;
  b <- py_add (num 1) transport_cost_reduction ;;
  ret (VDict [("storage_loss_modifier", a); ("transport_cost_modifier", b)]).

Definition simulate_policy_impacts (self : Model) (year : Z) (scenario_name : string)
    (current_system_state : Value) : Exc Value :=
  let current_policies :=
    match policy_scenarios self with
    | VDict d => match assoc scenario_name d with Some p => p | None => empty_dict end
    | _ => empty_dict
    end in
  agri_state <- py_get current_system_state "agricultural_production" empty_dict ;;
  socioecon_state <- py_get current_system_state "socioeconomic" empty_dict ;;
  market_state <- py_get current_system_state "market_dynamics" empty_dict ;;
  supply_chain_state <- py_get current_system_state "food_supply_chain" empty_dict ;;
  p1 <- py_get current_policies "agriculture" empty_dict ;;
  agri_impacts <- _simulate_agricultural_policy_impact p1 ;;
  p2 <- py_get current_policies "social_protection" empty_dict ;;
  social_impacts <- _simulate_social_protection_impact p2 ;;
  p3 <- py_get current_policies "trade" empty_dict ;;
  trade_impacts <- _simulate_trade_policy_impact p3 ;;
  p4 <- py_get current_policies "infrastructure" empty_dict ;;
  infra_impacts <- _simulate_infrastructure_policy_impact p4 ;;
  ret (VDict [
    ("year", of_year year);
    ("scenario", VStr scenario_name);
    ("agricultural_policy_effects", agri_impacts);
    ("social_protection_effects", social_impacts);
    ("trade_policy_effects", trade_impacts);
    ("infrastructure_policy_effects", infra_impacts)
  ]).

End Policy.

(** ** Collaborators for running the orchestration on concrete input

    The policy model is the one of [policy_interventions.py].  The climate,
    production and supply-chain models are stand-ins that return an output
    without the keys the runner and the market model look for, which is what
    the outputs of [simulate_climate_resilience], [simulate_production] and
    [simulate_supply_chains] look like to them; the production stand-in can
    be told to raise in one year.  Every output operation succeeds. *)
Definition standin_world (failing_year : option Z) : Collaborators :=
  mkCollaborators unit unit unit Policy.Model
    (fun _ => ret tt) (fun _ => ret tt) (fun _ => ret tt) Policy.init
    Policy.simulate_policy_impacts
    (fun _ _ _ _ _ => ret (VDict [("climate_conditions", empty_dict)]))
    (fun _ year _ _ _ _ =>
       match failing_year with
       | Some y => if (year =? y)%Z then raise (KeyError "wheat_maize")
                   else ret (VDict [("year", of_year year)])
       | None => ret (VDict [("year", of_year year)])
       end)
    (fun _ _ _ => ret (VDict [("food_availability", empty_dict)]))
    (fun _ => true) (fun _ => true) (fun _ _ => true) (fun _ => true).

(** ** The scenario table as Python builds it: objects and references

    [SCENARIOS] maps ["baseline"] to the very object [BASE_CONFIG] and the
    other names to [copy.deepcopy(BASE_CONFIG)], and the overrides are
    assignments into those objects.  Dicts are therefore objects in a store,
    held by reference; numbers and strings are immutable and held by value. *)

Module Store.

Inductive Cell : Type :=
| Lit (v : Value)
| Ref (l : nat).

Definition Obj : Type := list (string * Cell).
Definition Heap : Type := list Obj.

(** Evaluating a dict display: the values are built first, in order, then
    the dict itself. *)
Fixpoint alloc (v : Value) (h : Heap) : Heap * Cell :=
  match v with
  | VDict d =>
      let fix fields (d : list (string * Value)) (h : Heap) : Heap * Obj :=
        match d with
        | [] => (h, [])
        | (k, x) :: rest =>
            let '(h1, c) := alloc x h in
            let '(h2, cs) := fields rest h1 in
            (h2, (k, c) :: cs)
        end in
      let '(h', o) := fields d h in
      ((h' ++ [o])%list, Ref (List.length h'))
  | other => (h, Lit other)
  end.

Fixpoint reify_obj (rec : Cell -> option Value) (o : Obj) : option (list (string * Value)) :=
  match o with
  | [] => Some []
  | (k, c) :: rest =>
      match rec c, reify_obj rec rest with
      | Some v, Some vs => Some ((k, v) :: vs)
      | _, _ => None
      end
  end.

(** The value a cell denotes: the dict tree under a reference. *)
Fixpoint reify (fuel : nat) (h : Heap) (c : Cell) : option Value :=
  match c with
  | Lit v => Some v
  | Ref l =>
      match fuel with
      | O => None
      | S n =>
          match nth_error h l with
          | Some o => option_map VDict (reify_obj (reify n h) o)
          | None => None
          end
      end
  end.

Definition read (h : Heap) (c : Cell) : option Value := reify (S (List.length h)) h c.

(** [copy.deepcopy(x)] for a tree of dicts: a fresh object for every dict
    under [x].  (Python would copy an object that is reached twice only
    once; [BASE_CONFIG] has none.) *)
Definition deepcopy (h : Heap) (c : Cell) : Heap * Cell :=
  match read h c with
  | Some v => alloc v h
  | None => (h, c)
  end.

(** [c[k]] *)
Definition getitem (h : Heap) (c : Cell) (k : string) : option Cell :=
  match c with
  | Ref l => match nth_error h l with Some o => assoc k o | None => None end
  | Lit _ => None
  end.

Fixpoint update {A} (l : nat) (f : A -> A) (xs : list A) : list A :=
  match xs, l with
  | [], _ => []
  | x :: rest, O => f x :: rest
  | x :: rest, S l' => x :: update l' f rest
  end.

(** [obj[k] = c] on the object at [l]. *)
Definition store (h : Heap) (l : nat) (k : string) (c : Cell) : Heap :=
  update l (setitem k c) h.

(** [root[k1][k2]...[kn] = c]; [None] stands for the [KeyError] or
    [TypeError] of a path that cannot be followed. *)
Fixpoint store_path (h : Heap) (root : Cell) (path : list string) (c : Cell) : option Heap :=
  match path with
  | [] => None
  | [k] =>
      match root with
      | Ref l => match nth_error h l with Some _ => Some (store h l k c) | None => None end
      | Lit _ => None
      end
  | k :: rest =>
      match getitem h root k with
      | Some next => store_path h next rest c
      | None => None
      end
  end.

Fixpoint store_paths (h : Heap) (root : Cell) (assignments : list (list string * Value))
    : option Heap :=
  match assignments with
  | [] => Some h
  | (path, v) :: rest =>
      match store_path h root path (Lit v) with
      | Some h' => store_paths h' root rest
      | None => None
      end
  end.

(** The overrides of lines 101-110, as paths from [SCENARIOS]. *)
Definition overrides : list (list string * Value) :=
  [(["high_climate_impact"; "simulation_name"],
      VStr "BD_FoodSecurity_Scenario_HighClimateImpact");
   (["high_climate_impact"; "parameters"; "climate_resilience"; "temp_anomaly_trend"],
      dec 5 100);
   (["high_climate_impact"; "parameters"; "climate_resilience"; "precip_change_trend"],
      dec (-1) 100);
   (["enhanced_adaptation"; "simulation_name"],
      VStr "BD_FoodSecurity_Scenario_EnhancedAdaptation");
   (["enhanced_adaptation"; "parameters"; "climate_resilience"; "adaptation_effectiveness"],
      dec 6 10);
   (["policy_change_safety_net"; "simulation_name"],
      VStr "BD_FoodSecurity_Scenario_PolicyChangeSafetyNet");
   (["policy_change_safety_net"; "parameters"; "policy_interventions";
     "policy_scenario_active"], VStr "enhanced_safety_nets");
   (["policy_change_safety_net"; "parameters"; "policy_interventions";
     "safety_net_coverage"], dec 4 10)].

Definition scenario_names : list string :=
  ["baseline"; "high_climate_impact"; "enhanced_adaptation"; "policy_change_safety_net"].

(** The module-level code from [BASE_CONFIG = {...}] to the last override:
    the store it leaves and the reference bound to [SCENARIOS]. *)
Definition module_state : option (Heap * Cell) :=
  let '(h, base) := alloc BASE_CONFIG [] in
  let '(h, c1) := deepcopy h base in
  let '(h, c2) := deepcopy h base in
  let '(h, c3) := deepcopy h base in
  let scenarios : Obj :=
    [("baseline", base); ("high_climate_impact", c1);
     ("enhanced_adaptation", c2); ("policy_change_safety_net", c3)] in
  let SCENARIOS := Ref (List.length h) in
  match store_paths (h ++ [scenarios])%list SCENARIOS overrides with
  | Some h' => Some (h', SCENARIOS)
  | None => None
  end.

Definition heap : Heap := match module_state with Some (h, _) => h | None => [] end.
Definition SCENARIOS : Cell := match module_state with Some (_, c) => c | None => Lit VNone end.

(** [SCENARIOS[name]] read as a value, in the store [h]. *)
Definition scenario_config (h : Heap) (name : string) : option Value :=
  match getitem h SCENARIOS name with
  | Some c => read h c
  | None => None
  end.

(** The references held by an object, and a set of locations that contains
    every location its objects refer to. *)
Definition refs_of (o : Obj) : list nat :=
  flat_map (fun kc => match snd kc with Ref l => [l] | Lit _ => [] end) o.

Definition closed (h : Heap) (region : list nat) : bool :=
  forallb (fun l => match nth_error h l with
                    | Some o => forallb (fun l' => existsb (Nat.eqb l') region) (refs_of o)
                    | None => true
                    end) region.

Definition disjoint (r1 r2 : list nat) : bool :=
  forallb (fun l => negb (existsb (Nat.eqb l) r2)) r1.

(** The locations under a cell. *)
Fixpoint region (fuel : nat) (h : Heap) (c : Cell) : list nat :=
  match c, fuel with
  | Ref l, S n =>
      l :: match nth_error h l with
           | Some o => flat_map (fun kc => region n h (snd kc)) o
           | None => []
           end
  | _, _ => []
  end.

(** A location that following item accesses from a cell can arrive at. *)
Inductive reachable (h : Heap) : Cell -> nat -> Prop :=
| reach_here l : reachable h (Ref l) l
| reach_step c k c' l : getitem h c k = Some c' -> reachable h c' l -> reachable h c l.

End Store.

(** * Vocabulary of the properties *)

Definition year_of (yearly_data : Value) : Exc Value := py_get yearly_data "year" VNaN.

(** Events that put a result on disk. *)
Definition persists (ev : Event) : bool :=
  match ev with
  | ESavedCsv _ _ | EPlotSaved _ _ | EReportWritten _ | ESavedComparison _ => true
  | _ => false
  end.

(** A run of consecutive successful loop iterations: from the carried state
    [st] and outputs [outs], simulating [years] in turn succeeds and leaves
    [st'] and [outs']. *)
Inductive steps_ok (W : Collaborators) (m : Models W) (sc : string) (h : Value)
  : list Z -> Value -> list Value -> Value -> list Value -> Prop :=
| steps_nil st outs : steps_ok W m sc h [] st outs st outs
| steps_cons y ys st outs yearly_data st1 st' outs' :
    simulate_year W m sc y st h outs = inr (yearly_data, st1) ->
    steps_ok W m sc h ys st1 (outs ++ [yearly_data]) st' outs' ->
    steps_ok W m sc h (y :: ys) st outs st' outs'.

(** A three-year baseline configuration. *)
Definition three_year_config : Value := assign "end_year" (VInt 2027) BASE_CONFIG.

(** A configuration whose end year precedes its start year by two. *)
Definition reversed_config : Value := assign "end_year" (VInt 2023) BASE_CONFIG.

(** The chain [res.get(k1, {}).get(k2, {})....get(kn, np.nan)] for a path
    [k1; ...; kn]. *)
Fixpoint follow (path : list string) (res : Value) : Exc Value :=
  match path with
  | [] => ret res
  | [k] => py_get res k VNaN
  | k :: rest => x <- py_get res k empty_dict ;; follow rest x
  end.

Definition indicator_paths : list (string * list string) :=
  [("total_population", ["socioeconomic_state"; "population"; "total_population"]);
   ("gdp_per_capita", ["socioeconomic_state"; "economy"; "gdp_per_capita"]);
   ("rice_production_total", ["production_output"; "total_food"; "cereals"; "rice"]);
   ("wheat_production_total", ["production_output"; "total_food"; "cereals"; "wheat"]);
   ("rice_price_retail", ["market_state"; "prices"; "retail"; "rice"]);
   ("stunting_prevalence",
      ["nutritional_outcomes"; "nutritional_status_indicators"; "stunting_prevalence"]);
   ("wasting_prevalence",
      ["nutritional_outcomes"; "nutritional_status_indicators"; "wasting_prevalence"]);
   ("avg_energy_intake",
      ["nutritional_outcomes"; "average_nutrient_intake_per_capita_day"; "energy_kcal"])].

(** The value stored under a path, when every segment is present. *)
Fixpoint stored (path : list string) (res : Value) : option Value :=
  match path with
  | [] => Some res
  | k :: rest =>
      match res with
      | VDict d => match assoc k d with Some sub => stored rest sub | None => None end
      | _ => None
      end
  end.

(** Every value the chain calls [get] on is a dict: the record itself and,
    along the path, each value that is present before the last segment. *)
Fixpoint navigable (path : list string) (res : Value) : Prop :=
  match path with
  | [] => True
  | k :: rest =>
      match res with
      | VDict d => match assoc k d with Some sub => navigable rest sub | None => True end
      | _ => False
      end
  end.

Definition entry (path : list string) (res : Value) : Value :=
  match stored path res with Some v => v | None => VNaN end.

(** A record the aggregator can walk: a dict in which every indicator path
    is navigable. *)
Definition walkable (res : Value) : Prop :=
  is_dict res = true /\ Forall (fun p => navigable (snd p) res) indicator_paths.

(** A record with every nested key missing, and one whose [population] key
    is present but empty ([None]). *)
Definition bare_record : Value := VDict [("year", VInt 2025)].

Definition empty_key_record : Value :=
  VDict [("year", VInt 2025);
         ("socioeconomic_state", VDict [("population", VNone)])].


(** The paths of the two prevalence indicators inside a year record. *)
Definition stunting_path : list string :=
  ["nutritional_outcomes"; "nutritional_status_indicators"; "stunting_prevalence"].

Definition wasting_path : list string :=
  ["nutritional_outcomes"; "nutritional_status_indicators"; "wasting_prevalence"].

(** A number that is greater than or equal to zero. *)
Definition nonneg (v : Value) : Prop :=
  match as_float v with
  | Some (Some q) => 0 <= q
  | _ => False
  end.

(** The update the specification describes:
    [status[t] = max(0, status[t-1] + change * health_access_modifier)]. *)
Definition autoregressive_update (self : Nutrition.Model) (previous change : Value)
    : Exc Value :=
  hmod <- Nutrition.health_access_modifier self ;;
  d <- py_mul change hmod ;;
  s <- py_add previous d ;;
  py_max (num 0) s.

(** The path of the population indicator inside a year record. *)
Definition population_path : list string :=
  ["socioeconomic_state"; "population"; "total_population"].

(** The growth rate the socioeconomic model applies, as a rational, when
    its parameter is a finite number. *)
Definition growth_rate_is (self : Socio.Model) (g : Q) : Prop :=
  Socio.growth_rate self = inr (VNum g).

(** The carried socioeconomic state holds the population [p]. *)
Definition pop_state (state : Value) (p : Q) : Prop :=
  stored ["population"; "total_population"] state = Some (VNum p).

(** The diagnostics that name a scenario left out of the comparison: the
    batch loop's failure and error notices, and the comparison loop's warning
    about an incomplete result. *)
Definition excluded_with_diagnostic (log : list Event) (name : string) : Prop :=
  In (EFailed name) log \/ (exists e, In (EErrorRunning name e) log) \/
  In (EIncomplete name) log.

(** A one-year baseline configuration, and a batch of two scenarios for a
    world whose production model fails in 2026: the first scenario runs into
    2026, the second ends in 2025. *)
Definition one_year_config : Value := assign "end_year" (VInt 2025) BASE_CONFIG.

Definition two_scenarios : list (string * Value) :=
  [("aborting", three_year_config); ("completing", one_year_config)].

(** The example of [market_dynamics.py]'s own [__main__] block. *)
Definition market_example_config : Value :=
  VDict [
    ("demand_params",
      VDict [("rice_income_elasticity", dec 2 10); ("meat_income_elasticity", dec 8 10)]);
    ("price_params",
      VDict [("wholesale_retail_margin", dec 8 10); ("producer_wholesale_margin", dec 65 100)]);
    ("trade_params",
      VDict [("world_prices", VDict [("rice", VInt 400); ("wheat", VInt 300)])])
  ].

Definition market_example_prod_data : Value :=
  VDict [
    ("total_food",
      VDict [("cereals", VDict [("rice", num 35000000); ("wheat", num 1000000)]);
             ("pulses", num 800000);
             ("fish", VDict [("total", num 4000000)]);
             ("meat", VDict [("beef_mutton", num 1500000); ("poultry", num 2000000)]);
             ("other_livestock",
               VDict [("milk", num 10000000); ("eggs", num 15000000000)])])
  ].

Definition market_example_socio_state : Value :=
  VDict [("population", VDict [("total_population", num 171000000)]);
         ("economy", VDict [("gdp_per_capita", VInt 2300)])].

Definition market_example_policy_eff : Value :=
  VDict [("trade_policy_effects",
           VDict [("export_volume_modifier", num 1); ("import_price_modifier", num 1)]);
         ("social_protection_effects", VDict [("transfer_value_modifier", num 1)])].

(** [model = MarketDynamicsModel(config); model.load_historical_data(None);
    model.simulate_market_dynamics(2025, prod_data, socio_state, policy_eff)] *)
Definition market_example : Exc Value :=
  model <- Market.init market_example_config ;;
  let model := Market.load_historical_data model VNone in
  Market.simulate_market_dynamics model 2025 market_example_prod_data
    market_example_socio_state market_example_policy_eff.

(** Running a scenario on the configuration the store holds for it. *)
Definition run_scenario_in (W : Collaborators) (h : Store.Heap) (name : string)
    : option (list Event * Exc RunResult) :=
  option_map (run_simulation_scenario W name) (Store.scenario_config h name).

(** A status dictionary whose stunting and wasting prevalence are not
    negative. *)
Definition good_status (status : Value) : Prop :=
  exists s w u a, status = Nutrition.status_dict s w u a /\ nonneg s /\ nonneg w.

(** ** The batch and the comparison table *)

(** The line the batch loop prints when a run has ended. *)
Definition verdict (name : string) (outcome : Exc RunResult) : Event :=
  match outcome with
  | inr (Returned _) => ECompleted name
  | inr ReturnedNone | inr ReturnedEmpty => EFailed name
  | inl e => EErrorRunning name e
  end.

(** What one scenario contributes to the batch log: the start line, the
    log of its own run, and the verdict. *)
Definition scenario_segment (W : Collaborators) (name : string) (config : Value)
    : list Event :=
  (ERunning name :: fst (run_simulation_scenario W name config)
     ++ [verdict name (snd (run_simulation_scenario W name config))])%list.

(** The scenarios whose results enter the comparison, each with its annual
    summary, in the order of [all_scenario_results]. *)
Fixpoint compared (all_scenario_results : list (string * ScenarioResult))
    : list (string * Table) :=
  match all_scenario_results with
  | [] => []
  | (name, results) :: rest =>
      match dataframes results with
      | Some df => if (0 <? nrows df)%nat then (name, df) :: compared rest
                   else compared rest
      | None => compared rest
      end
  end.

(** The columns of an annual summary. *)
Definition summary_columns : list string := "year" :: map fst indicators.

(** ** Vocabulary of the further properties *)

(** A market model as [__init__] leaves it when the configuration names none
    of its parameter groups. *)
Definition quiet_market_model : Market.Model :=
  Market.mkModel empty_dict empty_dict empty_dict empty_dict empty_dict Market.commodity_list.

(** The nutrients [total_intake] starts with. *)
Definition tracked_nutrients : list string :=
  ["energy_kcal"; "protein_g"; "iron_mg"; "zinc_mg"; "vitA_mcg"; "calcium_mg"].

(** A nutrition model as [__init__] leaves it when the configuration names
    none of its parameter groups. *)
Definition unloaded_nutrition_model : Nutrition.Model :=
  Nutrition.mkModel empty_dict empty_dict empty_dict empty_dict empty_dict
                    Nutrition._load_food_composition_data.

(** The effect groups of a policy output, all modifiers given. *)
Definition policy_output (year : Z) (scenario : string) (a b c d e f g h : Q) : Value :=
  VDict [
    ("year", VInt year);
    ("scenario", VStr scenario);
    ("agricultural_policy_effects",
      VDict [("input_cost_modifier", VNum a); ("production_incentive_modifier", VNum b)]);
    ("social_protection_effects",
      VDict [("safety_net_coverage_modifier", VNum c); ("transfer_value_modifier", VNum d)]);
    ("trade_policy_effects",
      VDict [("import_price_modifier", VNum e); ("export_volume_modifier", VNum f)]);
    ("infrastructure_policy_effects",
      VDict [("storage_loss_modifier", VNum g); ("transport_cost_modifier", VNum h)])
  ].

(** [b] to the power [n]. *)
Fixpoint Qpow (b : Q) (n : nat) : Q :=
  match n with
  | O => 1
  | S n' => b * Qpow b n'
  end.

(** The value stored under [path] is the finite number [q], an int or a
    float. *)
Definition holds_number (path : list string) (state : Value) (q : Q) : Prop :=
  exists v, stored path state = Some v /\ as_float v = Some (Some q).

(** [params.get(key, default)] is the finite number [g]. *)
Definition rate_is (params : Value) (key : string) (default : Value) (g : Q) : Prop :=
  exists v, py_get params key default = inr v /\ as_float v = Some (Some g).

(** Where a yearly record keeps the GDP per capita. *)
Definition gdp_path : list string := ["socioeconomic_state"; "economy"; "gdp_per_capita"].

(** A socioeconomic model as [__init__] leaves it when the configuration
    names none of its parameter groups. *)
Definition default_socio_model : Socio.Model :=
  Socio.mkModel empty_dict empty_dict empty_dict empty_dict empty_dict empty_dict.

(** The state the runner carries into its first year under [BASE_CONFIG]. *)
Definition example_carried_state : Value :=
  VDict [("population", VDict [("total_population", num 170000000)]);
         ("economy", VDict [("gdp_per_capita", VInt 2600)]);
         ("income_distribution", VDict [("gini_coefficient", dec 32 100)])].

(** The [socioeconomic_dynamics] section of a configuration in the layout
    of [BASE_CONFIG], with growth rates of 3% and 9%. *)
Definition configured_socio_section : Value :=
  VDict [("population_growth_rate", dec 3 100);
         ("gdp_growth_rate", dec 9 100);
         ("income_elasticity_diet", dec 4 10)].

(** A two-year annual summary whose production columns hold no value, as
    the runner builds it when the production output has no [total_food]. *)
Definition summary_without_rice : Table :=
  [("year", [VInt 2025; VInt 2026]);
   ("total_population", [num 171700000; num 173417000]);
   ("gdp_per_capita", [num 2756; num 2921]);
   ("rice_production_total", [VNaN; VNaN]);
   ("wheat_production_total", [VNaN; VNaN]);
   ("rice_price_retail", [num 1; num 1]);
   ("stunting_prevalence", [dec 28 100; dec 28 100]);
   ("wasting_prevalence", [dec 7 100; dec 7 100]);
   ("avg_energy_intake", [num 2200; num 2200])].





(** A quantity that is zero, or NaN. *)
Definition zero_or_nan (v : Value) : Prop :=
  v = VNaN \/ exists q, v = VNum q /\ q == 0.

(** The commodities [_simulate_supply] reports. *)
Definition supplied_commodities : list string :=
  ["rice"; "wheat"; "pulses"; "fish"; "meat"; "milk"; "eggs"].

(** The market supply of every reported commodity is zero or NaN. *)
Definition no_supply (market_supply : Value) : Prop :=
  exists supply,
    market_supply = VDict supply /\
    map fst supply = supplied_commodities /\
    Forall (fun kv => zero_or_nan (snd kv)) supply.

(** An output with the keys of [FoodSupplyChainModel.simulate_supply_chains],
    which is what the runner passes to the market model as production data;
    it has no [total_food] entry. *)
Definition supply_chain_output_example : Value :=
  VDict [("year", VInt 2025);
         ("post_harvest_outcomes", empty_dict);
         ("market_outcomes", empty_dict);
         ("actor_behaviors", empty_dict);
         ("efficiency_metrics", empty_dict);
         ("food_availability", VDict [("cereals", VNone)])].

(** A price that is at least 1, or NaN. *)
Definition at_least_one (v : Value) : Prop :=
  v = VNaN \/ exists x, v = VNum x /\ 1 <= x.

(** [policy_effects.get(group, {}).get(key, 1.0)] is the finite number [t]. *)
Definition modifier_is (policy_effects : Value) (group key : string) (t : Q) : Prop :=
  exists effects tv,
    py_get policy_effects group empty_dict = inr effects /\
    py_get effects key (num 1) = inr tv /\
    as_float tv = Some (Some t).

(** The two modifiers the market model reads. *)
Definition import_price_modifier_is (policy_effects : Value) (t : Q) : Prop :=
  modifier_is policy_effects "trade_policy_effects" "import_price_modifier" t.

Definition transfer_value_modifier_is (policy_effects : Value) (t : Q) : Prop :=
  modifier_is policy_effects "social_protection_effects" "transfer_value_modifier" t.

(** A finite number greater than zero. *)
Definition positive_number (v : Value) : Prop :=
  exists q, v = VNum q /\ 0 < q.

(** A supply in which rice is missing from the market, and a demand for it. *)
Definition example_supply : Value := VDict [("rice", num 0); ("wheat", num 1200000)].
Definition example_demand : Value := VDict [("rice", num 25500000); ("wheat", num 900000)].

(** Values without an [items] method. *)
Definition has_no_items (v : Value) : bool :=
  match v with
  | VInt _ | VNum _ | VNaN | VStr _ | VList _ => true
  | _ => false
  end.

(** * Properties *)

(** ** The exception monad *)

Lemma bind_inr {A B} (m : Exc A) (k : A -> Exc B) (b : B) :
  bind m k = inr b -> exists a, m = inr a /\ k a = inr b.
Proof.
  destruct m as [e | a]; simpl; intros H; [discriminate | eauto].
Qed.

(** Peel every leading [bind] off an equation [... = inr _]. *)
Ltac peel H :=
  repeat (let a := fresh "a" in
          let Ha := fresh "Ha" in
          apply bind_inr in H; destruct H as (a & Ha & H)).

(** ** The year loop *)

Section RunnerProperties.

Variable W : Collaborators.

Lemma simulate_year_year (m : Models W) sc y st h outs yearly_data st' :
  simulate_year W m sc y st h outs = inr (yearly_data, st') ->
  year_of yearly_data = inr (VInt y).
Proof.
  unfold simulate_year. intros H. peel H.
  inversion H; subst. reflexivity.
Qed.

Lemma year_loop_success (m : Models W) sc h years :
  forall st outs log outs',
    year_loop W m sc years st h outs = (log, Some outs') ->
    log = map (EYearStart sc) years /\
    exists new st',
      outs' = (outs ++ new)%list /\
      steps_ok W m sc h years st outs st' outs' /\
      Forall2 (fun y r => year_of r = inr (VInt y)) years new.
Proof.
  induction years as [| y ys IH]; intros st outs log outs' H; simpl in H.
  - inversion H; subst. split; [reflexivity |].
    exists [], st. rewrite app_nil_r. repeat split; constructor.
  - destruct (simulate_year W m sc y st h outs) as [e | [yd st1]] eqn:Hy; [discriminate |].
    destruct (year_loop W m sc ys st1 h (outs ++ [yd])) as [log1 r] eqn:Hl.
    inversion H; subst.
    destruct (IH _ _ _ _ Hl) as (-> & new & st' & -> & Hs & Hf).
    split; [reflexivity |].
    exists (yd :: new), st'. rewrite <- app_assoc. simpl.
    repeat split.
    + econstructor; [exact Hy |]. rewrite <- app_assoc in Hs. exact Hs.
    + constructor; [eapply simulate_year_year; exact Hy | exact Hf].
Qed.

Lemma year_loop_abort (m : Models W) sc h done y rest e :
  forall st outs st' outs',
    steps_ok W m sc h done st outs st' outs' ->
    simulate_year W m sc y st' h outs' = inl e ->
    year_loop W m sc (done ++ y :: rest) st h outs =
      ((map (EYearStart sc) done ++
        [EYearStart sc y; EYearError sc y e; EAbort sc])%list, None).
Proof.
  induction done as [| d ds IH]; intros st outs st' outs' Hs He.
  - inversion Hs; subst. simpl. rewrite He. reflexivity.
  - inversion Hs; subst. simpl.
    match goal with Hd : simulate_year _ _ _ d _ _ _ = _ |- _ => rewrite Hd end.
    erewrite IH; eauto.
Qed.

Lemma year_loop_none (m : Models W) sc h years :
  forall st outs log,
    year_loop W m sc years st h outs = (log, None) ->
    exists done y rest e st' outs',
      years = (done ++ y :: rest)%list /\
      steps_ok W m sc h done st outs st' outs' /\
      simulate_year W m sc y st' h outs' = inl e /\
      log = (map (EYearStart sc) done ++
             [EYearStart sc y; EYearError sc y e; EAbort sc])%list.
Proof.
  induction years as [| y ys IH]; intros st outs log H; simpl in H.
  - discriminate.
  - destruct (simulate_year W m sc y st h outs) as [e | [yd st1]] eqn:Hy.
    + inversion H; subst. exists [], y, ys, e, st, outs.
      repeat split; [constructor | exact Hy].
    + destruct (year_loop W m sc ys st1 h (outs ++ [yd])) as [log1 r] eqn:Hl.
      inversion H; subst.
      destruct (IH _ _ _ Hl) as (done & y' & rest & e & st' & outs' & -> & Hs & He & ->).
      exists (y :: done), y', rest, e, st', outs'.
      repeat split; [econstructor; eauto | exact He].
Qed.

Lemma py_range_length (a b : Z) : List.length (py_range a b) = Z.to_nat (b - a).
Proof. unfold py_range. rewrite length_map, length_seq. reflexivity. Qed.

Lemma py_range_nth (a b : Z) (i : nat) :
  (i < Z.to_nat (b - a))%nat -> nth i (py_range a b) 0%Z = (a + Z.of_nat i)%Z.
Proof.
  intros Hi. unfold py_range.
  set (f := fun k => (a + Z.of_nat k)%Z).
  rewrite (nth_indep _ 0%Z (f O)) by (rewrite length_map, length_seq; exact Hi).
  rewrite map_nth, seq_nth by exact Hi. reflexivity.
Qed.

Lemma Forall2_nth_year (years : list Z) (new : list Value) :
  Forall2 (fun y r => year_of r = inr (VInt y)) years new ->
  List.length new = List.length years /\
  forall i, (i < List.length new)%nat ->
            year_of (nth i new VNone) = inr (VInt (nth i years 0%Z)).
Proof.
  induction 1 as [| y r ys rs Hy Hf [IHl IHn]]; simpl.
  - split; [reflexivity | intros i Hi; lia].
  - split; [lia |]. intros [| i] Hi; [exact Hy | apply IHn; lia].
Qed.

(** ** Dictionaries *)

Lemma assoc_setitem_same {A} (k : string) (v : A) (d : list (string * A)) :
  assoc k (setitem k v d) = Some v.
Proof.
  induction d as [| [k' v'] d IH]; simpl.
  - rewrite String.eqb_refl. reflexivity.
  - destruct (String.eqb k k') eqn:E; simpl; rewrite E; [reflexivity | exact IH].
Qed.

Lemma setitem_keys {A} (k : string) (v : A) (d : list (string * A)) (k' : string) :
  In k' (map fst (setitem k v d)) <-> k' = k \/ In k' (map fst d).
Proof.
  induction d as [| [k0 v0] d IH]; simpl.
  - intuition.
  - destruct (String.eqb k k0) eqn:E; simpl.
    + apply String.eqb_eq in E; subst k0. intuition.
    + rewrite IH. intuition.
Qed.

Lemma assoc_In {A} (k : string) (d : list (string * A)) (v : A) :
  assoc k d = Some v -> In (k, v) d.
Proof.
  induction d as [| [k' v'] d IH]; simpl; [discriminate |].
  destruct (String.eqb k k') eqn:E.
  - apply String.eqb_eq in E; subst k'. intros H; inversion H; subst. left; reflexivity.
  - intros H; right; exact (IH H).
Qed.

Lemma assoc_setitem_other {A} (k k' : string) (v : A) (d : list (string * A)) :
  k <> k' -> assoc k (setitem k' v d) = assoc k d.
Proof.
  intros Hne. induction d as [| [k0 v0] d IH]; simpl.
  - destruct (String.eqb k k') eqn:E; [apply String.eqb_eq in E; contradiction | reflexivity].
  - destruct (String.eqb k' k0) eqn:E; simpl.
    + apply String.eqb_eq in E; subst k0.
      destruct (String.eqb k k') eqn:E'; [apply String.eqb_eq in E'; contradiction | reflexivity].
    + destruct (String.eqb k k0); [reflexivity | exact IH].
Qed.

(** ** The batch loop *)

(** Every configured scenario is started, whatever happens inside the runs
    before it. *)
Lemma run_scenarios_starts_all (scenarios : list (string * Value)) :
  forall all name,
    In name (map fst scenarios) ->
    In (ERunning name) (fst (run_scenarios W scenarios all)).
Proof.
  induction scenarios as [| [n c] rest IH]; intros all name Hin; simpl in *.
  - contradiction.
  - destruct (run_simulation_scenario W n c) as [run_log outcome].
    destruct outcome as [e | [| | r]];
      match goal with
      | |- context [run_scenarios W rest ?a] =>
          specialize (IH a name); destruct (run_scenarios W rest a) as [log final]
      end; simpl in *;
      (destruct Hin as [-> | Hin]; [left; reflexivity |
       right; apply in_or_app; right; right; exact (IH Hin)]).
Qed.

(** A name ends up in [all_scenario_results] only through a run that
    returned aggregated results. *)
Lemma run_scenarios_results (scenarios : list (string * Value)) :
  forall all name,
    In name (map fst (snd (run_scenarios W scenarios all))) ->
    In name (map fst all) \/
    exists config log r,
      In (name, config) scenarios /\
      run_simulation_scenario W name config = (log, inr (Returned r)).
Proof.
  induction scenarios as [| [n c] rest IH]; intros all name Hin; simpl in *.
  - left; exact Hin.
  - destruct (run_simulation_scenario W n c) as [run_log outcome] eqn:Hrun.
    destruct outcome as [e | [| | r]];
      match type of Hin with
      | context [run_scenarios W rest ?a] =>
          specialize (IH a name); destruct (run_scenarios W rest a) as [log final]
      end; simpl in *;
      destruct (IH Hin) as [H | (config & log' & r' & H1 & H2)];
      try (left; exact H);
      try (right; exists config, log', r'; split; [right; exact H1 | exact H2]).
    apply setitem_keys in H. destruct H as [-> | H]; [| left; exact H].
    right. exists c, run_log, r. split; [left; reflexivity | exact Hrun].
Qed.

(** ** The comparison table *)

Lemma labelled_scenario (name : string) (df : Table) :
  assoc "scenario" (labelled name df) = Some (repeat (VStr name) (nrows df)).
Proof. apply assoc_setitem_same. Qed.

Lemma collect_comparison_frames (all : list (string * ScenarioResult)) :
  forall frame,
    In frame (snd (collect_comparison all)) ->
    exists name r df,
      In (name, r) all /\ dataframes r = Some df /\ frame = labelled name df.
Proof.
  induction all as [| [n r] rest IH]; intros frame Hin; simpl in *.
  - contradiction.
  - destruct (collect_comparison rest) as [log data]; simpl in *.
    destruct (dataframes r) as [df |] eqn:Hdf.
    + destruct (0 <? nrows df)%nat; simpl in Hin.
      * destruct Hin as [<- | Hin].
        -- exists n, r, df. auto.
        -- destruct (IH _ Hin) as (n' & r' & df' & H1 & H2 & H3). exists n', r', df'. auto.
      * destruct (IH _ Hin) as (n' & r' & df' & H1 & H2 & H3). exists n', r', df'. auto.
    + simpl in Hin.
      destruct (IH _ Hin) as (n' & r' & df' & H1 & H2 & H3). exists n', r', df'. auto.
Qed.

Lemma assoc_map_key {A} (f : string -> A) (l : list string) (c : string) :
  assoc c (map (fun c => (c, f c)) l) = if existsb (String.eqb c) l then Some (f c) else None.
Proof.
  induction l as [| x l IH]; simpl; [reflexivity |].
  destruct (String.eqb c x) eqn:E; simpl.
  - apply String.eqb_eq in E; subst x. reflexivity.
  - exact IH.
Qed.

(** The label column of the concatenation is the concatenation of the label
    columns. *)
Lemma concat_scenario_column (frames : list Table) (v : Value) :
  In v (column "scenario" (concat frames)) ->
  exists df, In df frames /\
             In v (match assoc "scenario" df with
                   | Some xs => xs
                   | None => repeat VNaN (nrows df)
                   end).
Proof.
  unfold column, concat. rewrite assoc_map_key.
  destruct (existsb _ _); [| intros []].
  intros Hin. apply in_flat_map in Hin. exact Hin.
Qed.

(** Every row of the comparison table is labelled with the name of a scenario
    whose run stored an annual summary. *)
Lemma comparison_labels (all : list (string * ScenarioResult)) (t : Table) (v : Value) :
  comparison_table all = Some t ->
  In v (column "scenario" t) ->
  exists name r df, v = VStr name /\ In (name, r) all /\ dataframes r = Some df.
Proof.
  unfold comparison_table. intros Ht Hin.
  destruct (snd (collect_comparison all)) as [| f fs] eqn:Hc; [discriminate |].
  inversion Ht; subst t; clear Ht.
  apply concat_scenario_column in Hin. destruct Hin as (df & Hdf & Hv).
  rewrite <- Hc in Hdf.
  destruct (collect_comparison_frames _ _ Hdf) as (name & r & df0 & H1 & H2 & ->).
  rewrite labelled_scenario in Hv. apply repeat_spec in Hv.
  exists name, r, df0. auto.
Qed.

End RunnerProperties.

(** ** Year coverage of a run *)

Lemma NoDup_keys_unique {A} (l : list (string * A)) (k : string) (a b : A) :
  NoDup (map fst l) -> In (k, a) l -> In (k, b) l -> a = b.
Proof.
  induction l as [| [k' v] l IH]; simpl; intros Hnd Ha Hb; [contradiction |].
  inversion Hnd as [| ? ? Hnot Hnd']; subst.
  destruct Ha as [Ha | Ha], Hb as [Hb | Hb].
  - congruence.
  - inversion Ha; subst. exfalso. apply Hnot. apply (in_map fst) in Hb. exact Hb.
  - inversion Hb; subst. exfalso. apply Hnot. apply (in_map fst) in Ha. exact Ha.
  - exact (IH Hnd' Ha Hb).
Qed.

Lemma abort_log_persists_nothing (sc : string) (done : list Z) (y : Z) (e : Exn) :
  Forall (fun ev => persists ev = false)
         (map (EYearStart sc) done ++ [EYearStart sc y; EYearError sc y e; EAbort sc]).
Proof.
  apply Forall_app. split.
  - apply Forall_forall. intros ev Hin. apply in_map_iff in Hin.
    destruct Hin as (z & <- & _). reflexivity.
  - repeat constructor.
Qed.

(** A scenario whose run did not return aggregated results is absent from
    [all_scenario_results], hence from the comparison table. *)
Lemma failed_scenario_has_no_rows (W : Collaborators)
    (scenarios : list (string * Value)) (sc : string) (config : Value)
    (log : list Event) (outcome : Exc RunResult) :
  NoDup (map fst scenarios) ->
  In (sc, config) scenarios ->
  run_simulation_scenario W sc config = (log, outcome) ->
  (forall r, outcome <> inr (Returned r)) ->
  ~ In sc (map fst (snd (run_scenarios W scenarios []))) /\
  forall t, comparison_table (snd (run_scenarios W scenarios [])) = Some t ->
            ~ In (VStr sc) (column "scenario" t).
Proof.
  intros Hnd Hin Hrun Hout.
  assert (Hno : ~ In sc (map fst (snd (run_scenarios W scenarios [])))).
  { intros H. apply run_scenarios_results in H.
    destruct H as [[] | (config' & log' & r & Hin' & Hrun')].
    rewrite (NoDup_keys_unique _ _ _ _ Hnd Hin' Hin) in Hrun'.
    rewrite Hrun in Hrun'. inversion Hrun'; subst. exact (Hout r eq_refl). }
  split; [exact Hno |].
  intros t Ht Hv.
  destruct (comparison_labels _ _ _ Ht Hv) as (name & r & df & Heq & Hr & _).
  inversion Heq; subst name. apply Hno. apply (in_map fst) in Hr. exact Hr.
Qed.

(** C1 (as amended).  Once the set-up of a scenario has succeeded, the year
    loop ends in one of two ways.  If no year fails, [yearly_outputs] holds
    max(0, end_year - start_year + 1) records and the record at index [i]
    carries the year [start_year + i].  If a year fails, the run returns
    [None], nothing of it is written to disk, and in any batch with distinct
    scenario names the scenario is absent from the collected results and
    labels no row of the comparison table. *)
Theorem yearly_outputs_one_per_year (W : Collaborators) (sc : string) (config : Value)
    (m : Models W) (first last : Z) (ps st h : Value)
    (log : list Event) (r : option (list Value)) :
  prepare W sc config = Ready W m first last ps st h ->
  run_years W m sc first last st h = (log, r) ->
  match r with
  | Some yearly_outputs =>
      Z.of_nat (List.length yearly_outputs) = Z.max 0 (last - first + 1) /\
      forall i, (i < List.length yearly_outputs)%nat ->
                year_of (nth i yearly_outputs VNone) = inr (VInt (first + Z.of_nat i))
  | None =>
      run_simulation_scenario W sc config = (log, inr ReturnedNone) /\
      Forall (fun ev => persists ev = false) log /\
      forall scenarios,
        NoDup (map fst scenarios) -> In (sc, config) scenarios ->
        ~ In sc (map fst (snd (run_scenarios W scenarios []))) /\
        forall t, comparison_table (snd (run_scenarios W scenarios [])) = Some t ->
                  ~ In (VStr sc) (column "scenario" t)
  end.
Proof.
  intros Hprep Hrun. destruct r as [ys |].
  - unfold run_years in Hrun.
    apply year_loop_success in Hrun.
    destruct Hrun as (_ & new & st' & -> & _ & Hf). simpl.
    apply Forall2_nth_year in Hf. destruct Hf as [Hlen Hnth].
    rewrite py_range_length in Hlen.
    split; [rewrite Hlen; lia |].
    intros i Hi. rewrite Hnth by exact Hi.
    rewrite py_range_nth by lia. reflexivity.
  - assert (Hret : run_simulation_scenario W sc config = (log, inr ReturnedNone)).
    { unfold run_simulation_scenario. rewrite Hprep, Hrun. reflexivity. }
    split; [exact Hret |]. split.
    + unfold run_years in Hrun. apply year_loop_none in Hrun.
      destruct Hrun as (done & y & rest & e & st' & outs' & _ & _ & _ & ->).
      apply abort_log_persists_nothing.
    + intros scenarios Hnd Hin.
      eapply failed_scenario_has_no_rows; eauto.
      intros r0 H; discriminate.
Qed.

Lemma yearly_outputs_one_per_year_witness :
  exists m ps st h,
    prepare (standin_world None) "baseline" three_year_config
      = Ready (standin_world None) m 2025 2027 ps st h /\
    match snd (run_years (standin_world None) m "baseline" 2025 2027 st h) with
    | Some yearly_outputs =>
        Z.of_nat (List.length yearly_outputs) = Z.max 0 (2027 - 2025 + 1) /\
        forall i, (i < List.length yearly_outputs)%nat ->
                  year_of (nth i yearly_outputs VNone) = inr (VInt (2025 + Z.of_nat i))
    | None => True
    end.
Proof.
  do 4 eexists. split.
  - vm_compute. reflexivity.
  - match goal with
    | |- match snd ?run with _ => _ end =>
        pose proof (yearly_outputs_one_per_year (standin_world None) "baseline"
                      three_year_config _ 2025 2027 _ _ _ (fst run) (snd run)
                      eq_refl (surjective_pairing run)) as H;
        destruct (snd run); [exact H | exact I]
    end.
Defined.

(** With [start_year = 2025] and [end_year = 2023] the run does not abort and
    [yearly_outputs] is empty, while [end_year - start_year + 1] is [-1]. *)
Lemma entry_count_counterexample :
  exists m ps st h yearly_outputs,
    prepare (standin_world None) "baseline" reversed_config
      = Ready (standin_world None) m 2025 2023 ps st h /\
    snd (run_years (standin_world None) m "baseline" 2025 2023 st h) = Some yearly_outputs /\
    Z.of_nat (List.length yearly_outputs) <> (2023 - 2025 + 1)%Z.
Proof.
  do 5 eexists. split; [vm_compute; reflexivity |].
  split; [vm_compute; reflexivity |].
  simpl. lia.
Qed.

(** ** The batch loop, scenario by scenario *)

Lemma In_setitem_same {A} (k : string) (v : A) (d : list (string * A)) :
  In (k, v) (setitem k v d).
Proof.
  induction d as [| [k' v'] d IH]; simpl; [left; reflexivity |].
  destruct (String.eqb k k') eqn:E.
  - apply String.eqb_eq in E; subst. left; reflexivity.
  - right; exact IH.
Qed.

Lemma In_setitem_other {A} (k k' : string) (v v' : A) (d : list (string * A)) :
  k <> k' -> In (k, v) d -> In (k, v) (setitem k' v' d).
Proof.
  intros Hne. induction d as [| [k0 v0] d IH]; simpl; [contradiction |].
  intros [H | H].
  - inversion H; subst.
    destruct (String.eqb k' k) eqn:E; [apply String.eqb_eq in E; congruence | left; reflexivity].
  - destruct (String.eqb k' k0); right; [exact H | exact (IH H)].
Qed.

Lemma run_scenarios_preserves (W : Collaborators) (scenarios : list (string * Value))
    (name : string) (r : ScenarioResult) :
  forall all,
    ~ In name (map fst scenarios) ->
    In (name, r) all ->
    In (name, r) (snd (run_scenarios W scenarios all)).
Proof.
  induction scenarios as [| [n c] rest IH]; intros all Hnot Hin; simpl in *; [exact Hin |].
  destruct (run_simulation_scenario W n c) as [run_log outcome].
  destruct outcome as [e | [| | r0]];
    match goal with
    | |- context [run_scenarios W rest ?a] =>
        specialize (IH a); destruct (run_scenarios W rest a) as [log final]
    end; simpl in *; apply IH; auto.
  apply In_setitem_other; [| exact Hin]. intros ->. apply Hnot. left; reflexivity.
Qed.

(** With distinct names, a run that returned aggregated results is what the
    batch keeps under the scenario's name. *)
Lemma run_scenarios_keeps (W : Collaborators) (scenarios : list (string * Value))
    (name : string) (config : Value) (rlog : list Event) (r : ScenarioResult) :
  forall all,
    NoDup (map fst scenarios) ->
    In (name, config) scenarios ->
    run_simulation_scenario W name config = (rlog, inr (Returned r)) ->
    In (name, r) (snd (run_scenarios W scenarios all)).
Proof.
  induction scenarios as [| [n c] rest IH]; intros all Hnd Hin Hrun; simpl in *;
    [contradiction |].
  inversion Hnd as [| ? ? Hnot Hnd']; subst.
  destruct Hin as [Hin | Hin].
  - inversion Hin; subst n c. rewrite Hrun.
    pose proof (run_scenarios_preserves W rest name r (setitem name r all) Hnot
                  (In_setitem_same name r all)) as Hp.
    destruct (run_scenarios W rest (setitem name r all)); exact Hp.
  - destruct (run_simulation_scenario W n c) as [run_log outcome].
    destruct outcome as [e | [| | r0]];
      match goal with
      | |- context [run_scenarios W rest ?a] =>
          specialize (IH a Hnd' Hin Hrun); destruct (run_scenarios W rest a) as [log final]
      end; exact IH.
Qed.

Lemma run_scenarios_log (W : Collaborators) (scenarios : list (string * Value)) :
  forall all,
    fst (run_scenarios W scenarios all)
    = flat_map (fun nc => scenario_segment W (fst nc) (snd nc)) scenarios.
Proof.
  induction scenarios as [| [n c] rest IH]; intros all; [reflexivity |].
  cbn [flat_map fst snd run_scenarios]. unfold scenario_segment at 1.
  destruct (run_simulation_scenario W n c) as [run_log outcome]. cbn [fst snd].
  destruct outcome as [e | [| | r]];
    match goal with
    | |- context [run_scenarios W rest ?a] =>
        rewrite <- (IH a); destruct (run_scenarios W rest a) as [log final]
    end; cbn [fst snd verdict app]; rewrite <- app_assoc; reflexivity.
Qed.

Lemma run_scenarios_app (W : Collaborators) (before after : list (string * Value)) :
  forall all,
    run_scenarios W (before ++ after) all
    = ((fst (run_scenarios W before all)
          ++ fst (run_scenarios W after (snd (run_scenarios W before all))))%list,
       snd (run_scenarios W after (snd (run_scenarios W before all)))).
Proof.
  induction before as [| [n c] rest IH]; intros all; simpl.
  - destruct (run_scenarios W after all); reflexivity.
  - destruct (run_simulation_scenario W n c) as [run_log outcome].
    destruct outcome as [e | [| | r]];
      match goal with
      | |- context [run_scenarios W (rest ++ after) ?a] =>
          rewrite (IH a); destruct (run_scenarios W rest a) as [log final]
      end; simpl;
      destruct (run_scenarios W after final) as [log2 final2]; simpl;
      rewrite <- !app_assoc; reflexivity.
Qed.

(** A scenario whose run returned [None] adds its segment to the batch log
    and nothing else: the scenarios after it are run as if it were not in
    the batch. *)
Lemma run_scenarios_skips_failed (W : Collaborators) (sc : string) (config : Value)
    (log : list Event) (before after : list (string * Value)) :
  run_simulation_scenario W sc config = (log, inr ReturnedNone) ->
  forall all,
    run_scenarios W (before ++ (sc, config) :: after) all
    = ((fst (run_scenarios W before all)
          ++ (ERunning sc :: log ++ [EFailed sc])
          ++ fst (run_scenarios W after (snd (run_scenarios W before all))))%list,
       snd (run_scenarios W after (snd (run_scenarios W before all)))).
Proof.
  intros Hrun all. rewrite run_scenarios_app. simpl. rewrite Hrun.
  destruct (run_scenarios W before all) as [log1 res1]; simpl.
  destruct (run_scenarios W after res1) as [log2 res2]; simpl.
  rewrite <- !app_assoc. reflexivity.
Qed.

(** ** Failure handling *)

(** C2.  Suppose the set-up of a scenario has succeeded, the years [done]
    have been simulated without error and simulating the next year [y]
    raises [e].  Then the run stops there: its log ends with the error report
    for [y] and the abort notice, no later year is started, the run returns
    [None], and nothing in its log is a write of a table, plot or report.
    Moreover no run keeps the batch from running the others.  Every scenario
    of a batch is started; the batch log is, scenario by scenario in
    configuration order, the start line, the complete log of that scenario's
    own run and its verdict, whatever the other runs did, raised or returned;
    the failing scenario adds its start line, its log and the failure notice
    and nothing else, so that the scenarios after it are run, and their
    results collected, exactly as if it were not in the batch; and with
    distinct names every run that returned results has them kept. *)
Theorem failing_year_aborts_only_its_scenario (W : Collaborators) (sc : string)
    (config : Value) (m : Models W) (first last : Z) (ps st h : Value)
    (done rest : list Z) (y : Z) (st' : Value) (outs' : list Value) (e : Exn) :
  prepare W sc config = Ready W m first last ps st h ->
  py_range first (last + 1) = (done ++ y :: rest)%list ->
  steps_ok W m sc h done st [] st' outs' ->
  simulate_year W m sc y st' h outs' = inl e ->
  let log := (map (EYearStart sc) done ++
              [EYearStart sc y; EYearError sc y e; EAbort sc])%list in
  run_simulation_scenario W sc config = (log, inr ReturnedNone) /\
  Forall (fun ev => persists ev = false) log /\
  (forall scenarios all name,
     In name (map fst scenarios) ->
     In (ERunning name) (fst (run_scenarios W scenarios all))) /\
  (forall scenarios all,
     fst (run_scenarios W scenarios all)
     = flat_map (fun nc => scenario_segment W (fst nc) (snd nc)) scenarios) /\
  (forall before after all,
     run_scenarios W (before ++ (sc, config) :: after) all
     = ((fst (run_scenarios W before all)
           ++ (ERunning sc :: log ++ [EFailed sc])
           ++ fst (run_scenarios W after (snd (run_scenarios W before all))))%list,
        snd (run_scenarios W after (snd (run_scenarios W before all))))) /\
  (forall scenarios name config' rlog r,
     NoDup (map fst scenarios) ->
     In (name, config') scenarios ->
     run_simulation_scenario W name config' = (rlog, inr (Returned r)) ->
     In (name, r) (snd (run_scenarios W scenarios []))).
Proof.
  intros Hprep Hrange Hsteps Hfail log.
  assert (Hrun : run_simulation_scenario W sc config = (log, inr ReturnedNone)).
  { unfold run_simulation_scenario, run_years. rewrite Hprep, Hrange.
    erewrite year_loop_abort by eassumption. reflexivity. }
  split; [exact Hrun |].
  split; [apply abort_log_persists_nothing |].
  split; [intros scenarios all name; apply run_scenarios_starts_all |].
  split; [intros scenarios all; apply run_scenarios_log |].
  split; [intros before after all; apply run_scenarios_skips_failed; exact Hrun |].
  intros scenarios name config' rlog r Hnd Hin Hr.
  exact (run_scenarios_keeps W scenarios name config' rlog r [] Hnd Hin Hr).
Qed.

Lemma failing_year_aborts_only_its_scenario_witness :
  run_simulation_scenario (standin_world (Some 2026%Z)) "aborting" three_year_config
    = ([EYearStart "aborting" 2025; EYearStart "aborting" 2026;
        EYearError "aborting" 2026 (KeyError "wheat_maize"); EAbort "aborting"],
       inr ReturnedNone) /\
  In (ECompleted "completing") (fst (run_scenarios (standin_world (Some 2026%Z)) two_scenarios [])) /\
  map fst (snd (run_scenarios (standin_world (Some 2026%Z)) two_scenarios [])) = ["completing"].
Proof.
  set (W := standin_world (Some 2026%Z)).
  destruct (prepare W "aborting" three_year_config) as [| m f l ps st h] eqn:Hprep;
    [vm_compute in Hprep; discriminate |].
  assert (Hf : f = 2025%Z) by (vm_compute in Hprep; congruence).
  assert (Hl : l = 2027%Z) by (vm_compute in Hprep; congruence).
  subst f l.
  destruct (simulate_year W m "aborting" 2025 st h []) as [e1 | [yd st1]] eqn:H1;
    [vm_compute in Hprep; inversion Hprep; subst; vm_compute in H1; discriminate |].
  assert (H2 : simulate_year W m "aborting" 2026 st1 h ([] ++ [yd])
               = inl (KeyError "wheat_maize")).
  { vm_compute in Hprep. inversion Hprep; subst.
    vm_compute in H1. inversion H1; subst. vm_compute. reflexivity. }
  destruct (failing_year_aborts_only_its_scenario W "aborting" three_year_config
              m 2025 2027 ps st h [2025%Z] [2027%Z] 2026 st1 ([] ++ [yd])
              (KeyError "wheat_maize") Hprep eq_refl
              (steps_cons W m "aborting" h 2025 [] st [] yd st1 st1 ([] ++ [yd])
                 H1 (steps_nil W m "aborting" h st1 ([] ++ [yd])))
              H2) as (Hrun & _ & _ & _ & Hbatch & _).
  split; [exact Hrun |].
  specialize (Hbatch [] [("completing", one_year_config)] []).
  change ([] ++ ("aborting", three_year_config) :: [("completing", one_year_config)])%list
    with two_scenarios in Hbatch.
  rewrite Hbatch. cbn [fst snd run_scenarios app].
  split.
  - right. apply in_or_app. right. right. right. right. right.
    vm_compute. right.
    repeat (try (left; reflexivity); right).
  - vm_compute. reflexivity.
Defined.

(** ** The aggregator *)

(** The columns of the source are these chains. *)
Lemma indicators_follow_paths :
  Forall2 (fun ind p => fst ind = fst p /\ forall res, snd ind res = follow (snd p) res)
          indicators indicator_paths.
Proof. repeat constructor. Qed.

Lemma follow_cons (k k' : string) (rest : list string) (res : Value) :
  follow (k :: k' :: rest) res = (x <- py_get res k empty_dict ;; follow (k' :: rest) x).
Proof. reflexivity. Qed.

Lemma entry_cons (k : string) (rest : list string) (d : list (string * Value)) :
  entry (k :: rest) (VDict d)
    = match assoc k d with Some sub => entry rest sub | None => VNaN end.
Proof. unfold entry. simpl. destruct (assoc k d); reflexivity. Qed.

Lemma follow_empty (path : list string) :
  path <> [] -> follow path empty_dict = inr VNaN.
Proof.
  induction path as [| k rest IH]; intros Hne; [contradiction |].
  destruct rest as [| k' rest']; [reflexivity |].
  rewrite follow_cons. cbv [py_get empty_dict assoc ret bind].
  apply IH. discriminate.
Qed.

Lemma follow_navigable (path : list string) :
  forall res, path <> [] -> navigable path res -> follow path res = inr (entry path res).
Proof.
  induction path as [| k rest IH]; intros res Hne Hnav; [contradiction |].
  destruct res; simpl in Hnav; try contradiction.
  rewrite entry_cons.
  destruct rest as [| k' rest'].
  - simpl. destruct (assoc k d); reflexivity.
  - rewrite follow_cons. cbv [py_get ret bind].
    destruct (assoc k d) as [sub |].
    + apply IH; [discriminate | exact Hnav].
    + apply (follow_empty (k' :: rest')). discriminate.
Qed.

Lemma comprehension_map (f : Value -> Exc Value) (g : Value -> Value) (l : list Value) :
  Forall (fun res => f res = inr (g res)) l -> comprehension f l = inr (map g l).
Proof.
  induction 1 as [| res l Hres _ IH]; simpl; [reflexivity |].
  rewrite Hres, IH. reflexivity.
Qed.

Lemma indicator_columns_navigable (yearly_outputs : list Value) :
  forall cols paths,
    Forall2 (fun ind p => fst ind = fst p /\ forall res, snd ind res = follow (snd p) res)
            cols paths ->
    Forall (fun p => snd p <> [] /\ Forall (navigable (snd p)) yearly_outputs) paths ->
    indicator_columns cols yearly_outputs
      = inr (map (fun p => (fst p, map (entry (snd p)) yearly_outputs)) paths).
Proof.
  induction 1 as [| [name f] [name' path] cols paths [Hname Hf] _ IH]; intros Hall.
  - reflexivity.
  - inversion Hall as [| ? ? [Hne Hnav] Hall']; subst. simpl in *. subst name'.
    rewrite (comprehension_map f (entry path)).
    + rewrite (IH Hall'). reflexivity.
    + apply Forall_forall. intros res Hin. rewrite Hf.
      apply follow_navigable; [exact Hne |].
      rewrite Forall_forall in Hnav. exact (Hnav res Hin).
Qed.

(** C3 (as amended).  On a list of records in which every value met on an
    indicator path before its last segment is a dict (keys may be missing at
    any level), the aggregation step returns a table; the table has a [year]
    column and one column per indicator path, each with exactly one entry per
    record, and the entry is the value stored under the path, or NaN when a
    segment of the path is absent.  NaN is not the number zero. *)
Theorem aggregate_total_on_walkable_records (yearly_outputs : list Value) :
  Forall walkable yearly_outputs ->
  exists years,
    aggregate yearly_outputs
      = inr (("year", years) ::
             map (fun p => (fst p, map (entry (snd p)) yearly_outputs)) indicator_paths) /\
    List.length years = List.length yearly_outputs /\
    (forall name path,
        In (name, path) indicator_paths ->
        List.length (map (entry path) yearly_outputs) = List.length yearly_outputs /\
        forall i, (i < List.length yearly_outputs)%nat ->
          nth i (map (entry path) yearly_outputs) VNaN
            = match stored path (nth i yearly_outputs VNone) with
              | Some v => v
              | None => VNaN
              end) /\
    VNaN <> VNum 0 /\ VNaN <> VInt 0.
Proof.
  intros Hw.
  exists (map (fun res => match res with
                          | VDict d => match assoc "year" d with Some v => v | None => VNaN end
                          | _ => VNaN
                          end) yearly_outputs).
  split; [| split; [apply length_map | split; [| split; discriminate]]].
  - unfold aggregate.
    rewrite (comprehension_map _ (fun res => match res with
                          | VDict d => match assoc "year" d with Some v => v | None => VNaN end
                          | _ => VNaN
                          end)).
    + unfold bind at 1.
      rewrite (indicator_columns_navigable yearly_outputs indicators indicator_paths
                 indicators_follow_paths).
      * reflexivity.
      * apply Forall_forall. intros [name path] Hin. split.
        -- simpl in Hin. repeat (destruct Hin as [Hin | Hin]; [inversion Hin; discriminate |]).
           contradiction.
        -- apply Forall_forall. intros res Hres.
           rewrite Forall_forall in Hw. destruct (Hw res Hres) as [_ Hnav].
           rewrite Forall_forall in Hnav. exact (Hnav _ Hin).
    + apply Forall_forall. intros res Hres.
      rewrite Forall_forall in Hw. destruct (Hw res Hres) as [Hd _].
      destruct res; try discriminate. reflexivity.
  - intros name path Hin. split; [apply length_map |].
    intros i Hi.
    rewrite (nth_indep _ VNaN (entry path VNone)) by (rewrite length_map; exact Hi).
    rewrite map_nth. reflexivity.
Qed.

Lemma aggregate_total_on_walkable_records_witness :
  exists years,
    aggregate [bare_record]
      = inr (("year", years) ::
             map (fun p => (fst p, map (entry (snd p)) [bare_record])) indicator_paths).
Proof.
  destruct (aggregate_total_on_walkable_records [bare_record]) as (years & H & _).
  - constructor; [| constructor].
    split; [reflexivity |]. repeat constructor.
  - exists years. exact H.
Defined.

(** The aggregation step raises on a record whose [population] key holds
    [None]: [None] has no [get]. *)
Lemma aggregate_raises_on_empty_key :
  aggregate [empty_key_record] = inl (AttributeError "get").
Proof. reflexivity. Qed.

(** ** Nutritional status *)

Lemma arith_number (op : Q -> Q -> Q) (what : string) (a b v : Value) :
  arith op what a b = inr v -> (exists q, v = VNum q) \/ v = VNaN.
Proof.
  unfold arith. destruct (as_float a) as [[x |] |], (as_float b) as [[y |] |];
    simpl; intros H; inversion H; eauto.
Qed.

(** The floor: [max(0, s)] is a number that is not negative, also for NaN. *)
Lemma py_max_zero_nonneg (s v : Value) :
  py_max (num 0) s = inr v -> nonneg v.
Proof.
  unfold py_max, py_gt, py_lt, num. simpl as_float.
  destruct (as_float s) as [[q |] |] eqn:Hs; simpl; intros H; inversion H; subst; clear H.
  - unfold Qlt_bool. destruct (Qle_bool q 0) eqn:Hq; simpl.
    + unfold nonneg; simpl. apply Qle_refl.
    + unfold nonneg. rewrite Hs.
      destruct (Qlt_le_dec 0 q) as [Hlt | Hle]; [apply Qlt_le_weak; exact Hlt |].
      apply Qle_bool_iff in Hle. congruence.
  - unfold nonneg; simpl. apply Qle_refl.
Qed.

Lemma default_status_good : good_status Nutrition.default_status.
Proof.
  exists (dec 28 100), (dec 7 100), (dec 15 100), (dec 37 100).
  repeat split; unfold nonneg; simpl; discriminate.
Qed.

Lemma estimate_status_good (self : Nutrition.Model) (year : Z) (ni hf sf : Value) :
  exists status,
    Nutrition._estimate_nutritional_status self year ni hf sf = inr status /\
    good_status status.
Proof.
  unfold Nutrition._estimate_nutritional_status, try_except.
  destruct (Nutrition.estimate_body self ni) as [e | status] eqn:Hb.
  - exists Nutrition.default_status. split; [reflexivity | apply default_status_good].
  - exists status. split; [reflexivity |].
    unfold Nutrition.estimate_body in Hb. peel Hb. inversion Hb; subst.
    do 4 eexists. split; [reflexivity |].
    split; eapply py_max_zero_nonneg; eassumption.
Qed.

(** [simulate_nutritional_outcomes] always returns, and what it returns
    carries a status with non-negative stunting and wasting prevalence. *)
Lemma nutritional_outcomes_good (self : Nutrition.Model) (year : Z) (fa mp ss hs : Value) :
  exists c i status,
    Nutrition.simulate_nutritional_outcomes self year fa mp ss hs
      = inr (Nutrition.outcomes_dict year c i status) /\
    good_status status.
Proof.
  unfold Nutrition.simulate_nutritional_outcomes, try_except.
  match goal with
  | |- context [match ?body with inl _ => _ | inr _ => _ end] =>
      destruct body as [e | out] eqn:Hb
  end.
  - do 3 eexists. split; [reflexivity | apply default_status_good].
  - peel Hb. inversion Hb; subst.
    match goal with
    | H : Nutrition._estimate_nutritional_status _ _ _ _ _ = inr ?st |- _ =>
        destruct (estimate_status_good self year a1 hs ss) as (st' & Hst & Hgood);
        rewrite Hst in H; inversion H; subst
    end.
    do 3 eexists. split; [reflexivity | exact Hgood].
Qed.

Lemma simulate_year_nutrition (W : Collaborators) (m : Models W) sc y st h outs
    yearly_data st' :
  simulate_year W m sc y st h outs = inr (yearly_data, st') ->
  exists d fa mp ss out,
    yearly_data = VDict d /\
    assoc "nutritional_outcomes" d = Some out /\
    Nutrition.simulate_nutritional_outcomes (nutrition_model W m) y fa mp ss h = inr out.
Proof.
  unfold simulate_year. intros H. peel H. cbv zeta in H. inversion H; subst; clear H.
  do 5 eexists. split; [reflexivity |].
  split; [reflexivity | eassumption].
Qed.

Lemma stored_status (d : list (string * Value)) (year : Z) (c i s w u a : Value) :
  assoc "nutritional_outcomes" d
    = Some (Nutrition.outcomes_dict year c i (Nutrition.status_dict s w u a)) ->
  entry stunting_path (VDict d) = s /\ entry wasting_path (VDict d) = w.
Proof.
  intros H. unfold stunting_path, wasting_path.
  rewrite !entry_cons, H. split; reflexivity.
Qed.

Lemma record_prevalence_nonneg (W : Collaborators) (m : Models W) sc y st h outs
    yearly_data st' :
  simulate_year W m sc y st h outs = inr (yearly_data, st') ->
  nonneg (entry stunting_path yearly_data) /\ nonneg (entry wasting_path yearly_data).
Proof.
  intros H. apply simulate_year_nutrition in H.
  destruct H as (d & fa & mp & ss & out & -> & Hd & Hsim).
  destruct (nutritional_outcomes_good (nutrition_model W m) y fa mp ss h)
    as (c & i & status & Hout & (s & w & u & a & -> & Hs & Hw)).
  rewrite Hout in Hsim. inversion Hsim; subst out.
  destruct (stored_status _ _ _ _ _ _ _ _ Hd) as [-> ->]. split; assumption.
Qed.

Lemma steps_ok_new_records (W : Collaborators) (m : Models W) sc h
    (P : Value -> Prop) :
  (forall y st outs yearly_data st',
      simulate_year W m sc y st h outs = inr (yearly_data, st') -> P yearly_data) ->
  forall years st outs st' outs',
    steps_ok W m sc h years st outs st' outs' ->
    Forall P outs -> Forall P outs'.
Proof.
  intros HP years st outs st' outs' Hs.
  induction Hs as [| y ys st outs yd st1 st' outs' Hy Hs IH]; intros Houts.
  - exact Houts.
  - apply IH. apply Forall_app. split; [exact Houts |].
    constructor; [eapply HP; exact Hy | constructor].
Qed.

(** C5.  In every record of the [yearly_outputs] of every run, whatever the
    configuration and whatever the other models return, the stunting and
    wasting prevalence are numbers greater than or equal to zero. *)
Theorem prevalence_never_negative (W : Collaborators) (m : Models W) (sc : string)
    (first last : Z) (st h : Value) (log : list Event) (yearly_outputs : list Value) :
  run_years W m sc first last st h = (log, Some yearly_outputs) ->
  Forall (fun yearly_data =>
            nonneg (entry stunting_path yearly_data) /\
            nonneg (entry wasting_path yearly_data)) yearly_outputs.
Proof.
  unfold run_years. intros H. apply year_loop_success in H.
  destruct H as (_ & new & st' & _ & Hs & _).
  eapply steps_ok_new_records; [| exact Hs | constructor].
  intros y st0 outs yd st1. apply record_prevalence_nonneg.
Qed.

Lemma prevalence_never_negative_witness :
  match prepare (standin_world None) "baseline" three_year_config with
  | Ready _ m first last _ st h =>
      match run_years (standin_world None) m "baseline" first last st h with
      | (_, Some yearly_outputs) =>
          Forall (fun yearly_data =>
                    nonneg (entry stunting_path yearly_data) /\
                    nonneg (entry wasting_path yearly_data)) yearly_outputs
      | (_, None) => False
      end
  | Ended _ _ _ => False
  end.
Proof.
  destruct (prepare (standin_world None) "baseline" three_year_config)
    as [| m f l ps st h] eqn:Hprep; [vm_compute in Hprep; discriminate |].
  destruct (run_years (standin_world None) m "baseline" f l st h) as [log [ys |]] eqn:Hrun.
  - exact (prevalence_never_negative (standin_world None) m "baseline" f l st h log ys Hrun).
  - vm_compute in Hprep. inversion Hprep; subst. vm_compute in Hrun. discriminate.
Defined.

(** With the placeholder history loaded, reading the previous rate fails:
    the [rate] column is a pandas Series and [-1] is not one of its labels. *)
Lemma previous_rate_of_loaded_history (self : Nutrition.Model) (handler : Value)
    (key : string) (fallback : Value) :
  In key ["stunting_prevalence"; "wasting_prevalence"; "anemia_prevalence"] ->
  Nutrition.previous_rate (Nutrition.load_historical_data self handler) key fallback
    = inl (KeyError "-1").
Proof.
  simpl. intros [<- | [<- | [<- | []]]]; reflexivity.
Qed.

Lemma estimate_default_of_history (self : Nutrition.Model) :
  Nutrition.historical_nutrition_data self = Nutrition.placeholder_history ->
  forall year ni hf sf,
    Nutrition._estimate_nutritional_status self year ni hf sf = inr Nutrition.default_status.
Proof.
  intros H year ni hf sf.
  unfold Nutrition._estimate_nutritional_status, Nutrition.estimate_body,
    Nutrition.previous_rate.
  rewrite H. reflexivity.
Qed.

Lemma loaded_model_status (self : Nutrition.Model) (year : Z) (fa mp ss hs : Value) :
  Nutrition.historical_nutrition_data self = Nutrition.placeholder_history ->
  exists c i,
    Nutrition.simulate_nutritional_outcomes self year fa mp ss hs
      = inr (Nutrition.outcomes_dict year c i Nutrition.default_status).
Proof.
  intros H. unfold Nutrition.simulate_nutritional_outcomes, try_except.
  match goal with
  | |- context [match ?body with inl _ => _ | inr _ => _ end] =>
      destruct body as [e | out] eqn:Hb
  end.
  - do 2 eexists. reflexivity.
  - peel Hb. inversion Hb; subst.
    match goal with
    | Hs : Nutrition._estimate_nutritional_status _ _ _ _ _ = inr _ |- _ =>
        rewrite (estimate_default_of_history self H) in Hs; inversion Hs; subst
    end.
    do 2 eexists. reflexivity.
Qed.

Lemma prepare_loads_history (W : Collaborators) (sc : string) (config : Value)
    (m : Models W) (first last : Z) (ps st h : Value) :
  prepare W sc config = Ready W m first last ps st h ->
  Nutrition.historical_nutrition_data (nutrition_model W m) = Nutrition.placeholder_history.
Proof.
  unfold prepare. intros H.
  repeat match type of H with
         | match ?x with _ => _ end = _ => destruct x
         | (if ?b then _ else _) = _ => destruct b
         end; inversion H; subst; reflexivity.
Qed.

Lemma record_status_default (W : Collaborators) (m : Models W) sc y st h outs
    yearly_data st' :
  Nutrition.historical_nutrition_data (nutrition_model W m) = Nutrition.placeholder_history ->
  simulate_year W m sc y st h outs = inr (yearly_data, st') ->
  entry stunting_path yearly_data = dec 28 100 /\
  entry wasting_path yearly_data = dec 7 100.
Proof.
  intros Hh H. apply simulate_year_nutrition in H.
  destruct H as (d & fa & mp & ss & out & -> & Hd & Hsim).
  destruct (loaded_model_status (nutrition_model W m) y fa mp ss h Hh) as (c & i & Hout).
  rewrite Hout in Hsim. inversion Hsim; subst out.
  exact (stored_status _ _ _ _ _ _ _ _ Hd).
Qed.

(** C4.  The status the model produces does not depend on the status it
    produced the year before.  Once [load_historical_data] has run,
    [_estimate_nutritional_status] returns the dictionary of its [except]
    handler for every input; so in every completed run of every scenario,
    whatever the other models return, the stunting and wasting prevalence
    are 0.28 and 0.07 in every year.  For the baseline configuration the
    update [max(0, previous + change * modifier)] applied to the previous
    year's 0.28 and 0.07 would give 0.2819 and 0.07095 (intake not adequate)
    or 0.27525 and 0.06715 (intake adequate). *)
Theorem nutritional_status_ignores_previous_year :
  (forall self handler year ni hf sf,
      Nutrition._estimate_nutritional_status
        (Nutrition.load_historical_data self handler) year ni hf sf
        = inr Nutrition.default_status) /\
  (forall W sc config (m : Models W) first last ps st h log yearly_outputs,
      prepare W sc config = Ready W m first last ps st h ->
      run_years W m sc first last st h = (log, Some yearly_outputs) ->
      Forall (fun yearly_data =>
                entry stunting_path yearly_data = dec 28 100 /\
                entry wasting_path yearly_data = dec 7 100) yearly_outputs) /\
  exists m ps st h log yearly_outputs,
    prepare (standin_world None) "baseline" three_year_config
      = Ready (standin_world None) m 2025 2027 ps st h /\
    run_years (standin_world None) m "baseline" 2025 2027 st h = (log, Some yearly_outputs) /\
    map (entry stunting_path) yearly_outputs = [dec 28 100; dec 28 100; dec 28 100] /\
    map (entry wasting_path) yearly_outputs = [dec 7 100; dec 7 100; dec 7 100] /\
    (exists q, autoregressive_update (nutrition_model _ m) (dec 28 100) (dec 2 1000)
                 = inr (VNum q) /\ q == 2819 # 10000) /\
    (exists q, autoregressive_update (nutrition_model _ m) (dec 28 100) (dec (-5) 1000)
                 = inr (VNum q) /\ q == 27525 # 100000) /\
    (exists q, autoregressive_update (nutrition_model _ m) (dec 7 100) (dec 1 1000)
                 = inr (VNum q) /\ q == 7095 # 100000) /\
    (exists q, autoregressive_update (nutrition_model _ m) (dec 7 100) (dec (-3) 1000)
                 = inr (VNum q) /\ q == 6715 # 100000).
Proof.
  split; [| split].
  - intros self handler year ni hf sf.
    apply estimate_default_of_history. reflexivity.
  - intros W sc config m first last ps st h log ys Hprep Hrun.
    apply prepare_loads_history in Hprep.
    unfold run_years in Hrun. apply year_loop_success in Hrun.
    destruct Hrun as (_ & new & st' & _ & Hs & _).
    eapply steps_ok_new_records; [| exact Hs | constructor].
    intros y st0 outs yd st1. apply record_status_default. exact Hprep.
  - do 6 eexists. split; [vm_compute; reflexivity |].
    split; [vm_compute; reflexivity |].
    split; [vm_compute; reflexivity |].
    split; [vm_compute; reflexivity |].
    repeat split; eexists; (split; [vm_compute; reflexivity | reflexivity]).
Qed.

(** ** What a returned result says about the run *)

Lemma prepare_ended_not_returned (W : Collaborators) (sc : string) (config : Value)
    (log : list Event) (outcome : Exc RunResult) :
  prepare W sc config = Ended W log outcome -> forall r, outcome <> inr (Returned r).
Proof.
  unfold prepare. intros H r.
  repeat match type of H with
         | match ?x with _ => _ end = _ => destruct x
         | (if ?b then _ else _) = _ => destruct b
         | (let '(_, _) := ?x in _) = _ => destruct x
         end; inversion H; subst; discriminate.
Qed.

Lemma post_process_dataframes (W : Collaborators) (sc : string) (agg_df : Table)
    (r0 : ScenarioResult) (t : Table) :
  dataframes r0 = None ->
  dataframes (snd (post_process W sc agg_df r0)) = Some t -> t = agg_df.
Proof.
  unfold post_process. intros H0.
  destruct (negb (to_csv_ok W sc)); simpl; [rewrite H0; discriminate |].
  destruct (match nrows agg_df with O => _ | S _ => _ end) as [e | km]; simpl.
  - intros H; inversion H; reflexivity.
  - destruct (make_plots W sc (plots_to_make agg_df)) as [plot_log files]; simpl.
    intros H; inversion H; reflexivity.
Qed.

(** A run that returns aggregated results has completed its year loop with a
    non-empty [yearly_outputs], and any table it carries is the aggregate of
    those records. *)
Lemma run_returned_inv (W : Collaborators) (sc : string) (config : Value)
    (log : list Event) (r : ScenarioResult) :
  run_simulation_scenario W sc config = (log, inr (Returned r)) ->
  exists m first last ps st h loop_log yearly_outputs,
    prepare W sc config = Ready W m first last ps st h /\
    run_years W m sc first last st h = (loop_log, Some yearly_outputs) /\
    yearly_outputs <> [] /\
    scenario_name r = sc /\
    forall t, dataframes r = Some t -> aggregate yearly_outputs = inr t.
Proof.
  unfold run_simulation_scenario. intros H.
  destruct (prepare W sc config) as [plog outcome | m first last ps st h] eqn:Hprep.
  - inversion H; subst. exfalso. exact (prepare_ended_not_returned _ _ _ _ _ Hprep r eq_refl).
  - destruct (run_years W m sc first last st h) as [loop_log [ys |]] eqn:Hrun;
      simpl in H; [| discriminate].
    destruct ys as [| y0 ys]; [discriminate |].
    destruct (aggregate (y0 :: ys)) as [e | agg_df] eqn:Hagg; [discriminate |].
    destruct (post_process W sc agg_df _) as [post_log r'] eqn:Hpost.
    assert (Hr : r = snd (post_process W sc agg_df
                            (mkScenarioResult sc (first, last) ps None None None)))
      by (rewrite Hpost; inversion H; reflexivity).
    clear H Hpost.
    exists m, first, last, ps, st, h, loop_log, (y0 :: ys).
    split; [reflexivity |]. split; [exact Hrun |]. split; [discriminate |]. split.
    + rewrite Hr. unfold post_process.
      destruct (negb (to_csv_ok W sc)); [reflexivity |].
      destruct (match nrows agg_df with O => _ | S _ => _ end); [reflexivity |].
      destruct (make_plots W sc (plots_to_make agg_df)); reflexivity.
    + intros t Ht. rewrite Hr in Ht.
      apply post_process_dataframes in Ht; [subst; exact Hagg | reflexivity].
Qed.

Lemma comprehension_inv (f : Value -> Exc Value) (l xs : list Value) :
  comprehension f l = inr xs -> Forall2 (fun res x => f res = inr x) l xs.
Proof.
  revert xs. induction l as [| res l IH]; simpl; intros xs H.
  - inversion H; constructor.
  - peel H. inversion H; subst. constructor; [assumption | apply IH; assumption].
Qed.

(** The columns of an aggregate, read back from the records. *)
Lemma aggregate_columns (yearly_outputs : list Value) (t : Table) :
  aggregate yearly_outputs = inr t ->
  nrows t = List.length (column "year" t) /\
  Forall2 (fun res x => year_of res = inr x) yearly_outputs (column "year" t) /\
  Forall2 (fun res x => follow population_path res = inr x)
          yearly_outputs (column "total_population" t).
Proof.
  unfold aggregate, indicators. intros H. peel H. inversion H; subst; clear H.
  simpl in Ha0. peel Ha0. inversion Ha0; subst; clear Ha0.
  unfold column; simpl. split; [reflexivity |]. split.
  - apply comprehension_inv in Ha. exact Ha.
  - apply comprehension_inv in Ha1. exact Ha1.
Qed.

Lemma comprehension_length (f : Value -> Exc Value) (l xs : list Value) :
  comprehension f l = inr xs -> List.length xs = List.length l.
Proof.
  intros H. apply comprehension_inv in H.
  induction H; simpl; congruence.
Qed.

Lemma indicator_columns_length (yearly_outputs : list Value) :
  forall cols t,
    indicator_columns cols yearly_outputs = inr t ->
    Forall (fun c => List.length (snd c) = List.length yearly_outputs) t.
Proof.
  induction cols as [| [name f] cols IH]; simpl; intros t H.
  - inversion H. constructor.
  - peel H. inversion H; subst. constructor.
    + simpl. eapply comprehension_length; eassumption.
    + apply IH. assumption.
Qed.

(** Every column of an aggregate has one entry per record. *)
Lemma aggregate_rectangular (yearly_outputs : list Value) (t : Table) :
  aggregate yearly_outputs = inr t ->
  Forall (fun c => List.length (snd c) = List.length yearly_outputs) t.
Proof.
  unfold aggregate. intros H. peel H. inversion H; subst. constructor.
  - simpl. eapply comprehension_length; eassumption.
  - eapply indicator_columns_length; eassumption.
Qed.

Lemma indicator_columns_names (yearly_outputs : list Value) :
  forall cols t,
    indicator_columns cols yearly_outputs = inr t -> map fst t = map fst cols.
Proof.
  induction cols as [| [name f] cols IH]; simpl; intros t H.
  - inversion H; reflexivity.
  - peel H. inversion H; subst. simpl. f_equal. apply IH. assumption.
Qed.

Lemma aggregate_column_names (yearly_outputs : list Value) (t : Table) :
  aggregate yearly_outputs = inr t ->
  map fst t = "year" :: map fst indicators.
Proof.
  unfold aggregate. intros H. peel H. inversion H; subst; clear H.
  cbn [map fst]. f_equal. eapply indicator_columns_names. eassumption.
Qed.

Lemma Forall2_three {A B} (R : A -> B -> Prop) (a b c : A) (l : list B) :
  Forall2 R [a; b; c] l -> exists x y z, l = [x; y; z] /\ R a x /\ R b y /\ R c z.
Proof.
  intros H. inversion H as [| ? x ? l1 Ha H1]; subst.
  inversion H1 as [| ? y ? l2 Hb H2]; subst.
  inversion H2 as [| ? z ? l3 Hc H3]; subst.
  inversion H3; subst. exists x, y, z. auto.
Qed.

(** ** Population growth in the baseline run *)

Lemma follow_stored (path : list string) :
  forall res v, path <> [] -> stored path res = Some v -> follow path res = inr v.
Proof.
  induction path as [| k rest IH]; intros res v Hne H; [contradiction |].
  simpl in H. destruct res; try discriminate.
  destruct (assoc k d) as [sub |] eqn:Hk; [| discriminate].
  destruct rest as [| k' rest'].
  - simpl in H. inversion H; subst. simpl. rewrite Hk. reflexivity.
  - rewrite follow_cons. cbv [py_get ret bind]. rewrite Hk.
    apply IH; [discriminate | exact H].
Qed.

Lemma socio_population_step (self : Socio.Model) (gr p : Q) (y : Z)
    (st g c st' : Value) :
  growth_rate_is self gr ->
  pop_state st p ->
  Socio.simulate_socioeconomic_factors self y st g c = inr st' ->
  pop_state st' (p * (1 + gr)).
Proof.
  unfold growth_rate_is, pop_state. intros Hg Hp H.
  simpl in Hp. destruct st; try discriminate.
  destruct (assoc "population" d) as [pd |] eqn:Hpd; [| discriminate].
  destruct pd; try discriminate.
  destruct (assoc "total_population" d0) as [v |] eqn:Hv; [| discriminate].
  inversion Hp; subst v; clear Hp.
  unfold Socio.simulate_socioeconomic_factors in H.
  change (Socio.as_dict (VDict d)) with (VDict d) in H.
  peel H. inversion H; subst; clear H.
  unfold py_get_with in Ha. peel Ha. simpl in Ha. rewrite Hpd in Ha.
  inversion Ha; subst; clear Ha.
  unfold Socio._simulate_population_dynamics in Ha1.
  rewrite Hg in Ha1. simpl in Ha1. rewrite Hv in Ha1. simpl in Ha1.
  inversion Ha1; subst. reflexivity.
Qed.

Lemma simulate_year_population (W : Collaborators) (m : Models W) sc y st h outs
    yearly_data st' :
  simulate_year W m sc y st h outs = inr (yearly_data, st') ->
  (exists g c, Socio.simulate_socioeconomic_factors (socio_model W m) y st g c = inr st') /\
  stored population_path yearly_data = stored ["population"; "total_population"] st'.
Proof.
  unfold simulate_year. intros H. peel H. cbv zeta in H. inversion H; subst; clear H.
  split; [eauto | reflexivity].
Qed.

(** The set-up of the three-year baseline configuration. *)
Lemma prepare_baseline (W : Collaborators) (sc : string) (m : Models W)
    (first last : Z) (ps st h : Value) :
  prepare W sc three_year_config = Ready W m first last ps st h ->
  first = 2025%Z /\ last = 2027%Z /\ pop_state st 170000000 /\
  growth_rate_is (socio_model W m) (1 # 100).
Proof.
  unfold prepare. simpl.
  destruct (init_models W _) as [e | m0] eqn:Hinit; [discriminate |].
  destruct (negb (makedirs_ok W sc)); [discriminate |].
  intros H. inversion H; subst; clear H.
  repeat split.
  unfold init_models in Hinit. simpl in Hinit. peel Hinit.
  inversion Hinit; subst. reflexivity.
Qed.

(** C6.  A run of the baseline configuration over 2025..2027 (initial
    population 170e6) that returns a tabular summary returns one with exactly
    three rows, whose year column is [2025, 2026, 2027] and whose
    total_population column grows by the factor [1 + growth_rate] from each
    year to the next, starting from 170e6 * (1 + growth_rate); here
    [growth_rate] is the rate the socioeconomic model applies, 0.01.  The
    equalities are exact in rational arithmetic. *)
Theorem baseline_population_grows_by_constant_rate (W : Collaborators) (sc : string)
    (log : list Event) (r : ScenarioResult) (t : Table) :
  run_simulation_scenario W sc three_year_config = (log, inr (Returned r)) ->
  dataframes r = Some t ->
  nrows t = 3%nat /\
  Forall (fun c => List.length (snd c) = 3%nat) t /\
  column "year" t = [VInt 2025; VInt 2026; VInt 2027] /\
  exists (m : Models W) (growth_rate p2025 p2026 p2027 : Q),
    growth_rate_is (socio_model W m) growth_rate /\
    growth_rate == 1 # 100 /\
    column "total_population" t = [VNum p2025; VNum p2026; VNum p2027] /\
    p2025 == 170000000 * (1 + growth_rate) /\
    p2026 == p2025 * (1 + growth_rate) /\
    p2027 == p2026 * (1 + growth_rate).
Proof.
  intros Hrun Ht.
  apply run_returned_inv in Hrun.
  destruct Hrun as (m & first & last & ps & st & h & loop_log & ys
                    & Hprep & Hyears & _ & _ & Hagg).
  specialize (Hagg t Ht).
  apply prepare_baseline in Hprep. destruct Hprep as (-> & -> & Hp0 & Hg).
  unfold run_years in Hyears. apply year_loop_success in Hyears.
  destruct Hyears as (_ & new & st' & -> & Hs & Hf). simpl in Hagg.
  change (py_range 2025 (2027 + 1)) with [2025%Z; 2026%Z; 2027%Z] in Hs, Hf.
  inversion Hs as [| ? ? ? ? r1 st1 ? ? H1 Hs1]; subst; clear Hs.
  inversion Hs1 as [| ? ? ? ? r2 st2 ? ? H2 Hs2]; subst; clear Hs1.
  inversion Hs2 as [| ? ? ? ? r3 st3 ? ? H3 Hs3]; subst; clear Hs2.
  inversion Hs3; subst; clear Hs3. clear Hf. simpl in Hagg.
  pose proof (simulate_year_year _ _ _ _ _ _ _ _ _ H1) as Y1.
  pose proof (simulate_year_year _ _ _ _ _ _ _ _ _ H2) as Y2.
  pose proof (simulate_year_year _ _ _ _ _ _ _ _ _ H3) as Y3.
  apply simulate_year_population in H1, H2, H3.
  destruct H1 as [(g1 & c1 & S1) P1], H2 as [(g2 & c2 & S2) P2], H3 as [(g3 & c3 & S3) P3].
  pose proof (socio_population_step _ _ _ _ _ _ _ _ Hg Hp0 S1) as Q1.
  pose proof (socio_population_step _ _ _ _ _ _ _ _ Hg Q1 S2) as Q2.
  pose proof (socio_population_step _ _ _ _ _ _ _ _ Hg Q2 S3) as Q3.
  unfold pop_state in Q1, Q2, Q3. rewrite <- P1 in Q1. rewrite <- P2 in Q2. rewrite <- P3 in Q3.
  apply follow_stored in Q1, Q2, Q3; try discriminate.
  pose proof (aggregate_rectangular _ _ Hagg) as Hrect.
  apply aggregate_columns in Hagg. destruct Hagg as (Hrows & Hyear & Hpop).
  match goal with
  | Hnew : _ = ([] ++ new)%list |- _ => simpl in Hnew; subst new
  end.
  apply Forall2_three in Hyear. destruct Hyear as (x1 & x2 & x3 & Hy & E1 & E2 & E3).
  apply Forall2_three in Hpop. destruct Hpop as (z1 & z2 & z3 & Hpc & F1 & F2 & F3).
  assert (x1 = VInt 2025 /\ x2 = VInt 2026 /\ x3 = VInt 2027) as (-> & -> & ->)
    by (repeat split; congruence).
  rewrite Q1 in F1. rewrite Q2 in F2. rewrite Q3 in F3.
  inversion F1; inversion F2; inversion F3; subst z1 z2 z3.
  split; [rewrite Hrows, Hy; reflexivity |]. split; [exact Hrect |]. split; [exact Hy |].
  exists m, (1 # 100). do 3 eexists.
  split; [exact Hg |]. split; [reflexivity |]. split; [exact Hpc |].
  repeat split; reflexivity.
Qed.

Lemma baseline_population_grows_by_constant_rate_witness :
  match run_simulation_scenario (standin_world None) "baseline" three_year_config with
  | (_, inr (Returned r)) =>
      match dataframes r with
      | Some t => nrows t = 3%nat /\ column "year" t = [VInt 2025; VInt 2026; VInt 2027]
      | None => False
      end
  | _ => False
  end.
Proof.
  destruct (run_simulation_scenario (standin_world None) "baseline" three_year_config)
    as [log [e | [| | r]]] eqn:Hrun; try (vm_compute in Hrun; discriminate).
  destruct (dataframes r) as [t |] eqn:Ht.
  - destruct (baseline_population_grows_by_constant_rate
                (standin_world None) "baseline" log r t Hrun Ht) as (H1 & _ & H2 & _).
    split; assumption.
  - vm_compute in Hrun. inversion Hrun; subst. discriminate.
Defined.

(** ** The cross-scenario comparison *)

(** The batch loop reports how each scenario ended. *)
Lemma run_scenarios_verdict (W : Collaborators) (scenarios : list (string * Value))
    (name : string) (config : Value) (rlog : list Event) (outcome : Exc RunResult) :
  forall all,
    In (name, config) scenarios ->
    run_simulation_scenario W name config = (rlog, outcome) ->
    In (match outcome with
        | inr (Returned _) => ECompleted name
        | inr _ => EFailed name
        | inl e => EErrorRunning name e
        end) (fst (run_scenarios W scenarios all)).
Proof.
  induction scenarios as [| [n c] rest IH]; intros all Hin Hrun; simpl in *; [contradiction |].
  destruct Hin as [Hin | Hin].
  - inversion Hin; subst n c. rewrite Hrun.
    destruct outcome as [e | [| | r0]];
      match goal with
      | |- context [run_scenarios W rest ?a] => destruct (run_scenarios W rest a) as [log final]
      end; simpl; right; apply in_or_app; right; left; reflexivity.
  - destruct (run_simulation_scenario W n c) as [run_log out'].
    destruct out' as [e | [| | r0]];
      match goal with
      | |- context [run_scenarios W rest ?a] =>
          specialize (IH a Hin Hrun); destruct (run_scenarios W rest a) as [log final]
      end; simpl in *; right; apply in_or_app; right; right; exact IH.
Qed.

(** The comparison loop warns about every kept result without a usable
    annual summary. *)
Lemma collect_comparison_warns (all : list (string * ScenarioResult))
    (name : string) (r : ScenarioResult) :
  In (name, r) all ->
  dataframes r = None \/ (exists df, dataframes r = Some df /\ nrows df = O) ->
  In (EIncomplete name) (fst (collect_comparison all)).
Proof.
  induction all as [| [n r0] rest IH]; intros Hin Hbad; simpl in *; [contradiction |].
  destruct (collect_comparison rest) as [log data]; simpl in *.
  destruct Hin as [Hin | Hin].
  - inversion Hin; subst n r0.
    destruct Hbad as [-> | (df & -> & Hz)]; [left; reflexivity |].
    rewrite Hz. left; reflexivity.
  - specialize (IH Hin Hbad).
    destruct (dataframes r0) as [df |]; [destruct (0 <? nrows df)%nat |];
      simpl; auto.
Qed.

Lemma main_inv (W : Collaborators) (scenarios : list (string * Value)) (b : BatchResult) :
  main W scenarios = inr b ->
  batch_results b = snd (run_scenarios W scenarios []) /\
  batch_comparison b = comparison_table (batch_results b) /\
  (forall ev, In ev (fst (run_scenarios W scenarios [])) -> In ev (batch_log b)) /\
  (forall ev, In ev (fst (collect_comparison (batch_results b))) -> In ev (batch_log b)).
Proof.
  unfold main, comparison_table.
  destruct (run_scenarios W scenarios []) as [log all]; simpl.
  destruct (collect_comparison all) as [warn_log frames] eqn:Hc.
  assert (Hin : forall (x y z : list Event) ev,
             In ev log \/ In ev warn_log -> In ev (log ++ x ++ warn_log ++ y)%list).
  { intros x y z ev [H | H]; apply in_or_app; [left; exact H | right].
    apply in_or_app; right. apply in_or_app; left. exact H. }
  destruct frames as [| f fs].
  - intros H; inversion H; subst; simpl. rewrite Hc. simpl.
    split; [reflexivity |]. split; [reflexivity |].
    split; intros ev Hev; apply (Hin _ _ []); auto.
  - destruct (negb (makedirs_ok W "_comparison")); [discriminate |].
    intros H; inversion H; subst; simpl. rewrite Hc. simpl.
    split; [reflexivity |]. split; [reflexivity |].
    split; intros ev Hev; apply (Hin _ _ []); auto.
Qed.

Lemma setitem_nodup {A} (k : string) (v : A) (d : list (string * A)) :
  NoDup (map fst d) -> NoDup (map fst (setitem k v d)).
Proof.
  induction d as [| [k' v'] d IH]; simpl; intros Hnd.
  - constructor; [intros [] | constructor].
  - inversion Hnd as [| ? ? Hnot Hnd']; subst.
    destruct (String.eqb k k') eqn:E; simpl.
    + constructor; assumption.
    + constructor; [| exact (IH Hnd')].
      intros Hin. apply setitem_keys in Hin. destruct Hin as [-> | Hin].
      * rewrite String.eqb_refl in E. discriminate.
      * contradiction.
Qed.

Lemma run_scenarios_nodup (W : Collaborators) (scenarios : list (string * Value)) :
  forall all,
    NoDup (map fst all) -> NoDup (map fst (snd (run_scenarios W scenarios all))).
Proof.
  induction scenarios as [| [n c] rest IH]; intros all Hnd; simpl; [exact Hnd |].
  destruct (run_simulation_scenario W n c) as [run_log outcome].
  destruct outcome as [e | [| | r0]];
    match goal with
    | |- context [run_scenarios W rest ?a] =>
        specialize (IH a); destruct (run_scenarios W rest a) as [log final]
    end; simpl in *; apply IH; auto.
  apply setitem_nodup. exact Hnd.
Qed.

Lemma collect_comparison_compared (all : list (string * ScenarioResult)) :
  snd (collect_comparison all) = map (fun p => labelled (fst p) (snd p)) (compared all).
Proof.
  induction all as [| [n r] rest IH]; simpl; [reflexivity |].
  destruct (collect_comparison rest) as [log data]; simpl in IH.
  destruct (dataframes r) as [df |]; [destruct (0 <? nrows df)%nat |]; simpl;
    rewrite IH; reflexivity.
Qed.

Lemma compared_In (all : list (string * ScenarioResult)) (name : string) (df : Table) :
  In (name, df) (compared all) <->
  exists r, In (name, r) all /\ dataframes r = Some df /\ nrows df <> O.
Proof.
  induction all as [| [n r] rest IH]; simpl.
  - split; [intros [] | intros (r & [] & _)].
  - destruct (dataframes r) as [df0 |] eqn:Hdf.
    + destruct (0 <? nrows df0)%nat eqn:Hn.
      * simpl. rewrite IH. split.
        -- intros [H | (r' & H1 & H2 & H3)].
           ++ inversion H; subst. exists r. repeat split; auto.
              apply Nat.ltb_lt in Hn. lia.
           ++ exists r'. auto.
        -- intros (r' & [H | H1] & H2 & H3).
           ++ inversion H; subst. left. congruence.
           ++ right. exists r'. auto.
      * rewrite IH. split.
        -- intros (r' & H1 & H2 & H3). exists r'. auto.
        -- intros (r' & [H | H1] & H2 & H3).
           ++ inversion H; subst. rewrite Hdf in H2. inversion H2; subst.
              apply Nat.ltb_ge in Hn. lia.
           ++ exists r'. auto.
    + rewrite IH. split.
      * intros (r' & H1 & H2 & H3). exists r'. auto.
      * intros (r' & [H | H1] & H2 & H3).
        -- inversion H; subst. congruence.
        -- exists r'. auto.
Qed.

Lemma compared_keys (all : list (string * ScenarioResult)) (name : string) :
  In name (map fst (compared all)) -> In name (map fst all).
Proof.
  induction all as [| [n r] rest IH]; simpl; [auto |].
  destruct (dataframes r) as [df |]; [destruct (0 <? nrows df)%nat |]; simpl; tauto.
Qed.

Lemma compared_nodup (all : list (string * ScenarioResult)) :
  NoDup (map fst all) -> NoDup (map fst (compared all)).
Proof.
  induction all as [| [n r] rest IH]; simpl; intros Hnd; [constructor |].
  inversion Hnd as [| ? ? Hnot Hnd']; subst.
  destruct (dataframes r) as [df |]; [destruct (0 <? nrows df)%nat |]; simpl; auto.
  constructor; [| auto]. intros Hin. apply Hnot. apply compared_keys. exact Hin.
Qed.

Lemma nrows_labelled (name : string) (df : Table) :
  nrows (labelled name df) = nrows df.
Proof.
  unfold labelled. destruct df as [| [k xs] df]; [reflexivity |].
  cbn [setitem nrows].
  destruct (String.eqb "scenario" k); cbn [nrows]; [apply repeat_length | reflexivity].
Qed.

Lemma dedup_In (l : list string) (x : string) : In x (dedup l) <-> In x l.
Proof.
  induction l as [| y l IH]; simpl; [tauto |].
  rewrite filter_In, IH. split.
  - intros [H | [H _]]; auto.
  - intros [H | H]; [left; exact H |].
    destruct (String.eqb y x) eqn:E.
    + apply String.eqb_eq in E. left; exact E.
    + right. split; [exact H | reflexivity].
Qed.

Lemma existsb_eqb_In (c : string) (l : list string) :
  existsb (String.eqb c) l = true <-> In c l.
Proof.
  rewrite existsb_exists. split.
  - intros (x & Hx & E). apply String.eqb_eq in E. subst. exact Hx.
  - intros H. exists c. split; [exact H | apply String.eqb_refl].
Qed.

(** A column of the concatenation is the concatenation of that column over
    the frames, when some frame has it. *)
Lemma concat_column (frames : list Table) (c : string) :
  In c (flat_map (map fst) frames) ->
  column c (concat frames)
  = flat_map (fun df => match assoc c df with
                        | Some xs => xs
                        | None => repeat VNaN (nrows df)
                        end) frames.
Proof.
  intros Hin. unfold column, concat. rewrite assoc_map_key.
  destruct (existsb (String.eqb c) (dedup (flat_map (map fst) frames))) eqn:E;
    [reflexivity |].
  exfalso. apply dedup_In in Hin. apply existsb_eqb_In in Hin. congruence.
Qed.

Lemma concat_names (frames : list Table) (c : string) :
  In c (map fst (concat frames)) <-> In c (flat_map (map fst) frames).
Proof.
  unfold concat. rewrite map_map. simpl. rewrite map_id. apply dedup_In.
Qed.

Lemma assoc_present {A} (c : string) (d : list (string * A)) :
  In c (map fst d) -> exists xs, assoc c d = Some xs.
Proof.
  induction d as [| [k v] d IH]; simpl; [intros [] |].
  destruct (String.eqb c k) eqn:E; [eauto |].
  intros [H | H]; [subst; rewrite String.eqb_refl in E; discriminate | auto].
Qed.

Lemma flat_map_map {A B C} (f : A -> B) (g : B -> list C) (l : list A) :
  flat_map g (map f l) = flat_map (fun x => g (f x)) l.
Proof. induction l; simpl; [reflexivity | rewrite IHl; reflexivity]. Qed.

(** The comparison table of summaries that all have the columns of an annual
    summary: each block of rows is one scenario's summary under its name. *)
Lemma comparison_of_summaries (parts : list (string * Table)) :
  parts <> [] ->
  (forall p, In p parts -> map fst (snd p) = summary_columns) ->
  let t := concat (map (fun p => labelled (fst p) (snd p)) parts) in
  (forall c, In c (map fst t) <-> c = "scenario" \/ In c summary_columns) /\
  column "scenario" t = flat_map (fun p => repeat (VStr (fst p)) (nrows (snd p))) parts /\
  (forall c, In c summary_columns ->
             column c t = flat_map (fun p => column c (snd p)) parts).
Proof.
  intros Hne Hcols t.
  assert (Hnames : forall p, In p parts -> forall c,
            In c (map fst (labelled (fst p) (snd p))) <->
            c = "scenario" \/ In c summary_columns).
  { intros p Hp c. unfold labelled. rewrite setitem_keys, (Hcols p Hp). tauto. }
  assert (Hall : forall c, In c (flat_map (map fst)
                                   (map (fun p => labelled (fst p) (snd p)) parts)) <->
                           c = "scenario" \/ In c summary_columns).
  { intros c. rewrite flat_map_map, in_flat_map. split.
    - intros (p & Hp & Hc). apply (Hnames p Hp). exact Hc.
    - intros H. destruct parts as [| p0 rest]; [congruence |].
      exists p0. split; [left; reflexivity |]. apply (Hnames p0 (or_introl eq_refl)). exact H. }
  split; [| split].
  - intros c. unfold t. rewrite concat_names. apply Hall.
  - unfold t. rewrite concat_column by (apply Hall; left; reflexivity).
    rewrite flat_map_map. apply flat_map_ext. intros p.
    rewrite labelled_scenario. reflexivity.
  - intros c Hc. unfold t. rewrite concat_column by (apply Hall; right; exact Hc).
    rewrite flat_map_map.
    assert (Hext : forall l : list (string * Table),
              (forall p, In p l -> In p parts) ->
              flat_map (fun p => match assoc c (labelled (fst p) (snd p)) with
                                 | Some xs => xs
                                 | None => repeat VNaN (nrows (labelled (fst p) (snd p)))
                                 end) l
              = flat_map (fun p => column c (snd p)) l).
    { induction l as [| p l IH]; intros Hl; simpl; [reflexivity |].
      rewrite IH by (intros q Hq; apply Hl; right; exact Hq). f_equal.
      assert (Hne' : c <> "scenario").
      { intros ->. unfold summary_columns, indicators in Hc. simpl in Hc.
        repeat (destruct Hc as [Hc | Hc]; [discriminate |]). exact Hc. }
      unfold labelled. rewrite assoc_setitem_other by exact Hne'.
      unfold column.
      destruct (assoc_present c (snd p)) as (xs & ->); [| reflexivity].
      rewrite (Hcols p (Hl p (or_introl eq_refl))). exact Hc. }
    apply Hext. auto.
Qed.

Lemma aggregate_nrows (yearly_outputs : list Value) (t : Table) :
  aggregate yearly_outputs = inr t -> nrows t = List.length yearly_outputs.
Proof.
  intros H. apply aggregate_columns in H. destruct H as (Hn & Hy & _).
  rewrite Hn. symmetry. eapply Forall2_length. exact Hy.
Qed.

(** The annual summary a run returns has the summary columns and at least
    one row. *)
Lemma returned_summary (W : Collaborators) (sc : string) (config : Value)
    (log : list Event) (r : ScenarioResult) (df : Table) :
  run_simulation_scenario W sc config = (log, inr (Returned r)) ->
  dataframes r = Some df ->
  map fst df = summary_columns /\ nrows df <> O /\
  forall c, In c summary_columns -> List.length (column c df) = nrows df.
Proof.
  intros Hrun Hdf. apply run_returned_inv in Hrun.
  destruct Hrun as (m & first & last & ps & st & h & loop_log & ys
                    & _ & _ & Hne & _ & Hagg).
  specialize (Hagg df Hdf). split; [| split].
  - exact (aggregate_column_names _ _ Hagg).
  - rewrite (aggregate_nrows _ _ Hagg). destruct ys; [congruence | discriminate].
  - intros c Hc. rewrite (aggregate_nrows _ _ Hagg).
    unfold summary_columns in Hc. rewrite <- (aggregate_column_names _ _ Hagg) in Hc.
    destruct (assoc_present c df Hc) as (xs & Hxs).
    unfold column. rewrite Hxs.
    pose proof (aggregate_rectangular _ _ Hagg) as Hrect.
    rewrite Forall_forall in Hrect.
    exact (Hrect (c, xs) (assoc_In _ _ _ Hxs)).
Qed.

(** C7.  In a batch over scenarios with distinct names that reaches the
    end of [main]: every row of the comparison table is labelled with the
    name of exactly one configured scenario, and that scenario's run returned
    aggregated results carrying an annual summary; a scenario whose run did
    not return such results labels no row of the table, and the batch log
    holds a diagnostic naming it.  The table itself is the row-wise
    concatenation of the annual summaries of the scenarios whose runs returned
    one, each scenario once: there is no table exactly when there is no such
    scenario; otherwise its columns are the summary columns and [scenario],
    its [scenario] column is, block by block, the scenario's name repeated
    once per row of that scenario's summary, and every summary column is the
    concatenation of that column of the summaries in the same order, each
    summary having at least one row and contributing as many entries as it
    has rows. *)
Theorem comparison_built_from_completed_scenarios (W : Collaborators)
    (scenarios : list (string * Value)) (b : BatchResult) :
  NoDup (map fst scenarios) ->
  main W scenarios = inr b ->
  (forall t v,
      batch_comparison b = Some t -> In v (column "scenario" t) ->
      exists name config rlog r df,
        v = VStr name /\ In (name, config) scenarios /\
        (forall config', In (name, config') scenarios -> config' = config) /\
        run_simulation_scenario W name config = (rlog, inr (Returned r)) /\
        dataframes r = Some df) /\
  (forall name config rlog outcome,
      In (name, config) scenarios ->
      run_simulation_scenario W name config = (rlog, outcome) ->
      (forall r, outcome = inr (Returned r) -> dataframes r = None) ->
      (forall t, batch_comparison b = Some t -> ~ In (VStr name) (column "scenario" t)) /\
      excluded_with_diagnostic (batch_log b) name) /\
  (let parts := compared (batch_results b) in
   NoDup (map fst parts) /\
   (forall name df,
      In (name, df) parts <->
      exists config rlog r,
        In (name, config) scenarios /\
        run_simulation_scenario W name config = (rlog, inr (Returned r)) /\
        dataframes r = Some df) /\
   (forall name df,
      In (name, df) parts ->
      nrows df <> O /\
      forall c, In c summary_columns -> List.length (column c df) = nrows df) /\
   (batch_comparison b = None <-> parts = []) /\
   forall t,
     batch_comparison b = Some t ->
     (forall c, In c (map fst t) <-> c = "scenario" \/ In c summary_columns) /\
     column "scenario" t
       = flat_map (fun p => repeat (VStr (fst p)) (nrows (snd p))) parts /\
     (forall c, In c summary_columns ->
                column c t = flat_map (fun p => column c (snd p)) parts)).
Proof.
  intros Hnd Hmain. apply main_inv in Hmain.
  destruct Hmain as (Hres & Hcmp & Hlog1 & Hlog2).
  assert (Hkept : forall name r, In (name, r) (batch_results b) ->
            exists config rlog, In (name, config) scenarios /\
              run_simulation_scenario W name config = (rlog, inr (Returned r))).
  { intros name r Hin. rewrite Hres in Hin.
    assert (Hk : In name (map fst (snd (run_scenarios W scenarios [])))).
    { apply (in_map fst) in Hin. exact Hin. }
    apply run_scenarios_results in Hk.
    destruct Hk as [[] | (config & rlog & r' & Hc & Hrun)].
    exists config, rlog. split; [exact Hc |].
    pose proof (run_scenarios_keeps W scenarios name config rlog r' [] Hnd Hc Hrun) as Hin'.
    assert (Hnd_all : forall a b0, In (name, a) (snd (run_scenarios W scenarios [])) ->
                                   In (name, b0) (snd (run_scenarios W scenarios [])) -> a = b0).
    { intros a b0. apply NoDup_keys_unique. apply run_scenarios_nodup. constructor. }
    rewrite (Hnd_all r r' Hin Hin'). exact Hrun. }
  split; [| split].
  - intros t v Ht Hv. rewrite Hcmp in Ht.
    destruct (comparison_labels _ _ _ Ht Hv) as (name & r & df & -> & Hin & Hdf).
    destruct (Hkept name r Hin) as (config & rlog & Hc & Hrun).
    exists name, config, rlog, r, df. repeat split; auto.
    intros config' Hc'. exact (NoDup_keys_unique _ _ _ _ Hnd Hc' Hc).
  - intros name config rlog outcome Hc Hrun Hbad. split.
    + intros t Ht Hv. rewrite Hcmp in Ht.
      destruct (comparison_labels _ _ _ Ht Hv) as (name' & r & df & Heq & Hin & Hdf).
      inversion Heq; subst name'.
      destruct (Hkept name r Hin) as (config' & rlog' & Hc' & Hrun').
      rewrite (NoDup_keys_unique _ _ _ _ Hnd Hc' Hc) in Hrun'.
      rewrite Hrun in Hrun'. inversion Hrun'; subst.
      rewrite (Hbad r eq_refl) in Hdf. discriminate.
    + pose proof (run_scenarios_verdict W scenarios name config rlog outcome [] Hc Hrun) as Hv.
      unfold excluded_with_diagnostic.
      destruct outcome as [e | [| | r]].
      * right; left. exists e. apply Hlog1. exact Hv.
      * left. apply Hlog1. exact Hv.
      * left. apply Hlog1. exact Hv.
      * right; right. apply Hlog2. rewrite Hres.
        eapply collect_comparison_warns.
        -- eapply run_scenarios_keeps; eauto.
        -- left. apply Hbad. reflexivity.
  - cbv zeta.
    assert (Hparts : forall name df,
              In (name, df) (compared (batch_results b)) <->
              exists config rlog r,
                In (name, config) scenarios /\
                run_simulation_scenario W name config = (rlog, inr (Returned r)) /\
                dataframes r = Some df).
    { intros name df. rewrite compared_In. split.
      - intros (r & Hin & Hdf & _).
        destruct (Hkept name r Hin) as (config & rlog & Hc & Hrun).
        exists config, rlog, r. auto.
      - intros (config & rlog & r & Hc & Hrun & Hdf).
        exists r. split; [| split; [exact Hdf |]].
        + rewrite Hres. eapply run_scenarios_keeps; eauto.
        + exact (proj1 (proj2 (returned_summary W name config rlog r df Hrun Hdf))). }
    assert (Hcmp' : batch_comparison b
                    = match compared (batch_results b) with
                      | [] => None
                      | _ :: _ =>
                          Some (concat (map (fun p => labelled (fst p) (snd p))
                                            (compared (batch_results b))))
                      end).
    { rewrite Hcmp. unfold comparison_table. rewrite collect_comparison_compared.
      destruct (compared (batch_results b)); reflexivity. }
    split; [| split; [exact Hparts | split; [| split]]].
    + apply compared_nodup. rewrite Hres. apply run_scenarios_nodup. constructor.
    + intros name df Hp.
      apply Hparts in Hp. destruct Hp as (config & rlog & r & _ & Hrun & Hdf).
      exact (proj2 (returned_summary W name config rlog r df Hrun Hdf)).
    + rewrite Hcmp'. destruct (compared (batch_results b)); split; congruence.
    + intros t Ht. rewrite Hcmp' in Ht.
      destruct (compared (batch_results b)) as [| p0 rest] eqn:Hc; [discriminate |].
      inversion Ht; subst t; clear Ht.
      refine (comparison_of_summaries (p0 :: rest) _ _); [discriminate |].
      intros [name df] Hp. simpl.
      apply Hparts in Hp. destruct Hp as (config & rlog & r & _ & Hrun & Hdf).
      exact (proj1 (returned_summary W name config rlog r df Hrun Hdf)).
Qed.

Lemma comparison_built_from_completed_scenarios_witness :
  match main (standin_world (Some 2026%Z)) two_scenarios with
  | inr b =>
      ((forall t, batch_comparison b = Some t ->
                  ~ In (VStr "aborting") (column "scenario" t)) /\
       excluded_with_diagnostic (batch_log b) "aborting") /\
      exists t, batch_comparison b = Some t /\
                column "scenario" t = [VStr "completing"] /\
                column "year" t = [VInt 2025]
  | inl _ => False
  end.
Proof.
  set (W := standin_world (Some 2026%Z)).
  destruct (main W two_scenarios) as [e | b] eqn:Hmain; [vm_compute in Hmain; discriminate |].
  destruct (run_simulation_scenario W "aborting" three_year_config) as [rlog outcome] eqn:Hrun.
  assert (Hnd : NoDup (map fst two_scenarios)).
  { simpl. constructor; [intros [H | []]; discriminate |].
    constructor; [intros [] | constructor]. }
  destruct (comparison_built_from_completed_scenarios W two_scenarios b Hnd Hmain) as (_ & Hex & Hparts).
  split.
  - apply (Hex "aborting" three_year_config rlog outcome (or_introl eq_refl) Hrun).
    intros r Hr. vm_compute in Hrun. rewrite Hr in Hrun. discriminate.
  - cbv zeta in Hparts. destruct Hparts as (_ & _ & _ & _ & Htable).
    destruct (batch_comparison b) as [t |] eqn:Ht;
      [| vm_compute in Hmain; inversion Hmain; subst; discriminate].
    exists t. split; [reflexivity |].
    destruct (Htable t eq_refl) as (_ & Hlabels & Hcols).
    rewrite Hlabels, (Hcols "year" (or_introl eq_refl)).
    vm_compute in Hmain. inversion Hmain; subst. split; reflexivity.
Defined.

(** ** Key metrics *)

(** The unguarded entries never show the marker, whatever the table holds. *)
Lemma unguarded_metrics_never_unavailable (agg_df : Table) (km : list (string * Metric)) :
  key_metrics_of agg_df = inr km ->
  exists x y,
    assoc "Final Population" km = Some (Rendered ",.0f" x) /\
    assoc "Final GDP per Capita" km = Some (Rendered "$,.2f" y).
Proof.
  unfold key_metrics_of. intros H. peel H. inversion H; subst; clear H. simpl.
  unfold render in Ha, Ha0.
  destruct (final_value agg_df "total_population" (VInt 0)); inversion Ha; subst;
    destruct (final_value agg_df "gdp_per_capita" (VInt 0)); inversion Ha0; subst;
    eauto.
Qed.

(** The guarded entries do: a final value that is missing gives ["N/A"]. *)
Lemma guarded_final_missing (agg_df : Table) (col format : string) :
  is_missing (final_value agg_df col VNone) = true ->
  guarded_final agg_df col format = inr NA.
Proof. unfold guarded_final, notna. intros ->. reflexivity. Qed.

(** C8.  The post-loop code of [run_simulation_scenario], run on a
    [yearly_outputs] whose only record has no socioeconomic state, no
    nutritional outcomes and no production output: every indicator column of
    the table is NaN.  The stunting, wasting, energy and rice entries of the
    key metrics are the marker ["N/A"]; the population and GDP entries are
    the rendering of NaN under their numeric format. *)
Theorem key_metrics_of_missing_population :
  exists log r,
    finish (standin_world None) "baseline" 2025 2025 empty_dict ([], Some [bare_record])
      = (log, inr (Returned r)) /\
    dataframes r
      = Some (("year", [VInt 2025]) :: map (fun p => (fst p, [VNaN])) indicator_paths) /\
    key_metrics r
      = Some [("Final Population", Rendered ",.0f" VNaN);
              ("Final GDP per Capita", Rendered "$,.2f" VNaN);
              ("Final Stunting Rate", NA);
              ("Final Wasting Rate", NA);
              ("Avg Energy Intake (Final Year)", NA);
              ("Avg Rice Production", NA)].
Proof.
  do 2 eexists. split; [vm_compute; reflexivity |]. split; reflexivity.
Qed.

(** ** Market dynamics *)

(** C9.  On the example input of the module's own [__main__] block the
    producer price of rice (0.52) lies below the world price less export
    costs (400 - 6), the export branch of [_simulate_trade_flows] is taken,
    and reading [market_supply] there raises [NameError]: the name is neither
    a parameter or local variable of the method nor a module global. *)
Theorem market_example_raises_name_error :
  market_example = inl (NameError "market_supply").
Proof. vm_compute. reflexivity. Qed.

(** ** Scenario isolation *)

Module StoreFacts.
Import Store.

Lemma mem_In (l : nat) (r : list nat) : existsb (Nat.eqb l) r = true <-> In l r.
Proof.
  rewrite existsb_exists. split.
  - intros (x & Hx & E). apply Nat.eqb_eq in E. subst. exact Hx.
  - intros H. exists l. split; [exact H | apply Nat.eqb_refl].
Qed.

Lemma nth_error_update_other {A} (f : A -> A) (xs : list A) :
  forall l l', l <> l' -> nth_error (update l f xs) l' = nth_error xs l'.
Proof.
  induction xs as [| x xs IH]; intros l l' Hne; [destruct l; reflexivity |].
  destruct l as [| l], l' as [| l']; simpl; try reflexivity; [contradiction |].
  apply IH. congruence.
Qed.

Lemma length_update {A} (f : A -> A) (xs : list A) :
  forall l, List.length (update l f xs) = List.length xs.
Proof.
  induction xs as [| x xs IH]; intros [| l]; simpl; try reflexivity.
  rewrite IH. reflexivity.
Qed.

Lemma closed_spec (h : Heap) (r : list nat) (l l' : nat) (o : Obj) (k : string) :
  closed h r = true -> In l r -> nth_error h l = Some o -> In (k, Ref l') o -> In l' r.
Proof.
  unfold closed. rewrite forallb_forall. intros Hc Hl Ho Hk.
  specialize (Hc l Hl). rewrite Ho in Hc. rewrite forallb_forall in Hc.
  apply mem_In. apply Hc. unfold refs_of. apply in_flat_map.
  exists (k, Ref l'). split; [exact Hk | left; reflexivity].
Qed.

Lemma reify_obj_ext (rec1 rec2 : Cell -> option Value) (o : Obj) :
  (forall k c, In (k, c) o -> rec1 c = rec2 c) -> reify_obj rec1 o = reify_obj rec2 o.
Proof.
  induction o as [| [k c] o IH]; intros H; simpl; [reflexivity |].
  rewrite (H k c) by (left; reflexivity).
  rewrite IH by (intros k' c' Hin; apply (H k' c'); right; exact Hin).
  reflexivity.
Qed.

(** Reading a cell looks only at the objects of a closed set of locations
    that contains the cell. *)
Lemma reify_frame (h h' : Heap) (r : list nat) :
  closed h r = true ->
  (forall l, In l r -> nth_error h' l = nth_error h l) ->
  forall fuel c, (forall l, c = Ref l -> In l r) -> reify fuel h' c = reify fuel h c.
Proof.
  intros Hc Hsame. induction fuel as [| n IH]; intros [v | l] Hin; try reflexivity.
  simpl. specialize (Hin l eq_refl). rewrite (Hsame l Hin).
  destruct (nth_error h l) as [o |] eqn:Ho; [| reflexivity].
  f_equal. apply reify_obj_ext. intros k c Hk. apply IH.
  intros l' ->. eapply closed_spec; eauto.
Qed.

Lemma closed_reachable (h : Heap) (r : list nat) (c : Cell) (l : nat) :
  closed h r = true -> reachable h c l -> (forall l0, c = Ref l0 -> In l0 r) -> In l r.
Proof.
  intros Hc Hr. induction Hr as [l | c k c' l Hget Hr IH]; intros Hin.
  - apply Hin. reflexivity.
  - apply IH. intros l' ->.
    destruct c as [v | l0]; simpl in Hget; [discriminate |].
    destruct (nth_error h l0) as [o |] eqn:Ho; [| discriminate].
    apply assoc_In in Hget. eapply closed_spec; eauto.
Qed.

(** An assignment through a path changes one object, and that object is
    reachable from the root of the path. *)
Lemma store_path_target (h : Heap) (c : Cell) (path : list string) :
  forall root h',
    store_path h root path c = Some h' ->
    exists l k, reachable h root l /\ h' = store h l k c.
Proof.
  induction path as [| k rest IH]; intros root h' H; [discriminate |].
  destruct rest as [| k' rest'].
  - simpl in H. destruct root as [v | l]; [discriminate |].
    destruct (nth_error h l); [| discriminate].
    inversion H; subst. exists l, k. split; [constructor | reflexivity].
  - change (store_path h root (k :: k' :: rest') c)
      with (match getitem h root k with
            | Some next => store_path h next (k' :: rest') c
            | None => None
            end) in H.
    destruct (getitem h root k) as [next |] eqn:Hg; [| discriminate].
    destruct (IH _ _ H) as (l & k0 & Hr & ->).
    exists l, k0. split; [econstructor; eauto | reflexivity].
Qed.

(** Assigning under one root leaves every location outside its region, and
    every value read from a disjoint closed region, as it was. *)
Lemma assignment_is_local (h h' : Heap) (ca cb c : Cell) (ra rb : list nat)
    (path : list string) :
  closed h ra = true -> closed h rb = true -> disjoint rb ra = true ->
  (forall l, ca = Ref l -> In l ra) ->
  (forall l, cb = Ref l -> In l rb) ->
  store_path h ca path c = Some h' ->
  (forall l, existsb (Nat.eqb l) ra = false -> nth_error h' l = nth_error h l) /\
  read h' cb = read h cb.
Proof.
  intros Hca Hcb Hd Ha Hb Hs.
  apply store_path_target in Hs. destruct Hs as (l & k & Hr & ->).
  pose proof (closed_reachable h ra ca l Hca Hr Ha) as Hl.
  assert (Hout : forall l', existsb (Nat.eqb l') ra = false ->
                            nth_error (store h l k c) l' = nth_error h l').
  { intros l' Hl'. apply nth_error_update_other. intros ->.
    apply mem_In in Hl. congruence. }
  split; [exact Hout |].
  unfold read, store. rewrite length_update.
  apply (reify_frame h _ rb Hcb); [| exact Hb].
  intros l' Hl'. apply Hout.
  unfold disjoint in Hd. rewrite forallb_forall in Hd.
  specialize (Hd l' Hl'). destruct (existsb (Nat.eqb l') ra); [discriminate | reflexivity].
Qed.

Lemma SCENARIOS_ref : SCENARIOS = Ref 68%nat.
Proof. vm_compute. reflexivity. Qed.

(** Isolation of scenario [b] from an assignment under scenario [a], from
    facts about the two regions that are decided by evaluation. *)
Lemma isolation_at (b : string) (la lb : nat) (path : list string) (c : Cell)
    (h' : Heap) :
  getitem heap SCENARIOS b = Some (Ref lb) ->
  closed heap (region 10 heap (Ref la)) = true ->
  closed heap (region 10 heap (Ref lb)) = true ->
  disjoint (region 10 heap (Ref lb)) (region 10 heap (Ref la)) = true ->
  existsb (Nat.eqb 68%nat) (region 10 heap (Ref la)) = false ->
  existsb (Nat.eqb la) (region 10 heap (Ref la)) = true ->
  existsb (Nat.eqb lb) (region 10 heap (Ref lb)) = true ->
  store_path heap (Ref la) path c = Some h' ->
  scenario_config h' b = scenario_config heap b.
Proof.
  intros Hb Hca Hcb Hd Hs Hla Hlb Hstore.
  destruct (assignment_is_local heap h' (Ref la) (Ref lb) c _ _ path Hca Hcb Hd) as [Hout Hread].
  - intros l E. inversion E; subst. apply mem_In. exact Hla.
  - intros l E. inversion E; subst. apply mem_In. exact Hlb.
  - exact Hstore.
  - unfold scenario_config. rewrite Hb.
    assert (Hb' : getitem h' SCENARIOS b = Some (Ref lb)).
    { rewrite SCENARIOS_ref in *. unfold getitem in *. rewrite (Hout 68%nat Hs). exact Hb. }
    rewrite Hb'. exact Hread.
Qed.

End StoreFacts.

(** C10.  The store left by the module-level code holds, under ["baseline"],
    the baseline configuration, and under each other name the baseline
    configuration with that scenario's overrides and nothing else changed.
    For two different scenario names [a] and [b], an assignment through any
    path under [SCENARIOS[a]], of any value or reference, leaves the
    configuration read from [SCENARIOS[b]] as it was, and with it the whole
    outcome of running scenario [b], whatever the collaborators are. *)
Theorem scenarios_are_isolated_deep_copies :
  (Store.scenario_config Store.heap "baseline" = Some BASE_CONFIG /\
   Store.scenario_config Store.heap "high_climate_impact"
     = Some (assign_path ["parameters"; "climate_resilience"; "precip_change_trend"]
               (dec (-1) 100)
               (assign_path ["parameters"; "climate_resilience"; "temp_anomaly_trend"]
                  (dec 5 100)
                  (assign "simulation_name"
                     (VStr "BD_FoodSecurity_Scenario_HighClimateImpact") BASE_CONFIG))) /\
   Store.scenario_config Store.heap "enhanced_adaptation"
     = Some (assign_path ["parameters"; "climate_resilience"; "adaptation_effectiveness"]
               (dec 6 10)
               (assign "simulation_name"
                  (VStr "BD_FoodSecurity_Scenario_EnhancedAdaptation") BASE_CONFIG)) /\
   Store.scenario_config Store.heap "policy_change_safety_net"
     = Some (assign_path ["parameters"; "policy_interventions"; "safety_net_coverage"]
               (dec 4 10)
               (assign_path ["parameters"; "policy_interventions"; "policy_scenario_active"]
                  (VStr "enhanced_safety_nets")
                  (assign "simulation_name"
                     (VStr "BD_FoodSecurity_Scenario_PolicyChangeSafetyNet") BASE_CONFIG)))) /\
  forall (a b : string) (ca : Store.Cell) (path : list string) (c : Store.Cell)
         (h' : Store.Heap),
    In a Store.scenario_names -> In b Store.scenario_names -> a <> b ->
    Store.getitem Store.heap Store.SCENARIOS a = Some ca ->
    Store.store_path Store.heap ca path c = Some h' ->
    Store.scenario_config h' b = Store.scenario_config Store.heap b /\
    forall W, run_scenario_in W h' b = run_scenario_in W Store.heap b.
Proof.
  split.
  - repeat split; vm_compute; reflexivity.
  - intros a b ca path c h' Ha Hb Hne Hget Hstore.
    assert (Hcfg : Store.scenario_config h' b = Store.scenario_config Store.heap b).
    { simpl in Ha, Hb.
      destruct Ha as [<- | [<- | [<- | [<- | []]]]];
        destruct Hb as [<- | [<- | [<- | [<- | []]]]];
        try (exfalso; apply Hne; reflexivity);
        vm_compute in Hget; inversion Hget; subst ca;
        match type of Hstore with
        | Store.store_path _ (Store.Ref ?la) _ _ = _ =>
            match goal with
            | |- Store.scenario_config _ ?b = _ =>
                let cb := eval vm_compute in (Store.getitem Store.heap Store.SCENARIOS b) in
                match cb with
                | Some (Store.Ref ?lb) =>
                    apply (StoreFacts.isolation_at b la lb path c h');
                    [ vm_compute; reflexivity | vm_compute; reflexivity
                    | vm_compute; reflexivity | vm_compute; reflexivity
                    | vm_compute; reflexivity | vm_compute; reflexivity
                    | vm_compute; reflexivity | exact Hstore ]
                end
            end
        end. }
    split; [exact Hcfg |].
    intros W. unfold run_scenario_in. rewrite Hcfg. reflexivity.
Qed.

Lemma scenarios_are_isolated_deep_copies_witness :
  match Store.store_path Store.heap (Store.Ref 33)
          ["parameters"; "climate_resilience"; "temp_anomaly_trend"]
          (Store.Lit (dec 9 10)) with
  | Some h' =>
      Store.scenario_config h' "high_climate_impact"
        <> Store.scenario_config Store.heap "high_climate_impact" /\
      Store.scenario_config h' "baseline" = Store.scenario_config Store.heap "baseline"
  | None => False
  end.
Proof.
  destruct (Store.store_path Store.heap (Store.Ref 33)
              ["parameters"; "climate_resilience"; "temp_anomaly_trend"]
              (Store.Lit (dec 9 10))) as [h' |] eqn:Hstore;
    [| vm_compute in Hstore; discriminate].
  split.
  - vm_compute in Hstore. inversion Hstore; subst h'. vm_compute. discriminate.
  - apply (proj2 scenarios_are_isolated_deep_copies
             "high_climate_impact" "baseline" (Store.Ref 33)
             ["parameters"; "climate_resilience"; "temp_anomaly_trend"]
             (Store.Lit (dec 9 10)) h').
    + simpl. auto.
    + simpl. auto.
    + discriminate.
    + vm_compute. reflexivity.
    + exact Hstore.
Defined.

(** * Further properties *)

(** ** Loops *)

Lemma for_items_invariant {S} (P : S -> Prop) (items : list (string * Value))
    (body : string -> Value -> S -> Exc S) :
  (forall k v s0 s1, In (k, v) items -> P s0 -> body k v s0 = inr s1 -> P s1) ->
  forall s s', for_items items body s = inr s' -> P s -> P s'.
Proof.
  induction items as [| [k v] rest IH]; intros Hbody s s' H Hs; simpl in H.
  - inversion H; subst. exact Hs.
  - peel H. apply (IH (fun k0 v0 s0 s1 Hin => Hbody k0 v0 s0 s1 (or_intror Hin)) a s' H).
    apply (Hbody k v s a (or_introl eq_refl) Hs Ha).
Qed.

Lemma for_each_invariant {X S} (P : S -> Prop) (xs : list X) (body : X -> S -> Exc S) :
  (forall x s0 s1, In x xs -> P s0 -> body x s0 = inr s1 -> P s1) ->
  forall s s', for_each xs body s = inr s' -> P s -> P s'.
Proof.
  induction xs as [| x rest IH]; intros Hbody s s' H Hs; simpl in H.
  - inversion H; subst. exact Hs.
  - peel H. apply (IH (fun x0 s0 s1 Hin => Hbody x0 s0 s1 (or_intror Hin)) a s' H).
    apply (Hbody x s a (or_introl eq_refl) Hs Ha).
Qed.

(** ** Market dynamics: trade flows *)

Lemma trade_flows_empty (self : Market.Model) (year : Z) (dp wp tp v : Value) :
  Market._simulate_trade_flows self year dp wp tp = inr v ->
  v = Market.flows_dict [] [].
Proof.
  unfold Market._simulate_trade_flows. intros H. peel H. inversion H; subst; clear H.
  assert (Ha' : a = ([], [])).
  { refine (for_each_invariant (fun s => s = ([], [])) _ _ _ _ _ Ha eq_refl).
    intros c s0 s1 _ -> H. peel H.
    match type of H with (if ?b then _ else _) = _ => destruct b end; peel H.
    - match goal with
      | Hl : Market.load_name _ _ = inr _ |- _ =>
          unfold Market.load_name in Hl; simpl in Hl; discriminate
      end.
    - match type of H with (if ?b then _ else _) = _ => destruct b end; peel H.
      + match goal with
        | Hl : Market.load_name _ _ = inr _ |- _ =>
            unfold Market.load_name in Hl; simpl in Hl; discriminate
        end.
      + inversion H. reflexivity. }
  subst a. reflexivity.
Qed.

(** X1.  Whenever [simulate_market_dynamics] returns, the [trade_flows] of
    the market state it returns are empty: no import and no export is ever
    reported, because the only two places that would record one read an
    unbound name. *)
Theorem market_state_never_reports_trade (self : Market.Model) (year : Z)
    (production_data socioeconomic_state policy_effects market_state : Value) :
  Market.simulate_market_dynamics self year production_data socioeconomic_state
    policy_effects = inr market_state ->
  stored ["trade_flows"] market_state
    = Some (VDict [("imports", empty_dict); ("exports", empty_dict)]).
Proof.
  unfold Market.simulate_market_dynamics. intros H. peel H. inversion H; subst; clear H.
  match goal with
  | Ht : Market._simulate_trade_flows _ _ _ _ _ = inr _ |- _ =>
      apply trade_flows_empty in Ht; subst
  end.
  reflexivity.
Qed.

Lemma market_state_never_reports_trade_witness :
  exists market_state,
    Market.simulate_market_dynamics quiet_market_model 2025 empty_dict empty_dict empty_dict
      = inr market_state /\
    stored ["trade_flows"] market_state
      = Some (VDict [("imports", empty_dict); ("exports", empty_dict)]).
Proof.
  destruct (Market.simulate_market_dynamics quiet_market_model 2025
              empty_dict empty_dict empty_dict) as [e | ms] eqn:H;
    [vm_compute in H; discriminate |].
  exists ms. split; [reflexivity |].
  exact (market_state_never_reports_trade quiet_market_model 2025 _ _ _ ms H).
Defined.

(** ** Policy interventions *)

(** X2.  A policy model that has only been constructed (no call to
    [load_policy_scenarios], as in every scenario run) returns the same
    neutral effects for every configuration, year, scenario name and system
    state that is a dict: all eight modifiers equal 1. *)
Theorem policy_effects_are_neutral (config : Value) (self : Policy.Model) (year : Z)
    (scenario : string) (state : Value) :
  Policy.init config = inr self ->
  is_dict state = true ->
  exists a b c d e f g h,
    Policy.simulate_policy_impacts self year scenario state
      = inr (policy_output year scenario a b c d e f g h) /\
    a == 1 /\ b == 1 /\ c == 1 /\ d == 1 /\ e == 1 /\ f == 1 /\ g == 1 /\ h == 1.
Proof.
  unfold Policy.init. intros Hinit Hd. peel Hinit. inversion Hinit; subst; clear Hinit.
  destruct state; try discriminate.
  do 8 eexists. split; [reflexivity |].
  repeat split; reflexivity.
Qed.

Lemma policy_effects_are_neutral_witness :
  exists self a b c d e f g h,
    Policy.init (VDict [("policy_scenario_active", VStr "enhanced_safety_nets");
                        ("safety_net_coverage", dec 4 10)]) = inr self /\
    Policy.simulate_policy_impacts self 2030 "policy_change_safety_net" empty_dict
      = inr (policy_output 2030 "policy_change_safety_net" a b c d e f g h) /\
    d == 1.
Proof.
  eexists.
  destruct (policy_effects_are_neutral
              (VDict [("policy_scenario_active", VStr "enhanced_safety_nets");
                      ("safety_net_coverage", dec 4 10)])
              _ 2030 "policy_change_safety_net" empty_dict eq_refl eq_refl)
    as (a & b & c & d & e & f & g & h & H & _ & _ & _ & Hd & _).
  exists a, b, c, d, e, f, g, h. split; [reflexivity |]. split; [exact H | exact Hd].
Defined.

(** ** Nutritional outcomes *)

(** X3.  When the food availability handed to
    [simulate_nutritional_outcomes] is truthy and has no [items()], that is
    a number other than zero (NaN included), a non-empty string or a
    non-empty list, the consumption step fails on [items()], the handler
    takes over, and the function returns the fixed default consumption,
    intake and status for the year asked for, whatever the model and the
    other inputs are.  (Zero, the empty string and the empty list are falsy:
    for them the default availability is substituted and the outcomes are
    computed.) *)
Theorem outcomes_fall_back_to_defaults (self : Nutrition.Model) (year : Z)
    (food_availability market_prices socioeconomic_state health_state : Value) :
  has_no_items food_availability = true ->
  truthy food_availability = true ->
  Nutrition.simulate_nutritional_outcomes self year food_availability market_prices
    socioeconomic_state health_state
    = inr (Nutrition.outcomes_dict year Nutrition.default_consumption
             Nutrition.default_nutrient_intake Nutrition.default_status).
Proof.
  intros Hn Ht. unfold Nutrition.simulate_nutritional_outcomes.
  assert (Hfa : match food_availability with VNone => empty_dict | v => v end
                = food_availability)
    by (destruct food_availability; try reflexivity; discriminate).
  rewrite Hfa. rewrite Ht. unfold try_except.
  destruct (py_get socioeconomic_state "income_distribution" empty_dict) as [e | il];
    [reflexivity |].
  cbn [bind]. unfold Nutrition._estimate_food_consumption.
  destruct food_availability; try discriminate; reflexivity.
Qed.

Lemma outcomes_fall_back_to_defaults_witness :
  Nutrition.simulate_nutritional_outcomes unloaded_nutrition_model 2025
    (VList [num 150; num 20]) empty_dict empty_dict empty_dict
    = inr (Nutrition.outcomes_dict 2025 Nutrition.default_consumption
             Nutrition.default_nutrient_intake Nutrition.default_status).
Proof.
  apply (outcomes_fall_back_to_defaults unloaded_nutrition_model 2025
           (VList [num 150; num 20]) empty_dict empty_dict empty_dict); reflexivity.
Defined.

Lemma setitem_present_keys {A} (k : string) (v v' : A) (l : list (string * A)) :
  assoc k l = Some v -> map fst (setitem k v' l) = map fst l.
Proof.
  induction l as [| [k0 v0] l IH]; simpl; [discriminate |].
  destruct (String.eqb k k0) eqn:E; simpl; [reflexivity |].
  intros H. rewrite (IH H). reflexivity.
Qed.

(** X4.  Whatever is consumed, the intake [_calculate_nutrient_intake]
    returns has exactly the six tracked nutrients, in the order of
    [total_intake]: a nutrient of the composition table that is not tracked
    (omega-3) adds no entry, and a food that is not in the table adds
    nothing. *)
Theorem nutrient_intake_has_the_tracked_nutrients (self : Nutrition.Model) (year : Z)
    (food_consumption intake : Value) :
  Nutrition._calculate_nutrient_intake self year food_consumption = inr intake ->
  exists totals, intake = VDict totals /\ map fst totals = tracked_nutrients.
Proof.
  unfold Nutrition._calculate_nutrient_intake. intros H. peel H.
  inversion H; subst; clear H. eexists. split; [reflexivity |].
  match goal with
  | Hl : for_items _ _ Nutrition.initial_total_intake = inr _ |- _ =>
      refine (for_items_invariant (fun t => map fst t = tracked_nutrients)
                _ _ _ _ _ Hl eq_refl)
  end.
  intros food qty t0 t1 _ Ht0 Hb.
  destruct (py_in food (Nutrition.food_composition self)); [| inversion Hb; subst; exact Ht0].
  peel Hb.
  refine (for_items_invariant (fun t => map fst t = tracked_nutrients) _ _ _ _ _ Hb Ht0).
  intros nutrient value t2 t3 _ Ht2 Hi.
  destruct (assoc nutrient t2) as [cur |] eqn:Hcur; [| inversion Hi; subst; exact Ht2].
  peel Hi. inversion Hi; subst.
  rewrite (setitem_present_keys _ _ _ _ Hcur). exact Ht2.
Qed.

Lemma nutrient_intake_has_the_tracked_nutrients_witness :
  exists intake totals,
    Nutrition._calculate_nutrient_intake unloaded_nutrition_model 2025
      (VDict [("fish", num 25); ("jackfruit", num 3)]) = inr intake /\
    intake = VDict totals /\ map fst totals = tracked_nutrients.
Proof.
  destruct (Nutrition._calculate_nutrient_intake unloaded_nutrition_model 2025
              (VDict [("fish", num 25); ("jackfruit", num 3)])) as [e | intake] eqn:H;
    [vm_compute in H; discriminate |].
  destruct (nutrient_intake_has_the_tracked_nutrients _ _ _ _ H) as (totals & H1 & H2).
  exists intake, totals. auto.
Defined.


(** X5.  A model whose history was never loaded, with no health-access
    parameters, applies the year-over-year formula to the fixed baselines:
    for an intake with finite energy, protein and iron the stunting,
    wasting and anaemia rates are 0.28, 0.07 and 0.37 plus the change for
    (in)adequate intake times the modifier 0.95. *)
Theorem status_without_history (dp sp mp fc : Value) (year : Z)
    (intake : list (string * Value)) (hf sf : Value) (energy protein iron : Q) :
  assoc "energy_kcal" intake = Some (VNum energy) ->
  assoc "protein_g" intake = Some (VNum protein) ->
  assoc "iron_mg" intake = Some (VNum iron) ->
  exists s w u a,
    Nutrition._estimate_nutritional_status
      (Nutrition.mkModel dp sp mp empty_dict empty_dict fc) year (VDict intake) hf sf
      = inr (Nutrition.status_dict (VNum s) (VNum w) (VNum u) (VNum a)) /\
    s == (28 # 100) + (if Qlt_bool 2100 energy && Qlt_bool 50 protein
                       then - (5 # 1000) else 2 # 1000) * (95 # 100) /\
    w == (7 # 100) + (if Qlt_bool 2100 energy then - (3 # 1000) else 1 # 1000) * (95 # 100) /\
    a == (37 # 100) + (if Qlt_bool 10 iron then - (1 # 100) else 5 # 1000) * (95 # 100) /\
    u == (s + w) / 2.
Proof.
  intros He Hp Hi.
  unfold Nutrition._estimate_nutritional_status, Nutrition.estimate_body,
    Nutrition.previous_rate, Nutrition.health_access_modifier.
  simpl. rewrite He, Hp, Hi. simpl.
  destruct (Qlt_bool 2100 energy), (Qlt_bool 50 protein), (Qlt_bool 10 iron);
    simpl; do 4 eexists; (split; [reflexivity |]); repeat split; reflexivity.
Qed.

Lemma status_without_history_witness :
  exists s w u a,
    Nutrition._estimate_nutritional_status unloaded_nutrition_model 2025
      Nutrition.default_nutrient_intake empty_dict empty_dict
      = inr (Nutrition.status_dict (VNum s) (VNum w) (VNum u) (VNum a)) /\
    s == 27525 # 100000.
Proof.
  destruct (status_without_history empty_dict empty_dict empty_dict
              Nutrition._load_food_composition_data 2025
              [("energy_kcal", num 2200); ("protein_g", num 55); ("iron_mg", num 12);
               ("zinc_mg", num 8); ("vitA_mcg", num 600); ("calcium_mg", num 700)]
              empty_dict empty_dict 2200 55 12 eq_refl eq_refl eq_refl)
    as (s & w & u & a & H & Hs & _).
  exists s, w, u, a. split; [exact H |]. rewrite Hs. reflexivity.
Defined.

(** ** Socioeconomic dynamics *)

(** X6.  In every state [simulate_socioeconomic_factors] returns, for every
    model and every input, the poverty headcount ratio is a number that is
    not below the floor 0.1: [max(0.1, ...)] keeps the floor also when the
    GDP per capita is NaN or not a number at all. *)
Theorem poverty_ratio_never_below_floor (self : Socio.Model) (year : Z)
    (current_state governance climate state : Value) :
  Socio.simulate_socioeconomic_factors self year current_state governance climate
    = inr state ->
  exists poverty,
    stored ["income_distribution"; "poverty_headcount_ratio"] state = Some (VNum poverty) /\
    1 # 10 <= poverty.
Proof.
  unfold Socio.simulate_socioeconomic_factors. intros H. peel H.
  inversion H; subst; clear H. simpl.
  match goal with
  | Hx : Socio._simulate_income_distribution _ _ _ _ = inr _ |- _ =>
      unfold Socio._simulate_income_distribution in Hx; peel Hx;
      inversion Hx; subst; clear Hx
  end.
  simpl.
  match goal with
  | Hm : py_max (dec 1 10) ?c = inr ?p |- _ =>
      unfold py_max, py_gt, py_lt, dec in Hm; simpl as_float in Hm;
      destruct (as_float c) as [[q |] |] eqn:Hc; simpl in Hm; inversion Hm; subst; clear Hm
  end.
  - unfold Qlt_bool. destruct (Qle_bool q (1 # 10)) eqn:Hq; simpl.
    + eexists. split; [reflexivity | apply Qle_refl].
    + match goal with
      | Hs : py_sub _ _ = inr ?c |- _ =>
          apply arith_number in Hs; destruct Hs as [[q' ->] | ->]; simpl in Hc;
          inversion Hc; subst
      end.
      eexists. split; [reflexivity |].
      destruct (Qlt_le_dec (1 # 10) q) as [Hlt | Hle]; [apply Qlt_le_weak; exact Hlt |].
      apply Qle_bool_iff in Hle. congruence.
  - eexists. split; [reflexivity | apply Qle_refl].
Qed.

Lemma poverty_ratio_never_below_floor_witness :
  exists state poverty,
    Socio.simulate_socioeconomic_factors default_socio_model 2025 example_carried_state
      empty_dict (VDict [("agri_labor_shift", dec 1 100)]) = inr state /\
    stored ["income_distribution"; "poverty_headcount_ratio"] state = Some (VNum poverty) /\
    1 # 10 <= poverty.
Proof.
  destruct (Socio.simulate_socioeconomic_factors default_socio_model 2025
              example_carried_state empty_dict (VDict [("agri_labor_shift", dec 1 100)]))
    as [e | state] eqn:H; [vm_compute in H; discriminate |].
  destruct (poverty_ratio_never_below_floor _ _ _ _ _ _ H) as (poverty & Hp & Hle).
  exists state, poverty. auto.
Defined.

(** ** Growth along a run *)

Lemma Qpow_step (b p : Q) (n : nat) : p * b * Qpow b n == p * Qpow b (S n).
Proof. simpl. ring. Qed.

Lemma as_float_is_number (v : Value) (q : option Q) :
  as_float v = Some q -> is_number v = true.
Proof. destruct v; simpl; intros H; try discriminate; reflexivity. Qed.

(** One year of the socioeconomic model multiplies the carried population
    and GDP per capita by one plus the model's rates. *)
Lemma socio_growth_step (self : Socio.Model) (g gy p y : Q) (year : Z)
    (st gov c st' : Value) :
  rate_is (Socio.population_params self) "annual_growth_rate" (dec 1 100) g ->
  rate_is (Socio.economic_params self) "gdp_growth_rate" (dec 6 100) gy ->
  holds_number ["population"; "total_population"] st p ->
  holds_number ["economy"; "gdp_per_capita"] st y ->
  Socio.simulate_socioeconomic_factors self year st gov c = inr st' ->
  stored ["population"; "total_population"] st' = Some (VNum (p * (1 + g))) /\
  stored ["economy"; "gdp_per_capita"] st' = Some (VNum (y * (1 + gy))).
Proof.
  intros (rv & Hg & Hgf) (rw & Hgy & Hgyf) (pv & Hp & Hpf) (yv & Hy & Hyf) H.
  simpl in Hp, Hy. destruct st; try discriminate.
  destruct (assoc "population" d) as [pd |] eqn:Hpd; [| discriminate].
  destruct pd; try discriminate.
  destruct (assoc "total_population" d0) as [v |] eqn:Hv; [| discriminate].
  inversion Hp; subst v; clear Hp.
  destruct (assoc "economy" d) as [ed |] eqn:Hed; [| discriminate].
  destruct ed; try discriminate.
  destruct (assoc "gdp_per_capita" d1) as [v |] eqn:Hw; [| discriminate].
  inversion Hy; subst v; clear Hy.
  unfold Socio.simulate_socioeconomic_factors in H.
  change (Socio.as_dict (VDict d)) with (VDict d) in H.
  unfold py_get_with in H.
  destruct (py_get (Socio.historical_socioeconomic_data self) "population" empty_dict)
    as [e | h1] eqn:Hh1; [discriminate |].
  cbn [bind] in H.
  assert (Hpop : py_get (VDict d) "population" h1 = inr (VDict d0))
    by (simpl; rewrite Hpd; reflexivity).
  rewrite Hpop in H. cbn [bind] in H.
  destruct (py_get (Socio.historical_socioeconomic_data self) "gdp_per_capita" empty_dict)
    as [e | h2] eqn:Hh2; [discriminate |].
  cbn [bind] in H.
  assert (Hec : py_get (VDict d) "economy" h2 = inr (VDict d1))
    by (simpl; rewrite Hed; reflexivity).
  rewrite Hec in H. cbn [bind] in H.
  assert (Hps : Socio._simulate_population_dynamics self year (VDict d0) =
                inr (VDict [("total_population", VNum (p * (1 + g)));
                            ("urban_population", VNum (p * (1 + g) * (4 # 10)));
                            ("rural_population", VNum (p * (1 + g) * (6 # 10)));
                            ("age_distribution",
                              VDict [("0-14", dec 28 100); ("15-64", dec 67 100);
                                     ("65+", dec 5 100)])])).
  { unfold Socio._simulate_population_dynamics, Socio.growth_rate. rewrite Hg.
    cbn [bind]. unfold Socio.guarded_number. rewrite Hv.
    rewrite (as_float_is_number _ _ Hpf).
    unfold py_add, py_mul, arith, num. cbn [as_float]. rewrite Hgf. cbn [bind ret].
    rewrite Hpf. cbn [bind ret as_float dec]. reflexivity. }
  rewrite Hps in H. cbn [bind] in H.
  assert (Hes : exists infl, Socio._simulate_economic_growth self year (VDict d1) =
                inr (VDict [("gdp_per_capita", VNum (y * (1 + gy)));
                            ("sectoral_contribution",
                              VDict [("agriculture", dec 12 100); ("industry", dec 35 100);
                                     ("services", dec 53 100)]);
                            ("inflation_rate", infl)])).
  { unfold Socio._simulate_economic_growth in *. rewrite Hgy in *.
    cbn [bind] in *. unfold Socio.guarded_number in *. rewrite Hw in *.
    rewrite (as_float_is_number _ _ Hyf) in *.
    unfold py_add, py_mul, arith, num in *. cbn [as_float] in *. rewrite Hgyf in *.
    cbn [bind ret] in *. rewrite Hyf in *. cbn [bind ret] in *.
    destruct (py_get (Socio.economic_params self) "inflation_rate" (dec 55 1000))
      as [e | infl]; [discriminate |]. exists infl. reflexivity. }
  destruct Hes as (infl & Hes). rewrite Hes in H. cbn [bind] in H.
  peel H. inversion H; subst; clear H. split; reflexivity.
Qed.

Lemma simulate_year_gdp (W : Collaborators) (m : Models W) sc y st h outs
    yearly_data st' :
  simulate_year W m sc y st h outs = inr (yearly_data, st') ->
  stored gdp_path yearly_data = stored ["economy"; "gdp_per_capita"] st'.
Proof.
  unfold simulate_year. intros H. peel H. cbv zeta in H. inversion H; subst; clear H.
  reflexivity.
Qed.

Lemma holds_number_VNum (path : list string) (st : Value) (q : Q) :
  stored path st = Some (VNum q) -> holds_number path st q.
Proof. intros H. exists (VNum q). split; [exact H | reflexivity]. Qed.

(** Along successful iterations the population and the GDP per capita of
    each new record are the carried values grown once more. *)
Lemma steps_ok_growth (W : Collaborators) (m : Models W) (sc : string) (h : Value)
    (g gy : Q) :
  rate_is (Socio.population_params (socio_model W m)) "annual_growth_rate" (dec 1 100) g ->
  rate_is (Socio.economic_params (socio_model W m)) "gdp_growth_rate" (dec 6 100) gy ->
  forall years st outs st' outs',
    steps_ok W m sc h years st outs st' outs' ->
    forall p y,
    holds_number ["population"; "total_population"] st p ->
    holds_number ["economy"; "gdp_per_capita"] st y ->
    exists new,
      outs' = (outs ++ new)%list /\
      List.length new = List.length years /\
      forall i, (i < List.length new)%nat ->
        exists q z,
          stored population_path (nth i new VNone) = Some (VNum q) /\
          q == p * Qpow (1 + g) (S i) /\
          stored gdp_path (nth i new VNone) = Some (VNum z) /\
          z == y * Qpow (1 + gy) (S i).
Proof.
  intros Hg Hgy years st outs st' outs' Hs.
  induction Hs as [| yr ys st outs yd st1 st' outs' Hy Hs IH]; intros p y Hp Hgdp.
  - exists []. rewrite app_nil_r. repeat split. intros i Hi. simpl in Hi. lia.
  - pose proof (simulate_year_population _ _ _ _ _ _ _ _ _ Hy) as [(gv & cv & Hsoc) Hpop].
    pose proof (simulate_year_gdp _ _ _ _ _ _ _ _ _ Hy) as Hgd.
    destruct (socio_growth_step _ _ _ _ _ _ _ _ _ _ Hg Hgy Hp Hgdp Hsoc) as [Hp1 Hy1].
    destruct (IH _ _ (holds_number_VNum _ _ _ Hp1) (holds_number_VNum _ _ _ Hy1))
      as (new & -> & Hlen & Hnth).
    exists (yd :: new). rewrite <- app_assoc. cbn [app List.length].
    split; [reflexivity |]. split; [lia |].
    intros [| i] Hi.
    + exists (p * (1 + g)), (y * (1 + gy)). cbn [nth].
      rewrite Hpop, Hgd. repeat split; try assumption; simpl Qpow; ring.
    + destruct (Hnth i ltac:(simpl in Hi; lia)) as (q & z & H1 & H2 & H3 & H4).
      exists q, z. cbn [nth]. repeat split; try assumption.
      * rewrite H2. apply Qpow_step.
      * rewrite H4. apply Qpow_step.
Qed.

(** X7.  In every completed run whose carried state starts with a finite
    population [p] and GDP per capita [y] and whose socioeconomic model has
    finite growth rates [g] and [gy]: the record of the [i]-th simulated year
    holds the population [p * (1 + g)^(i+1)] and the GDP per capita
    [y * (1 + gy)^(i+1)], whatever the other models return. *)
Theorem population_and_gdp_grow_geometrically (W : Collaborators) (m : Models W)
    (sc : string) (first last : Z) (st h : Value) (log : list Event)
    (yearly_outputs : list Value) (p y g gy : Q) :
  rate_is (Socio.population_params (socio_model W m)) "annual_growth_rate" (dec 1 100) g ->
  rate_is (Socio.economic_params (socio_model W m)) "gdp_growth_rate" (dec 6 100) gy ->
  holds_number ["population"; "total_population"] st p ->
  holds_number ["economy"; "gdp_per_capita"] st y ->
  run_years W m sc first last st h = (log, Some yearly_outputs) ->
  forall i, (i < List.length yearly_outputs)%nat ->
    exists q z,
      stored population_path (nth i yearly_outputs VNone) = Some (VNum q) /\
      q == p * Qpow (1 + g) (S i) /\
      stored gdp_path (nth i yearly_outputs VNone) = Some (VNum z) /\
      z == y * Qpow (1 + gy) (S i).
Proof.
  intros Hg Hgy Hp Hy Hrun.
  unfold run_years in Hrun. apply year_loop_success in Hrun.
  destruct Hrun as (_ & new & st' & Heq & Hs & _).
  destruct (steps_ok_growth W m sc h g gy Hg Hgy _ _ _ _ _ Hs p y Hp Hy)
    as (new' & Heq' & _ & Hnth).
  simpl in Heq'. subst yearly_outputs. subst new'. exact Hnth.
Qed.

Lemma population_and_gdp_grow_geometrically_witness :
  match prepare (standin_world None) "baseline" three_year_config with
  | Ready _ m first last _ st h =>
      match run_years (standin_world None) m "baseline" first last st h with
      | (_, Some yearly_outputs) =>
          exists q z,
            stored population_path (nth 2 yearly_outputs VNone) = Some (VNum q) /\
            q == 170000000 * Qpow (1 + (1 # 100)) 3 /\
            stored gdp_path (nth 2 yearly_outputs VNone) = Some (VNum z) /\
            z == 2600 * Qpow (1 + (6 # 100)) 3
      | _ => False
      end
  | Ended _ _ _ => False
  end.
Proof.
  destruct (prepare (standin_world None) "baseline" three_year_config)
    as [l o | m first last ps st h] eqn:Hprep; [vm_compute in Hprep; discriminate |].
  destruct (run_years (standin_world None) m "baseline" first last st h)
    as [log [ys |]] eqn:Hrun.
  - assert (Hlen : (2 < List.length ys)%nat).
    { vm_compute in Hprep. inversion Hprep; subst. vm_compute in Hrun.
      inversion Hrun; subst. simpl. lia. }
    refine (population_and_gdp_grow_geometrically (standin_world None) m "baseline"
              first last st h log ys 170000000 2600 (1 # 100) (6 # 100) _ _ _ _ Hrun 2%nat Hlen);
      vm_compute in Hprep; inversion Hprep; subst;
      eexists; (split; [reflexivity | reflexivity]).
  - vm_compute in Hprep. inversion Hprep; subst. vm_compute in Hrun. discriminate.
Defined.

Lemma py_get_absent (c : Value) (k : string) (default v : Value) :
  is_dict c = true -> py_in k c = false -> py_get c k default = inr v -> v = default.
Proof.
  destruct c; simpl; intros Hd Hin H; try discriminate.
  destruct (assoc k _); [discriminate | inversion H; reflexivity].
Qed.

(** X8.  A model built from a configuration section that has no
    [population_params] and no [economic_params] entry grows the population
    by 1% and the GDP per capita by 6% a year, whatever else the section
    holds: the keys [population_growth_rate] and [gdp_growth_rate] that the
    scenario configurations set are never read. *)
Theorem configured_growth_rates_are_not_read (config : Value) (self : Socio.Model)
    (year : Z) (st gov c st' : Value) (p y : Q) :
  Socio.init config = inr self ->
  is_dict config = true ->
  py_in "population_params" config = false ->
  py_in "economic_params" config = false ->
  holds_number ["population"; "total_population"] st p ->
  holds_number ["economy"; "gdp_per_capita"] st y ->
  Socio.simulate_socioeconomic_factors self year st gov c = inr st' ->
  stored ["population"; "total_population"] st' = Some (VNum (p * (1 + (1 # 100)))) /\
  stored ["economy"; "gdp_per_capita"] st' = Some (VNum (y * (1 + (6 # 100)))).
Proof.
  intros Hinit Hd Hpp Hep Hp Hy H.
  unfold Socio.init in Hinit. peel Hinit. inversion Hinit; subst; clear Hinit.
  repeat match goal with
  | Hg : py_get config "population_params" _ = inr _ |- _ =>
      apply (py_get_absent _ _ _ _ Hd Hpp) in Hg; subst
  | Hg : py_get config "economic_params" _ = inr _ |- _ =>
      apply (py_get_absent _ _ _ _ Hd Hep) in Hg; subst
  end.
  apply (socio_growth_step _ (1 # 100) (6 # 100) p y _ _ _ _ _) in H; try assumption.
  - exists (dec 1 100). split; reflexivity.
  - exists (dec 6 100). split; reflexivity.
Qed.

Lemma configured_growth_rates_are_not_read_witness :
  exists self st',
    Socio.init configured_socio_section = inr self /\
    Socio.simulate_socioeconomic_factors self 2025 example_carried_state
      empty_dict empty_dict = inr st' /\
    stored ["population"; "total_population"] st' =
      Some (VNum (170000000 * (1 + (1 # 100)))) /\
    stored ["economy"; "gdp_per_capita"] st' = Some (VNum (2600 * (1 + (6 # 100)))).
Proof.
  destruct (Socio.init configured_socio_section) as [e | self] eqn:Hinit;
    [vm_compute in Hinit; discriminate |].
  destruct (Socio.simulate_socioeconomic_factors self 2025 example_carried_state
              empty_dict empty_dict) as [e | st'] eqn:H.
  - vm_compute in Hinit. inversion Hinit; subst. vm_compute in H. discriminate.
  - exists self, st'. split; [reflexivity |]. split; [exact H |].
    apply (configured_growth_rates_are_not_read configured_socio_section self 2025
             example_carried_state empty_dict empty_dict st' 170000000 2600 Hinit);
      try reflexivity; try exact H.
    + exists (num 170000000). split; reflexivity.
    + exists (VInt 2600). split; reflexivity.
Defined.

(** ** The annual summary *)

Lemma prepare_ready_inv (W : Collaborators) (sc : string) (config : Value)
    (m : Models W) (first last : Z) (ps st h : Value) :
  prepare W sc config = Ready W m first last ps st h ->
  py_getitem config "start_year" = inr (VInt first) /\
  py_getitem config "end_year" = inr (VInt last).
Proof.
  unfold prepare. intros H.
  destruct (py_getitem config "start_year") as [e | sy]; [discriminate |].
  destruct (py_getitem config "end_year") as [e | ey]; [discriminate |].
  cbn [bind] in H.
  destruct (py_getitem config "parameters") as [e | pa]; [discriminate |].
  destruct (py_getitem config "initial_state") as [e | ini]; [discriminate |].
  cbn [bind ret] in H.
  destruct (init_models W pa) as [e | m0]; [discriminate |].
  destruct (negb (makedirs_ok W sc)); [discriminate |].
  destruct (py_get ini "population" (num 170000000)) as [e | pop]; [discriminate |].
  destruct (py_get ini "gdp_per_capita" (VInt 2600)) as [e | gdp]; [discriminate |].
  cbn [bind] in H.
  destruct (py_add ey (VInt 1)) as [e | stop]; [discriminate |].
  cbn [bind] in H.
  destruct sy; try discriminate. destruct ey; try discriminate.
  cbn in H. inversion H; subst. split; reflexivity.
Qed.

Lemma Forall2_years_column (years : list Z) (ys col : list Value) :
  Forall2 (fun y r => year_of r = inr (VInt y)) years ys ->
  Forall2 (fun res x => year_of res = inr x) ys col ->
  col = map VInt years.
Proof.
  intros H. revert col. induction H as [| y r years ys Hy H IH]; intros col Hc.
  - inversion Hc. reflexivity.
  - inversion Hc as [| ? x ? col' Hx Hc']; subst. simpl.
    rewrite Hy in Hx. inversion Hx; subst. f_equal. apply IH. exact Hc'.
Qed.

(** X9.  The annual summary of every run that returns results has one row
    per simulated year: the configured start year does not exceed the end
    year, the [year] column lists the years from start to end in order, the
    table has the [year] column followed by the eight indicator columns, and
    every column has one entry per year. *)
Theorem annual_summary_has_one_row_per_year (W : Collaborators) (sc : string)
    (config : Value) (log : list Event) (r : ScenarioResult) (t : Table) :
  run_simulation_scenario W sc config = (log, inr (Returned r)) ->
  dataframes r = Some t ->
  exists first last : Z,
    py_getitem config "start_year" = inr (VInt first) /\
    py_getitem config "end_year" = inr (VInt last) /\
    (first <= last)%Z /\
    column "year" t = map VInt (py_range first (last + 1)) /\
    map fst t = "year" :: map fst indicators /\
    Forall (fun c => Z.of_nat (List.length (snd c)) = (last - first + 1)%Z) t.
Proof.
  intros Hrun Ht.
  apply run_returned_inv in Hrun.
  destruct Hrun as (m & first & last & ps & st & h & loop_log & ys
                    & Hprep & Hyears & Hne & _ & Hagg).
  specialize (Hagg t Ht).
  apply prepare_ready_inv in Hprep. destruct Hprep as [Hs He].
  exists first, last. split; [exact Hs |]. split; [exact He |].
  unfold run_years in Hyears. apply year_loop_success in Hyears.
  destruct Hyears as (_ & new & st' & Heq & _ & Hf). simpl in Heq. subst new.
  assert (Hlen : List.length ys = Z.to_nat (last + 1 - first)).
  { rewrite <- py_range_length. symmetry. eapply Forall2_length. exact Hf. }
  assert (Hle : (first <= last)%Z).
  { destruct ys as [| y0 ys]; [congruence |]. simpl in Hlen. lia. }
  split; [exact Hle |].
  pose proof (aggregate_rectangular _ _ Hagg) as Hrect.
  pose proof (aggregate_column_names _ _ Hagg) as Hnames.
  apply aggregate_columns in Hagg. destruct Hagg as (_ & Hyear & _).
  split; [exact (Forall2_years_column _ _ _ Hf Hyear) |].
  split; [exact Hnames |].
  eapply Forall_impl; [| exact Hrect].
  intros c Hc. simpl in Hc. rewrite Hc, Hlen. lia.
Qed.

Lemma annual_summary_has_one_row_per_year_witness :
  match run_simulation_scenario (standin_world None) "baseline" three_year_config with
  | (_, inr (Returned r)) =>
      match dataframes r with
      | Some t => column "year" t = map VInt (py_range 2025 (2027 + 1))
      | None => False
      end
  | _ => False
  end.
Proof.
  destruct (run_simulation_scenario (standin_world None) "baseline" three_year_config)
    as [log [e | [| | r]]] eqn:Hrun; try (vm_compute in Hrun; discriminate).
  destruct (dataframes r) as [t |] eqn:Ht.
  - destruct (annual_summary_has_one_row_per_year
                (standin_world None) "baseline" three_year_config log r t Hrun Ht)
      as (first & last & Hs & He & _ & Hy & _).
    vm_compute in Hs. vm_compute in He.
    inversion Hs; inversion He; subst. exact Hy.
  - vm_compute in Hrun. inversion Hrun; subst. discriminate.
Defined.

(** ** Key metrics and plots *)

Lemma sum_count_missing (xs : list Value) :
  forall acc sc,
    sum_count xs acc = inr sc ->
    (snd sc = O <-> snd acc = O /\ forallb is_missing xs = true).
Proof.
  induction xs as [| x xs IH]; intros acc sc H; simpl in H.
  - inversion H; subst. simpl. tauto.
  - simpl forallb. destruct (is_missing x) eqn:Hx.
    + rewrite (IH _ _ H). simpl. tauto.
    + destruct (as_float x) as [[q |] |]; try discriminate.
      rewrite (IH _ _ H). simpl. split; [intros [Hc _]; discriminate | intros [_ Hc]; discriminate].
Qed.

Lemma column_mean_missing (t : Table) (col : string) (v : Value) :
  column_mean t col = inr v ->
  (is_missing v = true <-> has_data t col = false).
Proof.
  unfold column_mean, has_data. destruct (assoc col t) as [xs |]; [| discriminate].
  intros H. peel H.
  match goal with Hs : sum_count xs _ = inr ?sc |- _ =>
    pose proof (sum_count_missing _ _ _ Hs) as Hc; destruct (snd sc) eqn:Hn end.
  - inversion H; subst. simpl.
    destruct Hc as [Hc _]. destruct (Hc eq_refl) as [_ Hall]. rewrite Hall. tauto.
  - inversion H; subst. simpl.
    destruct (forallb is_missing xs) eqn:Hall.
    + destruct Hc as [_ Hc]. simpl in Hc. specialize (Hc (conj eq_refl eq_refl)). discriminate.
    + simpl. split; discriminate.
Qed.

(** X10.  Whenever the key metrics of an annual summary are computed, the
    metric [Avg Rice Production] is the marker N/A exactly when the rice
    production column holds no value at all, which is exactly when the
    cereal production plot is left out of the plots to make. *)
Theorem rice_metric_is_na_iff_no_cereal_plot (agg_df : Table)
    (km : list (string * Metric)) :
  key_metrics_of agg_df = inr km ->
  (assoc "Avg Rice Production" km = Some NA <->
     has_data agg_df "rice_production_total" = false) /\
  (has_data agg_df "rice_production_total" = false <->
     ~ In "cereal_production_ts" (plots_to_make agg_df)).
Proof.
  intros H. split.
  - unfold key_metrics_of in H. peel H. inversion H; subst; clear H.
    cbn [assoc String.eqb Ascii.eqb Bool.eqb].
    match goal with
    | Hm : column_mean agg_df "rice_production_total" = inr ?mean,
      Hr : (if notna ?mean then _ else _) = inr ?m6 |- _ =>
        pose proof (column_mean_missing _ _ _ Hm) as Hc;
        unfold notna in Hr; destruct (is_missing mean) eqn:Hmiss; simpl in Hr
    end.
    + match goal with Hr : ret NA = inr _ |- _ => inversion Hr; subst end.
      simpl. split; [intros _; apply Hc; reflexivity | reflexivity].
    + match goal with Hr : _ = inr ?m6 |- _ => peel Hr end.
      match goal with Hr : render _ _ = inr _ |- _ =>
        unfold render in Hr;
        match type of Hr with match ?x with _ => _ end = _ => destruct x end;
        inversion Hr; subst end;
      simpl; (split; [discriminate | intros Hn; apply Hc in Hn; discriminate]).
  - clear H. unfold plots_to_make. cbn [filter].
    destruct (has_data agg_df "rice_production_total");
      destruct (has_data agg_df "stunting_prevalence");
      destruct (has_data agg_df "wasting_prevalence");
      destruct (has_data agg_df "avg_energy_intake");
      destruct (has_data agg_df "rice_price_retail");
      destruct (has_data agg_df "gdp_per_capita");
      simpl; split; intros Hx;
      try discriminate; try reflexivity;
      try (exfalso; apply Hx; left; reflexivity);
      try (intros Hin; repeat (destruct Hin as [Hin | Hin]; [discriminate |]); exact Hin).
Qed.

Lemma rice_metric_is_na_iff_no_cereal_plot_witness :
  exists km,
    key_metrics_of summary_without_rice = inr km /\
    assoc "Avg Rice Production" km = Some NA /\
    ~ In "cereal_production_ts" (plots_to_make summary_without_rice).
Proof.
  destruct (key_metrics_of summary_without_rice) as [e | km] eqn:H;
    [vm_compute in H; discriminate |].
  exists km. split; [reflexivity |].
  destruct (rice_metric_is_na_iff_no_cereal_plot summary_without_rice km H) as [H1 H2].
  split; [apply H1; reflexivity | apply H2; reflexivity].
Defined.




(** ** Market dynamics: supply and prices *)

Lemma food_item_without_total_food (production_data : Value) (group item : string) :
  is_dict production_data = true ->
  py_in "total_food" production_data = false ->
  Market.food_item production_data group item = inr (num 0).
Proof.
  destruct production_data; simpl; try discriminate. intros _ H.
  unfold Market.food_item. simpl.
  destruct (assoc "total_food" d); [discriminate |]. reflexivity.
Qed.

Lemma py_mul_zero_left (e v : Value) :
  py_mul (num 0) e = inr v -> zero_or_nan v.
Proof.
  unfold py_mul, arith, num. simpl as_float.
  destruct (as_float e) as [[y |] |]; simpl; intros H; inversion H; subst.
  - right. eexists. split; [reflexivity | ring].
  - left. reflexivity.
Qed.

Lemma py_add_zero_left (e v : Value) :
  zero_or_nan e -> py_add (num 0) e = inr v -> zero_or_nan v.
Proof.
  intros [-> | (q & -> & Hq)]; unfold py_add, arith, num; simpl; intros H;
    inversion H; subst.
  - left. reflexivity.
  - right. eexists. split; [reflexivity | rewrite Hq; ring].
Qed.

Lemma supply_without_total_food (self : Market.Model) (year : Z)
    (production_data policy_effects market_supply : Value) :
  is_dict production_data = true ->
  py_in "total_food" production_data = false ->
  Market._simulate_supply self year production_data policy_effects = inr market_supply ->
  no_supply market_supply.
Proof.
  intros Hd Hin H. unfold Market._simulate_supply in H.
  rewrite !(food_item_without_total_food _ _ _ Hd Hin) in H.
  assert (Htf : py_get production_data "total_food" empty_dict = inr empty_dict).
  { destruct production_data; simpl in *; try discriminate.
    destruct (assoc "total_food" d); [discriminate | reflexivity]. }
  rewrite Htf in H. cbn [bind] in H.
  change (py_get empty_dict "pulses" (num 0)) with (@inr Exn Value (num 0)) in H.
  peel H. inversion H; subst; clear H.
  match goal with Hz : inr (num 0) = inr _ |- _ => inversion Hz; subst; clear Hz end.
  eexists. split; [reflexivity |]. split; [reflexivity |].
  repeat (apply Forall_cons; [cbn [snd] |]); try apply Forall_nil;
    try (eapply py_mul_zero_left; eassumption).
  eapply py_add_zero_left; [| eassumption]. eapply py_mul_zero_left; eassumption.
Qed.

(** X12.  When the production data handed to [_simulate_supply] is a dict
    with no [total_food] entry, the market supply of every one of the seven
    reported commodities is zero (NaN if the export modifier is NaN), whatever
    else the data holds; vegetables are never part of the supply. *)
Theorem supply_is_zero_without_total_food (self : Market.Model) (year : Z)
    (production_data policy_effects market_supply : Value) :
  is_dict production_data = true ->
  py_in "total_food" production_data = false ->
  Market._simulate_supply self year production_data policy_effects = inr market_supply ->
  exists supply,
    market_supply = VDict supply /\
    map fst supply = supplied_commodities /\
    Forall (fun kv => zero_or_nan (snd kv)) supply.
Proof.
  intros Hd Hin H. exact (supply_without_total_food _ _ _ _ _ Hd Hin H).
Qed.

Lemma supply_is_zero_without_total_food_witness :
  exists market_supply supply,
    Market._simulate_supply quiet_market_model 2025 supply_chain_output_example
      empty_dict = inr market_supply /\
    market_supply = VDict supply /\
    map fst supply = supplied_commodities /\
    Forall (fun kv => zero_or_nan (snd kv)) supply.
Proof.
  destruct (Market._simulate_supply quiet_market_model 2025 supply_chain_output_example
              empty_dict) as [e | ms] eqn:H; [vm_compute in H; discriminate |].
  destruct (supply_is_zero_without_total_food quiet_market_model 2025
              supply_chain_output_example empty_dict ms eq_refl eq_refl H)
    as (supply & H1 & H2 & H3).
  exists ms, supply. auto.
Defined.

Lemma Forall_setitem {A} (Q : A -> Prop) (k : string) (v : A) (d : list (string * A)) :
  Forall (fun kv => Q (snd kv)) d -> Q v -> Forall (fun kv => Q (snd kv)) (setitem k v d).
Proof.
  intros Hd Hv. induction d as [| [k0 v0] d IH]; simpl.
  - constructor; [exact Hv | constructor].
  - inversion Hd; subst. destruct (String.eqb k k0); constructor; auto.
Qed.

(** A loop that stores one value per element under the element's key. *)
Lemma for_each_setitem (Q : Value -> Prop) (xs : list string)
    (body : string -> list (string * Value) -> Exc (list (string * Value))) :
  (forall x s0 s1, In x xs -> body x s0 = inr s1 -> exists v, s1 = setitem x v s0 /\ Q v) ->
  forall s s', for_each xs body s = inr s' ->
    (forall c, In c (map fst s') <-> In c xs \/ In c (map fst s)) /\
    (Forall (fun kv => Q (snd kv)) s -> Forall (fun kv => Q (snd kv)) s').
Proof.
  induction xs as [| x rest IH]; intros Hbody s s' H; simpl in H.
  - inversion H; subst. split; [intros c; simpl; tauto | auto].
  - peel H.
    destruct (Hbody x s a (or_introl eq_refl) Ha) as (v & -> & Hv).
    destruct (IH (fun x0 s0 s1 Hin => Hbody x0 s0 s1 (or_intror Hin)) _ _ H) as [Hk Hf].
    split.
    + intros c. rewrite Hk, setitem_keys. simpl. intuition.
    + intros Hs. apply Hf. apply Forall_setitem; assumption.
Qed.

Lemma py_max_one (price v : Value) :
  (exists q, price = VNum q) \/ price = VNaN ->
  py_max price (num 1) = inr v -> at_least_one v.
Proof.
  intros [(q & ->) | ->]; unfold py_max, py_gt, py_lt, num; simpl; intros H;
    inversion H; subst; clear H.
  - unfold Qlt_bool. destruct (Qle_bool 1 q) eqn:E; simpl.
    + right. exists q. split; [reflexivity | apply Qle_bool_iff; exact E].
    + right. exists 1. split; [reflexivity | apply Qle_refl].
  - left. reflexivity.
Qed.

(** X13.  The retail prices [_simulate_price_formation] returns are quoted
    for exactly the model's commodities, and none of them is below the floor
    1.0: each is a number that is at least 1, or NaN. *)
Theorem retail_prices_never_below_one (self : Market.Model) (year : Z)
    (market_supply market_demand policy_effects trade_params prices : Value) :
  Market._simulate_price_formation self year market_supply market_demand
    policy_effects trade_params = inr prices ->
  exists retail,
    stored ["retail"] prices = Some (VDict retail) /\
    (forall c, In c (map fst retail) <-> In c (Market.commodities self)) /\
    Forall (fun kv => at_least_one (snd kv)) retail.
Proof.
  unfold Market._simulate_price_formation. intros H. peel H.
  inversion H; subst; clear H.
  match goal with
  | Hl : for_each (Market.commodities self) _ [] = inr ?p |- _ =>
      exists p; split; [reflexivity |];
      refine (let '(conj Hk Hf) := for_each_setitem at_least_one _ _ _ _ _ Hl in _)
  end.
  - intros x s0 s1 _ Hb. peel Hb. inversion Hb; subst; clear Hb.
    eexists. split; [reflexivity |].
    match goal with
    | Hm : py_max ?p (num 1) = inr _, Hp : py_mul _ _ = inr ?p |- _ =>
        exact (py_max_one _ _ (arith_number _ _ _ _ _ Hp) Hm)
    end.
  - split.
    + intros c. rewrite Hk. simpl. tauto.
    + apply Hf. constructor.
Qed.

Lemma retail_prices_never_below_one_witness :
  exists prices retail,
    Market._simulate_price_formation quiet_market_model 2025 example_supply example_demand
      empty_dict empty_dict = inr prices /\
    stored ["retail"] prices = Some (VDict retail) /\
    Forall (fun kv => at_least_one (snd kv)) retail.
Proof.
  destruct (Market._simulate_price_formation quiet_market_model 2025 example_supply
              example_demand empty_dict empty_dict) as [e | prices] eqn:H;
    [vm_compute in H; discriminate |].
  destruct (retail_prices_never_below_one _ _ _ _ _ _ _ H) as (retail & H1 & _ & H2).
  exists prices, retail. auto.
Defined.

Lemma stored_py_get (c : string) (m v default : Value) :
  stored [c] m = Some v -> py_get m c default = inr v.
Proof.
  simpl. destruct m; try discriminate. simpl.
  destruct (assoc c d); [| discriminate]. intros H; inversion H; reflexivity.
Qed.

Lemma py_add_floats (a b : Value) (x y : Q) :
  as_float a = Some (Some x) -> as_float b = Some (Some y) ->
  py_add a b = inr (VNum (x + y)).
Proof. unfold py_add, arith. intros -> ->. reflexivity. Qed.

Lemma py_sub_floats (a b : Value) (x y : Q) :
  as_float a = Some (Some x) -> as_float b = Some (Some y) ->
  py_sub a b = inr (VNum (x - y)).
Proof. unfold py_sub, arith. intros -> ->. reflexivity. Qed.

Lemma py_mul_floats (a b : Value) (x y : Q) :
  as_float a = Some (Some x) -> as_float b = Some (Some y) ->
  py_mul a b = inr (VNum (x * y)).
Proof. unfold py_mul, arith. intros -> ->. reflexivity. Qed.

Lemma py_div_floats (a b : Value) (x y : Q) :
  as_float a = Some (Some x) -> as_float b = Some (Some y) -> ~ y == 0 ->
  py_div a b = inr (VNum (x / y)).
Proof.
  unfold py_div. intros -> -> Hy.
  destruct (Qeq_bool y 0) eqn:E; [apply Qeq_bool_iff in E; contradiction | reflexivity].
Qed.

Lemma base_price_positive (c : string) :
  exists b, py_get Market.base_prices c (num 50) = inr (VNum b) /\ 0 < b.
Proof.
  unfold Market.base_prices, py_get, num. cbn [assoc].
  repeat match goal with
  | |- context [if String.eqb c ?k then _ else _] => destruct (String.eqb c k)
  end; eexists; (split; [reflexivity | reflexivity]).
Qed.

Lemma Qlt_bool_true (x y : Q) : x < y -> Qlt_bool x y = true.
Proof.
  intros H. unfold Qlt_bool. destruct (Qle_bool y x) eqn:E; [| reflexivity].
  apply Qle_bool_iff in E. exfalso. exact (Qlt_not_le _ _ H E).
Qed.

(** The price of one loop iteration for a commodity that is in demand but
    not supplied, with the default elasticity factor. *)
Lemma unsupplied_price (s d b t : Q) :
  s == 0 -> 0 < d -> 0 < b -> 0 < t ->
  b * (1 + (d - s) / ((s + d) / 2) / (-5 # 10)) * t < 1.
Proof.
  intros Hs Hd Hb Ht.
  assert (Hne : ~ d == 0) by (intros E; rewrite E in Hd; exact (Qlt_irrefl _ Hd)).
  assert (E : b * (1 + (d - s) / ((s + d) / 2) / (-5 # 10)) * t == - (3 * (b * t))).
  { rewrite Hs. field. exact Hne. }
  rewrite E.
  assert (Hbt : 0 < b * t) by (apply Qmult_lt_0_compat; assumption).
  apply Qlt_trans with 0; [| reflexivity].
  apply Qopp_lt_compat in Hbt. setoid_replace (- (3 * (b * t))) with (3 * - (b * t)) by ring.
  setoid_replace 0 with (3 * 0) by ring. apply Qmult_lt_l; [reflexivity |].
  setoid_replace 0 with (- 0) by ring. exact Hbt.
Qed.

Lemma price_loop_fixed (xs : list string)
    (body : string -> list (string * Value) -> Exc (list (string * Value)))
    (c : string) (v0 : Value) :
  (forall x s0 s1, In x xs -> body x s0 = inr s1 ->
     exists v, s1 = setitem x v s0 /\ (x = c -> v = v0)) ->
  forall s s', for_each xs body s = inr s' ->
    In c xs \/ assoc c s = Some v0 -> assoc c s' = Some v0.
Proof.
  induction xs as [| x rest IH]; intros Hbody s s' H Hc; simpl in H.
  - inversion H; subst. destruct Hc as [[] | Hc]. exact Hc.
  - peel H.
    destruct (Hbody x s a (or_introl eq_refl) Ha) as (v & -> & Hv).
    apply (IH (fun x0 s0 s1 Hin => Hbody x0 s0 s1 (or_intror Hin)) _ _ H).
    destruct (string_dec x c) as [-> | Hne].
    + right. rewrite (Hv eq_refl). apply assoc_setitem_same.
    + destruct Hc as [[Hx | Hin] | Hc]; [contradiction | left; exact Hin |].
      right. rewrite assoc_setitem_other by congruence. exact Hc.
Qed.

(** X14.  A commodity of the model that is in demand while nothing of it is
    supplied is quoted at exactly the floor price 1.0 at retail, for the
    default elasticity factor and any positive import price modifier: the
    price formula turns negative and [max(price, 1.0)] replaces it. *)
Theorem unsupplied_commodity_sells_at_the_floor (self : Market.Model) (year : Z)
    (market_supply market_demand policy_effects trade_params prices : Value)
    (c : string) (s d t : Q) :
  In c (Market.commodities self) ->
  is_dict (Market.price_params self) = true ->
  py_in (c ++ "_elasticity_factor") (Market.price_params self) = false ->
  holds_number [c] market_supply s -> s == 0 ->
  holds_number [c] market_demand d -> 0 < d ->
  import_price_modifier_is policy_effects t -> 0 < t ->
  Market._simulate_price_formation self year market_supply market_demand
    policy_effects trade_params = inr prices ->
  stored ["retail"; c] prices = Some (num 1).
Proof.
  intros Hin Hpd Hpk (sv & Hsv & Hsf) Hs (dv & Hdv & Hdf) Hd
         (tpe & tv & Htpe & Htv & Htf) Ht H.
  unfold Market._simulate_price_formation in H. peel H.
  inversion H; subst; clear H.
  match goal with
  | Hl : for_each (Market.commodities self) _ [] = inr ?p |- _ =>
      assert (Hc : assoc c p = Some (num 1));
      [ refine (price_loop_fixed _ _ c (num 1) _ _ _ Hl (or_introl Hin)) |]
  end.
  - intros x s0 s1 _ Hb.
    destruct (string_dec x c) as [-> | Hne].
    + rewrite (stored_py_get _ _ _ Market.tiny Hsv) in Hb. cbn [bind] in Hb.
      rewrite (stored_py_get _ _ _ Market.tiny Hdv) in Hb. cbn [bind] in Hb.
      destruct (base_price_positive c) as (b & Hb0 & Hbpos).
      rewrite Hb0 in Hb. cbn [bind] in Hb.
      rewrite (py_add_floats _ _ _ _ Hsf Hdf) in Hb. cbn [bind] in Hb.
      assert (Hsd : 0 < s + d) by (rewrite Hs, Qplus_0_l; exact Hd).
      assert (Hgt : py_gt (VNum (s + d)) (num 0) = inr true).
      { unfold py_gt, py_lt, num. cbn [as_float ret]. rewrite (Qlt_bool_true _ _ Hsd).
        reflexivity. }
      rewrite Hgt in Hb. cbn [bind] in Hb.
      rewrite (py_sub_floats _ _ _ _ Hdf Hsf) in Hb. cbn [bind] in Hb.
      rewrite (py_div_floats (VNum (s + d)) (num 2) (s + d) 2 eq_refl eq_refl) in Hb
        by (intros E; discriminate).
      cbn [bind] in Hb.
      assert (Hhalf : ~ (s + d) / 2 == 0).
      { intros E. assert (E' : s + d == 0) by (rewrite <- (Qmult_div_r (s + d) 2), E by discriminate; ring).
        rewrite E' in Hsd. exact (Qlt_irrefl _ Hsd). }
      rewrite (py_div_floats (VNum (d - s)) (VNum ((s + d) / 2)) _ _ eq_refl eq_refl Hhalf) in Hb.
      cbn [bind] in Hb.
      assert (Hpef : py_get (Market.price_params self) (c ++ "_elasticity_factor") (dec (-5) 10)
                     = inr (dec (-5) 10)).
      { destruct (Market.price_params self); simpl in *; try discriminate.
        destruct (assoc (c ++ "_elasticity_factor") d0); [discriminate | reflexivity]. }
      rewrite Hpef in Hb. cbn [bind] in Hb.
      change (py_ne_num (dec (-5) 10) 0) with true in Hb. cbv iota in Hb.
      rewrite (py_div_floats (VNum ((d - s) / ((s + d) / 2))) (dec (-5) 10) _ (-5 # 10)
                 eq_refl eq_refl) in Hb by (intros E; discriminate).
      cbn [bind] in Hb.
      rewrite (py_add_floats (num 1) (VNum _) 1 _ eq_refl eq_refl) in Hb. cbn [bind] in Hb.
      rewrite Htpe in Hb. cbn [bind] in Hb. rewrite Htv in Hb. cbn [bind] in Hb.
      rewrite (py_mul_floats (VNum b) (VNum _) b _ eq_refl eq_refl) in Hb. cbn [bind] in Hb.
      rewrite (py_mul_floats (VNum _) tv _ t eq_refl Htf) in Hb. cbn [bind] in Hb.
      unfold py_max, py_gt, py_lt, num in Hb. cbn [as_float bind ret] in Hb.
      rewrite (Qlt_bool_true _ _ (unsupplied_price s d b t Hs Hd Hbpos Ht)) in Hb.
      inversion Hb; subst. eexists. split; [reflexivity | reflexivity].
    + peel Hb. inversion Hb; subst. eexists. split; [reflexivity | intros E; contradiction].
  - simpl. rewrite Hc. reflexivity.
Qed.

Lemma unsupplied_commodity_sells_at_the_floor_witness :
  exists prices,
    Market._simulate_price_formation quiet_market_model 2025 example_supply example_demand
      empty_dict empty_dict = inr prices /\
    stored ["retail"; "rice"] prices = Some (num 1).
Proof.
  destruct (Market._simulate_price_formation quiet_market_model 2025 example_supply
              example_demand empty_dict empty_dict) as [e | prices] eqn:H;
    [vm_compute in H; discriminate |].
  exists prices. split; [reflexivity |].
  apply (unsupplied_commodity_sells_at_the_floor quiet_market_model 2025 example_supply
           example_demand empty_dict empty_dict prices "rice" 0 25500000 1).
  - left. reflexivity.
  - reflexivity.
  - reflexivity.
  - exists (num 0). split; reflexivity.
  - reflexivity.
  - exists (num 25500000). split; reflexivity.
  - reflexivity.
  - exists empty_dict, (num 1). repeat split; reflexivity.
  - reflexivity.
  - exact H.
Defined.

Lemma for_items_setitem (Q : Value -> Prop) (items : list (string * Value))
    (body : string -> Value -> list (string * Value) -> Exc (list (string * Value))) :
  (forall k v s0 s1, In (k, v) items -> body k v s0 = inr s1 ->
     exists w, s1 = setitem k w s0 /\ Q w) ->
  forall s s', for_items items body s = inr s' ->
    (forall c, In c (map fst s') <-> In c (map fst items) \/ In c (map fst s)) /\
    (Forall (fun kv => Q (snd kv)) s -> Forall (fun kv => Q (snd kv)) s').
Proof.
  induction items as [| [k v] rest IH]; intros Hbody s s' H; simpl in H.
  - inversion H; subst. split; [intros c; simpl; tauto | auto].
  - peel H.
    destruct (Hbody k v s a (or_introl eq_refl) Ha) as (w & -> & Hw).
    destruct (IH (fun k0 v0 s0 s1 Hin => Hbody k0 v0 s0 s1 (or_intror Hin)) _ _ H) as [Hk Hf].
    split.
    + intros c. rewrite Hk, setitem_keys. simpl. intuition.
    + intros Hs. apply Hf. apply Forall_setitem; assumption.
Qed.

Lemma base_demand_positive (k : string) (v : Value) :
  In (k, v) Market.base_demand_per_cap -> exists b, as_float v = Some (Some b) /\ 0 < b.
Proof.
  unfold Market.base_demand_per_cap. simpl.
  intros H. repeat (destruct H as [H | H]; [inversion H; subst; eexists; split; reflexivity |]).
  destruct H.
Qed.

Lemma demand_formula_positive (b y p tv : Q) :
  0 < b -> - (2000) < y -> 0 < p -> - (9) < tv ->
  0 < b * (1 + (5 # 10) * ((y - 2000) / 2000)) * p * (tv * (1 # 10) + (9 # 10)).
Proof.
  intros Hb Hy Hp Htv.
  assert (H1 : 0 < 1 + (5 # 10) * ((y - 2000) / 2000)).
  { setoid_replace (1 + (5 # 10) * ((y - 2000) / 2000)) with ((y + 2000) * (1 # 4000))
      by (field).
    apply Qmult_lt_0_compat; [| reflexivity].
    setoid_replace 0 with (- (2000) + 2000) by ring.
    apply Qplus_lt_le_compat; [exact Hy | apply Qle_refl]. }
  assert (H2 : 0 < tv * (1 # 10) + (9 # 10)).
  { setoid_replace (tv * (1 # 10) + (9 # 10)) with ((tv + 9) * (1 # 10)) by ring.
    apply Qmult_lt_0_compat; [| reflexivity].
    setoid_replace 0 with (- (9) + 9) by ring.
    apply Qplus_lt_le_compat; [exact Htv | apply Qle_refl]. }
  repeat apply Qmult_lt_0_compat; assumption.
Qed.

(** X15.  With the default income elasticities, a positive population, a GDP
    per capita that is not negative and a transfer value modifier that is not
    negative, the market demand is quoted for exactly the eight commodities
    and every demand is a positive number: the income effect is then at
    least 0.5 and the demand modifier at least 0.9. *)
Theorem demand_is_positive (self : Market.Model) (year : Z)
    (socioeconomic_state policy_effects market_demand : Value) (p y tv : Q) :
  is_dict (Market.demand_params self) = true ->
  (forall c, py_in (c ++ "_income_elasticity") (Market.demand_params self) = false) ->
  holds_number ["population"; "total_population"] socioeconomic_state p -> 0 < p ->
  holds_number ["economy"; "gdp_per_capita"] socioeconomic_state y -> 0 <= y ->
  transfer_value_modifier_is policy_effects tv -> 0 <= tv ->
  Market._simulate_demand self year socioeconomic_state policy_effects = inr market_demand ->
  exists demand,
    market_demand = VDict demand /\
    (forall c, In c (map fst demand) <-> In c Market.commodity_list) /\
    Forall (fun kv => positive_number (snd kv)) demand.
Proof.
  intros Hdd Hdk (pv & Hpv & Hpf) Hp (yv & Hyv & Hyf) Hy (spe & tvv & Hspe & Htv & Htf) Htvp H.
  unfold Market._simulate_demand in H.
  simpl in Hpv, Hyv. destruct socioeconomic_state; try discriminate.
  destruct (assoc "population" d) as [pd |] eqn:Hpd; [| discriminate].
  destruct pd; try discriminate.
  destruct (assoc "total_population" d0) as [v |] eqn:Hv; [| discriminate].
  inversion Hpv; subst v; clear Hpv.
  destruct (assoc "economy" d) as [ed |] eqn:Hed; [| discriminate].
  destruct ed; try discriminate.
  destruct (assoc "gdp_per_capita" d1) as [v |] eqn:Hw; [| discriminate].
  inversion Hyv; subst v; clear Hyv.
  cbn [py_get bind ret] in H. rewrite Hpd in H. cbn [py_get bind ret] in H.
  rewrite Hv, Hed in H. cbn [py_get bind ret] in H. rewrite Hw in H.
  peel H. inversion H; subst; clear H.
  eexists. split; [reflexivity |].
  match goal with
  | Hl : for_items Market.base_demand_per_cap _ [] = inr _ |- _ =>
      refine (let '(conj Hk Hf) := for_items_setitem positive_number _ _ _ _ _ Hl in _)
  end.
  - intros k v s0 s1 Hin Hb.
    destruct (base_demand_positive k v Hin) as (b & Hbf & Hbpos).
    assert (Hie : py_get (Market.demand_params self) (k ++ "_income_elasticity") (dec 5 10)
                  = inr (dec 5 10)).
    { specialize (Hdk k). destruct (Market.demand_params self); simpl in *; try discriminate.
      destruct (assoc (k ++ "_income_elasticity") d2); [discriminate | reflexivity]. }
    rewrite Hie in Hb. cbn [bind] in Hb.
    rewrite (py_sub_floats yv (num 2000) y 2000 Hyf eq_refl) in Hb. cbn [bind] in Hb.
    rewrite (py_div_floats (VNum (y - 2000)) (num 2000) _ 2000 eq_refl eq_refl) in Hb
      by (intros E; discriminate).
    cbn [bind] in Hb.
    rewrite (py_mul_floats (dec 5 10) (VNum _) (5 # 10) _ eq_refl eq_refl) in Hb.
    cbn [bind] in Hb.
    rewrite (py_add_floats (num 1) (VNum _) 1 _ eq_refl eq_refl) in Hb. cbn [bind] in Hb.
    rewrite Hspe in Hb. cbn [bind] in Hb. rewrite Htv in Hb. cbn [bind] in Hb.
    rewrite (py_mul_floats tvv (dec 1 10) tv (1 # 10) Htf eq_refl) in Hb. cbn [bind] in Hb.
    rewrite (py_add_floats (VNum _) (dec 9 10) _ (9 # 10) eq_refl eq_refl) in Hb.
    cbn [bind] in Hb.
    rewrite (py_mul_floats v (VNum _) b _ Hbf eq_refl) in Hb. cbn [bind] in Hb.
    rewrite (py_mul_floats (VNum _) pv _ p eq_refl Hpf) in Hb. cbn [bind] in Hb.
    rewrite (py_mul_floats (VNum _) (VNum _) _ _ eq_refl eq_refl) in Hb. cbn [bind] in Hb.
    inversion Hb; subst. eexists. split; [reflexivity |].
    eexists. split; [reflexivity |].
    apply demand_formula_positive; try assumption.
    + apply Qlt_le_trans with 0; [reflexivity | exact Hy].
    + apply Qlt_le_trans with 0; [reflexivity | exact Htvp].
  - split.
    + intros c. rewrite Hk. simpl. tauto.
    + apply Hf. constructor.
Qed.

Lemma demand_is_positive_witness :
  exists market_demand demand,
    Market._simulate_demand quiet_market_model 2025 example_carried_state empty_dict
      = inr market_demand /\
    market_demand = VDict demand /\
    Forall (fun kv => positive_number (snd kv)) demand.
Proof.
  destruct (Market._simulate_demand quiet_market_model 2025 example_carried_state empty_dict)
    as [e | md] eqn:H; [vm_compute in H; discriminate |].
  destruct (demand_is_positive quiet_market_model 2025 example_carried_state empty_dict md
              170000000 2600 1) as (demand & H1 & _ & H2).
  - reflexivity.
  - intros c. reflexivity.
  - exists (num 170000000). split; reflexivity.
  - reflexivity.
  - exists (VInt 2600). split; reflexivity.
  - unfold Qle; simpl; lia.
  - exists empty_dict, (num 1). repeat split; reflexivity.
  - unfold Qle; simpl; lia.
  - exact H.
  - exists md, demand. auto.
Defined.

(** ** The market in the yearly record *)

(** X16.  In the record of every year the runner completes, the market
    state reports no trade, whatever the models returned; and whenever the
    supply chain output of that year, which the runner passes to the market
    model as its production data, is a dict with no [total_food] entry, the
    market supply in the record is zero (or NaN) for every reported
    commodity. *)
Theorem year_record_has_no_supply_and_no_trade (W : Collaborators) (m : Models W)
    (sc : string) (y : Z) (st h : Value) (outs : list Value)
    (yearly_data st' : Value) :
  simulate_year W m sc y st h outs = inr (yearly_data, st') ->
  stored ["market_state"; "trade_flows"] yearly_data
    = Some (VDict [("imports", empty_dict); ("exports", empty_dict)]) /\
  exists supply_chain_output market_supply,
    stored ["supply_chain_output"] yearly_data = Some supply_chain_output /\
    stored ["market_state"; "market_supply"] yearly_data = Some market_supply /\
    (is_dict supply_chain_output = true ->
     py_in "total_food" supply_chain_output = false ->
     no_supply market_supply).
Proof.
  unfold simulate_year. intros H. peel H. cbv zeta in H.
  inversion H; subst; clear H.
  match goal with
  | Hm : Market.simulate_market_dynamics _ _ _ _ _ = inr _ |- _ =>
      unfold Market.simulate_market_dynamics in Hm; peel Hm;
      inversion Hm; subst; clear Hm
  end.
  match goal with
  | Ht : Market._simulate_trade_flows _ _ _ _ _ = inr _ |- _ =>
      apply trade_flows_empty in Ht; subst
  end.
  split; [reflexivity |].
  do 2 eexists. split; [reflexivity |]. split; [reflexivity |].
  intros Hd Hin. eapply supply_without_total_food; eassumption.
Qed.

Lemma year_record_has_no_supply_and_no_trade_witness :
  match prepare (standin_world None) "baseline" three_year_config with
  | Ready _ m first last _ st h =>
      match simulate_year (standin_world None) m "baseline" first st h [] with
      | inr (yearly_data, _) =>
          stored ["market_state"; "trade_flows"] yearly_data
            = Some (VDict [("imports", empty_dict); ("exports", empty_dict)]) /\
          exists market_supply,
            stored ["market_state"; "market_supply"] yearly_data = Some market_supply /\
            no_supply market_supply
      | inl _ => False
      end
  | Ended _ _ _ => False
  end.
Proof.
  destruct (prepare (standin_world None) "baseline" three_year_config)
    as [l o | m first last ps st h] eqn:Hprep; [vm_compute in Hprep; discriminate |].
  destruct (simulate_year (standin_world None) m "baseline" first st h [])
    as [e | [yd st']] eqn:Hy.
  - vm_compute in Hprep. inversion Hprep; subst. vm_compute in Hy. discriminate.
  - destruct (year_record_has_no_supply_and_no_trade (standin_world None) m "baseline"
                first st h [] yd st' Hy) as (Htrade & sco & ms & Hsco & Hms & Hzero).
    split; [exact Htrade |].
    exists ms. split; [exact Hms |]. apply Hzero.
    + vm_compute in Hprep. inversion Hprep; subst. vm_compute in Hy.
      inversion Hy; subst. vm_compute in Hsco. inversion Hsco; subst. reflexivity.
    + vm_compute in Hprep. inversion Hprep; subst. vm_compute in Hy.
      inversion Hy; subst. vm_compute in Hsco. inversion Hsco; subst. reflexivity.
Defined.
